(** * Finance agent backend: ledger, calculator, exporter and orchestrator

    A shallow embedding of
    - [app/agent/memory.py]            (the flat-file store),
    - [app/agent/tools/portfolio_manager.py] (the ledger engine),
    - [app/agent/tools/calculator.py]  (the finance calculator),
    - [app/agent/tools/exporter.py]    (the CSV/PDF exporters),
    - [app/agent/core.py]              (the orchestrator of queries),
    with the Python values they compute on: binary64 floats, [decimal.Decimal]
    with its default context, insertion-ordered dicts, strings and exceptions.

    What the model takes for granted:
    - in [PortfolioManager], the JSON file is absent or well-formed and file
      I/O succeeds, so the only [ValueError]s are the validation errors;
      [Disk] and [Ledger] further down add the file that is missing, that
      cannot be opened or parsed, that is no text in the encoding it is read
      with, or that holds a JSON value which is no object; writes are still
      taken to succeed;
    - a memory file that holds a JSON object maps user ids to records of the
      shape the ledger writes, and a portfolio has that shape too (a
      quantity, a list of lots, an optional current price);
    - [**] on floats is the C library's [pow], of which the calculator is
      independent: it is a parameter, instantiated by the correctly rounded
      power where an example needs a value;
    - a string is a Python [str] of code points below 256, one character
      each; what is stated about the orchestrator's queries is stated for
      ASCII queries;
    - the chart functions of the [visualizer] module, which the sources do
      not contain, and the markup parser of reportlab's [Paragraph] are
      parameters. *)

From Stdlib Require Import ZArith NArith List String Bool Lia.
From Stdlib Require Import Floats.SpecFloat.
From Stdlib Require DecimalString.
Import ListNotations.
Open Scope Z_scope.

(** ** Exceptions and results *)

(** The exceptions the modelled code raises or lets through.  [ValueError] is
    the specification's [ValidationError]; it carries the message of the
    [raise] statement.  The last three are met when the memory file or a
    method is not what the code expects; a [UnicodeDecodeError] is a
    [ValueError] to every [except ValueError] clause. *)
Inductive exn : Type :=
| ValueError (msg : string)
| InvalidOperation        (* decimal.InvalidOperation *)
| ZeroDivisionError
| OverflowError
| IndexError
| UnicodeDecodeError (msg : string)
| AttributeError (msg : string)
| TypeError (msg : string).

Inductive result (A : Type) : Type :=
| Ok (a : A)
| Raise (e : exn).

Arguments Ok {A} a.
Arguments Raise {A} e.

Definition bind {A B : Type} (c : result A) (k : A -> result B) : result B :=
  match c with
  | Ok a => k a
  | Raise e => Raise e
  end.

Notation "x <- c ;; k" := (bind c (fun x => k))
  (at level 61, c at next level, right associativity).

Notation "' pat <- c ;; k" := (bind c (fun x => match x with pat => k end))
  (at level 61, pat pattern, c at next level, right associativity).

(** Running [f] over a list, left to right, stopping at the first exception. *)
Fixpoint mapM {A B : Type} (f : A -> result B) (l : list A) : result (list B) :=
  match l with
  | [] => Ok []
  | a :: l' => b <- f a ;; bs <- mapM f l' ;; Ok (b :: bs)
  end.

(** [if cond: raise ValueError(msg)] *)
Definition raise_if {A : Type} (cond : bool) (msg : string) (k : result A) : result A :=
  if cond then Raise (ValueError msg) else k.

Definition is_ValueError {A : Type} (r : result A) : bool :=
  match r with
  | Raise (ValueError _) => true
  | _ => false
  end.

Definition is_Ok {A : Type} (r : result A) : bool :=
  match r with
  | Ok _ => true
  | Raise _ => false
  end.

(** ** Python floats: IEEE 754 binary64 *)

Module Float64.

Definition prec : Z := 53.
Definition emax : Z := 1024.

(** A Python [float]: a zero, an infinity, NaN, or [(-1)^s * m * 2^e].  The
    values Python builds are the canonical ones ([valid_binary prec emax]),
    which the operations below return on canonical arguments.  An argument
    the source annotates [float] is a [float] here; an [int] passed for it
    (as the tests do) stands for the float of the same value. *)
Definition float : Type := spec_float.

Definition zero : float := S754_zero false.

Definition add : float -> float -> float := SFadd prec emax.
Definition sub : float -> float -> float := SFsub prec emax.
Definition mul : float -> float -> float := SFmul prec emax.

Definition eqb : float -> float -> bool := SFeqb.
Definition ltb : float -> float -> bool := SFltb.
Definition leb : float -> float -> bool := SFleb.

Definition is_nan (x : float) : bool :=
  match x with S754_nan => true | _ => false end.

Definition is_inf (x : float) : bool :=
  match x with S754_infinity _ => true | _ => false end.

(** The IEEE quotient. *)
Definition quotient : float -> float -> float := SFdiv prec emax.

(** [x / y]: Python raises when the divisor compares equal to zero. *)
Definition div (x y : float) : result float :=
  if eqb y zero then Raise ZeroDivisionError else Ok (quotient x y).

(** Conversion of a Python [int] operand: correctly rounded, and
    [OverflowError] when the integer is too large for a float. *)
Definition of_int (z : Z) : result float :=
  let f := binary_normalize prec emax z 0 false in
  if is_inf f then Raise OverflowError else Ok f.

(** Small integer constants of the source ([0], [1], [100]). *)
Definition const (z : Z) : float := binary_normalize prec emax z 0 false.

(** Structural equality of representations (decides [=]). *)
Definition same (x y : float) : bool :=
  match x, y with
  | S754_zero s1, S754_zero s2 => Bool.eqb s1 s2
  | S754_infinity s1, S754_infinity s2 => Bool.eqb s1 s2
  | S754_nan, S754_nan => true
  | S754_finite s1 m1 e1, S754_finite s2 m2 e2 =>
      Bool.eqb s1 s2 && Pos.eqb m1 m2 && Z.eqb e1 e2
  | _, _ => false
  end.

End Float64.

(** ** [decimal.Decimal] under the default context *)

Module Decimal.

(** A [Decimal]: sign, coefficient and exponent, or a special value. *)
Inductive decimal : Type :=
| Finite (sign : bool) (coeff : N) (exp : Z)
| Infinity (sign : bool)
| NaN.

Inductive rounding : Type := ROUND_HALF_UP | ROUND_HALF_EVEN.

(** [getcontext()]: precision 28, rounding ROUND_HALF_EVEN. *)
Definition context_prec : Z := 28.
Definition default_rounding : rounding := ROUND_HALF_EVEN.

Fixpoint ndigits_aux (fuel : nat) (c : N) (k : Z) : Z :=
  match fuel with
  | O => k
  | S fuel' => if (c <? 10)%N then k else ndigits_aux fuel' (c / 10)%N (k + 1)
  end.

(** [len(self._int)]: the number of decimal digits of the coefficient. *)
Definition ndigits (c : N) : Z := ndigits_aux (N.to_nat (N.size c)) c 1.

Definition pow10 (k : Z) : N := Z.to_N (10 ^ k).

(** [self._rescale(exp, rounding)] on the coefficient, for a finite value
    [coeff * 10^e] moved to exponent [target]. *)
Definition rescale (r : rounding) (c : N) (e target : Z) : N :=
  if target <=? e then (c * pow10 (e - target))%N
  else
    let p := pow10 (target - e) in
    let q := (c / p)%N in
    let rem := (c mod p)%N in
    let up :=
      match r with
      | ROUND_HALF_UP => (p <=? 2 * rem)%N
      | ROUND_HALF_EVEN =>
          (p <? 2 * rem)%N || ((p =? 2 * rem)%N && N.odd q)
      end in
    if up then (q + 1)%N else q.

(** [self.quantize(Decimal("0.01"), rounding=r)]. *)
Definition quantize (r : rounding) (d : decimal) : result decimal :=
  match d with
  | NaN => Ok NaN
  | Infinity _ => Raise InvalidOperation
  | Finite s c e =>
      if (c =? 0)%N then Ok (Finite s 0 (-2))
      else if context_prec <? (e + ndigits c - 1) - (-2) + 1
      then Raise InvalidOperation
      else
        let c' := rescale r c e (-2) in
        if context_prec <? ndigits c' then Raise InvalidOperation
        else Ok (Finite s c' (-2))
  end.

(** [float(d)]: the float nearest to the decimal value, ties to even. *)
Definition to_float (d : decimal) : Float64.float :=
  match d with
  | NaN => S754_nan
  | Infinity s => S754_infinity s
  | Finite s c e =>
      match c with
      | N0 => S754_zero s
      | Npos m =>
          if 0 <=? e then
            binary_normalize Float64.prec Float64.emax
              (cond_Zopp s (Zpos m * 10 ^ e)) 0 s
          else
            let '(q, e', l) :=
              SFdiv_core_binary Float64.prec Float64.emax
                (Zpos m) 0 (10 ^ (- e)) 0 in
            binary_round_aux Float64.prec Float64.emax s q e' l
      end
  end.

End Decimal.

(** A float written as a decimal literal in the source: [lit c e] is the
    float the literal [c * 10^e] denotes, e.g. [lit 5 (-2)] for [0.05]. *)
Definition lit (c : Z) (e : Z) : Float64.float :=
  Decimal.to_float (Decimal.Finite (c <? 0) (Z.abs_N c) e).


(** ** [str] of a float

    [repr(x)] prints the shortest decimal string that reads back as [x] (and,
    among those, the one nearest to [x]); [Decimal(str(x))] reads that string
    exactly.  [Repr.to_decimal] is the composition: the digits and exponent of
    the printed string as a [Decimal]. *)

Module Repr.

Import Decimal.

(** The largest [p] with [10^p <= num/den], for [num/den < 1] searched
    downwards from [-1]. *)
Fixpoint ilog10_neg (fuel : nat) (num den : Z) (j : Z) : Z :=
  match fuel with
  | O => - j
  | S fuel' =>
      if den <=? num * 10 then - j
      else ilog10_neg fuel' (num * 10) den (j + 1)
  end.

Definition ilog10 (num den : Z) : Z :=
  if den <=? num then ndigits (Z.to_N (num / den)) - 1
  else ilog10_neg (Z.to_nat (Z.log2 den + 1)) num den 1.

(** The two [k]-digit neighbours [lo, lo + 1] (times [10^t]) of the positive
    rational [num/den] whose decimal exponent is [p]; the comparison says
    which is nearer. *)
Definition neighbours (num den p k : Z) : Z * Z * comparison :=
  let t := p - k + 1 in
  let '(n', d') :=
    if 0 <=? t then (num, den * 10 ^ t) else (num * 10 ^ (- t), den) in
  let lo := n' / d' in
  (lo, t, (2 * n') ?= ((2 * lo + 1) * d')).

Definition reads_back (s : bool) (c t : Z) (x : Float64.float) : bool :=
  Float64.same (to_float (Finite s (Z.to_N c) t)) x.

(** Try [k], [k+1], ... significant digits; 17 always suffice for a
    canonical binary64 value. *)
Fixpoint shortest (fuel : nat) (s : bool) (x : Float64.float)
         (num den p k : Z) : Z * Z :=
  let '(lo, t, side) := neighbours num den p k in
  let hi := lo + 1 in
  let nearest := match side with Gt => hi | _ => lo end in
  match fuel with
  | O => (nearest, t)
  | S fuel' =>
      let lo_ok := reads_back s lo t x in
      let hi_ok := reads_back s hi t x in
      if lo_ok && hi_ok then (nearest, t)
      else if lo_ok then (lo, t)
      else if hi_ok then (hi, t)
      else shortest fuel' s x num den p (k + 1)
  end.

(** [Decimal(str(x))]. *)
Definition to_decimal (x : Float64.float) : decimal :=
  match x with
  | S754_nan => NaN
  | S754_infinity s => Infinity s
  | S754_zero s => Finite s 0 (-1)
  | S754_finite s m e =>
      let '(num, den) :=
        if 0 <=? e then (Zpos m * 2 ^ e, 1) else (Zpos m, 2 ^ (- e)) in
      let p := ilog10 num den in
      let '(c, t) := shortest 16 s x num den p 1 in
      Finite s (Z.to_N c) t
  end.

End Repr.

(** [float(Decimal(str(x)).quantize(Decimal("0.01"), rounding=r))], the
    rounding idiom of the three tools. *)
Definition quantize2 (r : Decimal.rounding) (x : Float64.float)
  : result Float64.float :=
  d <- Decimal.quantize r (Repr.to_decimal x) ;;
  Ok (Decimal.to_float d).

Definition round_half_up (x : Float64.float) : result Float64.float :=
  quantize2 Decimal.ROUND_HALF_UP x.

(** ** Python dicts with string keys

    A [dict] keeps its keys unique and in insertion order: assigning to a key
    that is present replaces the value in place, assigning to a new key
    appends, and [del] drops the key. *)

Module Dict.

Section WithValue.

Variable V : Type.

Definition dict : Type := list (string * V).

Definition empty : dict := [].

(** [d.get(k)] *)
Fixpoint get (k : string) (d : dict) : option V :=
  match d with
  | [] => None
  | (k', v) :: rest => if String.eqb k k' then Some v else get k rest
  end.

(** [k in d] *)
Definition mem (k : string) (d : dict) : bool :=
  match get k d with
  | Some _ => true
  | None => false
  end.

Fixpoint replace (k : string) (v : V) (d : dict) : dict :=
  match d with
  | [] => []
  | (k', v') :: rest =>
      if String.eqb k k' then (k', v) :: rest
      else (k', v') :: replace k v rest
  end.

(** [d[k] = v] *)
Definition set (k : string) (v : V) (d : dict) : dict :=
  if mem k d then replace k v d else d ++ [(k, v)].

(** [del d[k]] *)
Definition del (k : string) (d : dict) : dict :=
  filter (fun kv => negb (String.eqb k (fst kv))) d.

Definition keys (d : dict) : list string := map fst d.

(** Keys are unique: what every Python dict satisfies. *)
Definition wf (d : dict) : Prop := NoDup (keys d).

End WithValue.

Arguments empty {V}.
Arguments get {V} k d.
Arguments mem {V} k d.
Arguments replace {V} k v d.
Arguments set {V} k v d.
Arguments del {V} k d.
Arguments keys {V} d.
Arguments wf {V} d.

End Dict.

(** [not s] for a [str]: true on the empty string only. *)
Definition falsy (s : string) : bool := String.eqb s "".

(** ** The ledger's data *)

(** An entry of ["purchase_prices"]: [{"quantity": ..., "price": ...}]. *)
Module Lot.
Record t : Type := mk {
  quantity : Float64.float;
  price : Float64.float
}.
End Lot.

(** A portfolio entry:
    [{"quantity": ..., "purchase_prices": [...], "current_price": ...}]. *)
Module Holding.
Record t : Type := mk {
  quantity : Float64.float;
  purchase_prices : list Lot.t;
  current_price : option Float64.float   (* [None] until it is set *)
}.
End Holding.

Definition Portfolio : Type := Dict.dict Holding.t.

(** ** [app/agent/memory.py]

    [memory.json] maps a user id to that user's record.  The record holds the
    ledger's ["portfolio"] key, when it was ever written, and sibling keys the
    ledger never reads.  The file is taken to be absent (the empty mapping) or
    well-formed JSON, and reads and writes to succeed. *)

Record Memory : Type := mkMemory {
  mem_portfolio : option Portfolio;
  mem_siblings : list (string * string)
}.

Definition File : Type := Dict.dict Memory.

Definition empty_memory : Memory := mkMemory None [].

Definition load_memory (user_id : string) (file : File) : Memory :=
  match Dict.get user_id file with
  | Some data => data
  | None => empty_memory
  end.

Definition save_memory (user_id : string) (data : Memory) (file : File) : File :=
  Dict.set user_id data file.

(** [memory.get("portfolio", {})] *)
Definition memory_portfolio (memory : Memory) : Portfolio :=
  match mem_portfolio memory with
  | Some p => p
  | None => Dict.empty
  end.

(** [memory["portfolio"] = portfolio] *)
Definition memory_set_portfolio (memory : Memory) (portfolio : Portfolio) : Memory :=
  mkMemory (Some portfolio) (mem_siblings memory).

(** ** [app/agent/tools/portfolio_manager.py]

    Each operation takes the file's contents and returns the portfolio it
    returns in Python together with the file's new contents.  [save_memory] is
    the last effect of every operation, so an exception leaves the file as it
    was. *)

Module PortfolioManager.

Definition add_asset (user_id asset_name : string)
           (quantity purchase_price : Float64.float) (file : File)
  : result (Portfolio * File) :=
  raise_if (falsy user_id) "User ID must be a non-empty string" (
  raise_if (falsy asset_name) "Asset name must be a non-empty string" (
  raise_if (Float64.leb quantity Float64.zero) "Quantity must be positive" (
  raise_if (Float64.ltb purchase_price Float64.zero)
           "Purchase price cannot be negative" (
    let memory := load_memory user_id file in
    let portfolio := memory_portfolio memory in
    portfolio' <-
      match Dict.get asset_name portfolio with
      | Some h =>
          (* portfolio[asset_name]["quantity"] += ... *)
          q <- round_half_up quantity ;;
          let h1 := Holding.mk (Float64.add (Holding.quantity h) q)
                               (Holding.purchase_prices h)
                               (Holding.current_price h) in
          (* portfolio[asset_name]["purchase_prices"].append(...) *)
          p <- round_half_up purchase_price ;;
          let h2 := Holding.mk (Holding.quantity h1)
                               (Holding.purchase_prices h1 ++ [Lot.mk quantity p])
                               (Holding.current_price h1) in
          Ok (Dict.set asset_name h2 portfolio)
      | None =>
          q <- round_half_up quantity ;;
          p <- round_half_up purchase_price ;;
          Ok (Dict.set asset_name
                (Holding.mk q [Lot.mk quantity p] None)
                portfolio)
      end ;;
    Ok (portfolio',
        save_memory user_id (memory_set_portfolio memory portfolio') file))))).

Definition remove_asset (user_id asset_name : string) (file : File)
  : result (Portfolio * File) :=
  raise_if (falsy user_id) "User ID must be a non-empty string" (
  raise_if (falsy asset_name) "Asset name must be a non-empty string" (
    let memory := load_memory user_id file in
    let portfolio := memory_portfolio memory in
    if Dict.mem asset_name portfolio then
      let portfolio' := Dict.del asset_name portfolio in
      Ok (portfolio',
          save_memory user_id (memory_set_portfolio memory portfolio') file)
    else Ok (portfolio, file))).

Definition get_portfolio (user_id : string) (file : File) : result Portfolio :=
  raise_if (falsy user_id) "User ID must be a non-empty string" (
    Ok (memory_portfolio (load_memory user_id file))).

Definition update_current_price (user_id asset_name : string)
           (current_price : Float64.float) (file : File)
  : result (Portfolio * File) :=
  raise_if (falsy user_id) "User ID must be a non-empty string" (
  raise_if (falsy asset_name) "Asset name must be a non-empty string" (
  raise_if (Float64.ltb current_price Float64.zero)
           "Current price cannot be negative" (
    let memory := load_memory user_id file in
    let portfolio := memory_portfolio memory in
    match Dict.get asset_name portfolio with
    | Some h =>
        p <- round_half_up current_price ;;
        let portfolio' :=
          Dict.set asset_name
            (Holding.mk (Holding.quantity h) (Holding.purchase_prices h) (Some p))
            portfolio in
        Ok (portfolio',
            save_memory user_id (memory_set_portfolio memory portfolio') file)
    | None => Ok (portfolio, file)
    end))).

End PortfolioManager.

(** ** [app/agent/tools/calculator.py] *)

Module CalculatorTool.

Definition calculate_roi (initial_investment final_value : Float64.float)
  : result Float64.float :=
  raise_if (Float64.leb initial_investment Float64.zero)
           "Initial investment must be positive" (
  raise_if (Float64.ltb final_value Float64.zero)
           "Final value cannot be negative" (
    ratio <- Float64.div (Float64.sub final_value initial_investment)
                         initial_investment ;;
    let roi := Float64.mul ratio (Float64.const 100) in
    round_half_up roi)).

(** [principal * (1 + rate * years)] *)
Definition simple_amount (principal rate : Float64.float) (years : Z)
  : result Float64.float :=
  years' <- Float64.of_int years ;;
  Ok (Float64.mul principal
        (Float64.add (Float64.const 1) (Float64.mul rate years'))).

Definition simple_interest (principal rate : Float64.float) (years : Z)
  : result Float64.float :=
  raise_if (Float64.leb principal Float64.zero) "Principal must be positive" (
  raise_if (Float64.ltb rate Float64.zero) "Interest rate cannot be negative" (
  raise_if (years <? 0) "Years cannot be negative" (
    if years =? 0 then round_half_up principal
    else
      amount <- simple_amount principal rate years ;;
      round_half_up amount))).

Section Power.

(** [base ** exponent] for a float base and an int exponent.  Python
    hands the operation to the C library's [pow] and raises
    [OverflowError] on a range error; the calculator is modelled over any
    such operation. *)
Variable pow : Float64.float -> Z -> result Float64.float.

(** [principal * (1 + rate / n) ** (n * years)] *)
Definition compound_amount (principal rate : Float64.float) (years n : Z)
  : result Float64.float :=
  n' <- Float64.of_int n ;;
  per_period <- Float64.div rate n' ;;
  growth <- pow (Float64.add (Float64.const 1) per_period) (n * years) ;;
  Ok (Float64.mul principal growth).

Definition compound_interest (principal rate : Float64.float) (years n : Z)
  : result Float64.float :=
  raise_if (Float64.leb principal Float64.zero) "Principal must be positive" (
  raise_if (Float64.ltb rate Float64.zero) "Interest rate cannot be negative" (
  raise_if (years <? 0) "Years cannot be negative" (
  raise_if (n <=? 0) "Compounding frequency must be positive" (
    if years =? 0 then round_half_up principal
    else
      amount <- compound_amount principal rate years n ;;
      round_half_up amount)))).

(** [range(stop)] *)
Definition range (stop : Z) : list Z :=
  map Z.of_nat (seq 0 (Z.to_nat stop)).

(** The body of the [for year in range(years + 1)] loop, run over the
    years left; [so_far] is the [result] dict built so far (every [year] is a new
    key, so [result[year] = ...] appends). *)
Fixpoint simulation_loop (principal rate : Float64.float) (n : Z)
         (todo : list Z) (so_far : list (Z * Float64.float))
  : result (list (Z * Float64.float)) :=
  match todo with
  | [] => Ok so_far
  | year :: todo' =>
      amount <- (if year =? 0 then Ok principal
                 else compound_amount principal rate year n) ;;
      value <- round_half_up amount ;;
      simulation_loop principal rate n todo' (so_far ++ [(year, value)])
  end.

Definition investment_simulation (principal rate : Float64.float) (years n : Z)
  : result (list (Z * Float64.float)) :=
  raise_if (Float64.leb principal Float64.zero) "Principal must be positive" (
  raise_if (Float64.ltb rate Float64.zero) "Interest rate cannot be negative" (
  raise_if (years <? 0) "Years cannot be negative" (
  raise_if (n <=? 0) "Compounding frequency must be positive" (
    simulation_loop principal rate n (range (years + 1)) [])))).

End Power.

End CalculatorTool.

(** A correctly rounded [pow]: the value a C library's [pow] approximates, and
    the instance the examples below are run with. *)

Module Libm.

Definition signed (s : bool) (k : Z) : bool := s && Z.odd k.

Definition pow (x : Float64.float) (k : Z) : result Float64.float :=
  if k =? 0 then Ok (Float64.const 1)
  else
    match x with
    | S754_nan => Ok S754_nan
    | S754_infinity s =>
        Ok (if 0 <? k then S754_infinity (signed s k) else S754_zero (signed s k))
    | S754_zero s =>
        if 0 <? k then Ok (S754_zero (signed s k)) else Raise ZeroDivisionError
    | S754_finite s m e =>
        let r :=
          if 0 <? k then
            binary_normalize Float64.prec Float64.emax
              (cond_Zopp (signed s k) (Zpos m ^ k)) (e * k) false
          else
            let '(q, e', l) :=
              SFdiv_core_binary Float64.prec Float64.emax
                1 0 (Zpos m ^ (- k)) (e * (- k)) in
            binary_round_aux Float64.prec Float64.emax (signed s k) q e' l in
        if Float64.is_inf r then Raise OverflowError else Ok r
    end.

End Libm.

(** ** [app/agent/tools/exporter.py]

    An exporter returns the path of the file it wrote, or [None]; the model
    returns with the path what was written: the rows of the data frame for
    CSV, the table for PDF.  Directory creation and file writing
    ([os.makedirs], [df.to_csv], [doc.build]) are taken to succeed.  The PDF
    export builds its title with reportlab's [Paragraph], which reads its
    text as markup and raises on text it cannot parse; that parser is a
    parameter of the export. *)

Module ExporterTool.

(** [os.path.join(a, b)] on POSIX: [b] alone when it is absolute, else [a]
    and [b] with one slash between them. *)
Definition os_path_join (a b : string) : string :=
  if String.prefix "/" b then b
  else if falsy a then b
  else if String.eqb (String.substring (String.length a - 1) 1 a) "/"
       then (a ++ b)%string
       else (a ++ "/" ++ b)%string.

Definition EXPORT_PATH : string :=
  os_path_join (os_path_join "app" "data") "exports".

(** [seq[-1]] *)
Fixpoint last_item {A : Type} (l : list A) : result A :=
  match l with
  | [] => Raise IndexError
  | [x] => Ok x
  | _ :: rest => last_item rest
  end.

(** [details["current_price"] if details["current_price"] is not None
     else details["purchase_prices"][-1]["price"]] *)
Definition asset_price (details : Holding.t) : result Float64.float :=
  match Holding.current_price details with
  | Some current => Ok current
  | None =>
      lot <- last_item (Holding.purchase_prices details) ;;
      Ok (Lot.price lot)
  end.

(** [float(Decimal(str(details["quantity"] * price)).quantize(Decimal("0.01")))]:
    no rounding is passed, so the context's applies. *)
Definition asset_value (details : Holding.t) (price : Float64.float)
  : result Float64.float :=
  quantize2 Decimal.default_rounding
            (Float64.mul (Holding.quantity details) price).

(** A row of the data frame. *)
Record Row : Type := mkRow {
  Asset : string;
  Quantity : Float64.float;
  Price : Float64.float;
  Value : Float64.float
}.

(** The [for asset_name, details in portfolio.items()] loop of the CSV
    export over the items left, [data] being the list built so far. *)
Fixpoint csv_loop (items : list (string * Holding.t)) (data : list Row)
  : result (list Row) :=
  match items with
  | [] => Ok data
  | (asset_name, details) :: items' =>
      price <- asset_price details ;;
      value <- asset_value details price ;;
      csv_loop items'
        (data ++ [mkRow asset_name (Holding.quantity details) price value])
  end.

Definition export_portfolio_csv (user_id : string) (portfolio : Portfolio)
  : result (option (string * list Row)) :=
  raise_if (falsy user_id) "User ID must be a non-empty string" (
    match portfolio with
    | [] => Ok None
    | _ :: _ =>
        data <- csv_loop portfolio [] ;;
        let csv_file := os_path_join EXPORT_PATH (user_id ++ "_portfolio.csv") in
        Ok (Some (csv_file, data))
    end).

(** A cell of the PDF table: a literal string, or a number printed with
    [f"{x:.2f}"]. *)
Inductive cell : Type :=
| Text (s : string)
| Fixed2 (x : Float64.float).

(** The table loop of the PDF export: the rows so far and the running
    [total_value]. *)
Fixpoint pdf_loop (items : list (string * Holding.t))
         (table_data : list (list cell)) (total_value : Float64.float)
  : result (list (list cell) * Float64.float) :=
  match items with
  | [] => Ok (table_data, total_value)
  | (asset_name, details) :: items' =>
      price <- asset_price details ;;
      value <- asset_value details price ;;
      pdf_loop items'
        (table_data ++
           [[Text asset_name; Fixed2 (Holding.quantity details);
             Fixed2 price; Fixed2 value]])
        (Float64.add total_value value)
  end.

(** [Paragraph] is reportlab's constructor applied to a text: it returns, or
    raises what the markup parser raises (a [ValueError] for text such as
    ["a<b"]).  The second paragraph, the date of the export, is plain text of
    digits and punctuation and leaves no trace in what is returned. *)
Definition export_portfolio_pdf (Paragraph : string -> result unit)
           (user_id : string) (portfolio : Portfolio)
  : result (option (string * list (list cell))) :=
  raise_if (falsy user_id) "User ID must be a non-empty string" (
    match portfolio with
    | [] => Ok None
    | _ :: _ =>
        let pdf_file := os_path_join EXPORT_PATH (user_id ++ "_portfolio.pdf") in
        _ <- Paragraph ("Portfolio Report for " ++ user_id)%string ;;
        '(table_data, total_value) <-
          pdf_loop portfolio
            [[Text "Asset"; Text "Quantity"; Text "Price ($)"; Text "Value ($)"]]
            Float64.zero ;;
        Ok (Some (pdf_file,
                  table_data ++ [[Text "Total"; Text ""; Text ""; Fixed2 total_value]]))
    end).

End ExporterTool.

(** ** Stored values that are two-decimal numbers

    A float is a two-decimal number when the rounding idiom leaves it as it
    is. *)

Definition rounded2 (x : Float64.float) : bool :=
  match round_half_up x with
  | Ok y => Float64.same y x
  | Raise _ => false
  end.

Definition lot_rounded (lot : Lot.t) : bool :=
  rounded2 (Lot.quantity lot) && rounded2 (Lot.price lot).

Definition holding_rounded (h : Holding.t) : bool :=
  rounded2 (Holding.quantity h)
  && match Holding.current_price h with
     | Some current => rounded2 current
     | None => true
     end
  && forallb lot_rounded (Holding.purchase_prices h).

Definition portfolio_rounded (portfolio : Portfolio) : bool :=
  forallb (fun item => holding_rounded (snd item)) portfolio.

(** The portfolio persisted for a user. *)
Definition persisted (user_id : string) (file : File) : Portfolio :=
  memory_portfolio (load_memory user_id file).

(** The entry [add_asset] leaves under the asset's name: [existing] is the
    entry found there, [q] and [p] the rounded quantity and price. *)
Definition added_holding (existing : option Holding.t)
           (quantity q p : Float64.float) : Holding.t :=
  match existing with
  | Some h =>
      Holding.mk (Float64.add (Holding.quantity h) q)
                 (Holding.purchase_prices h ++ [Lot.mk quantity p])
                 (Holding.current_price h)
  | None => Holding.mk q [Lot.mk quantity p] None
  end.

(** A file in which user "u" holds 2 BTC bought at 30000, now priced at
    32000, and 5 ETH bought at 2000: the portfolio of the exporter's tests. *)
Definition example_file : File :=
  [("u"%string,
    mkMemory
      (Some [("BTC"%string,
              Holding.mk (lit 2 0) [Lot.mk (lit 2 0) (lit 30000 0)]
                         (Some (lit 32000 0)));
             ("ETH"%string,
              Holding.mk (lit 5 0) [Lot.mk (lit 5 0) (lit 2000 0)] None)])
      [])].





(** Every holding records at least one purchase. *)
Definition every_holding_has_lots (portfolio : Portfolio) : Prop :=
  forall (asset_name : string) (h : Holding.t),
    Dict.get asset_name portfolio = Some h -> Holding.purchase_prices h <> [].

(** A holding's quantity is the float sum, in purchase order, of its lots'
    quantities each rounded half-up to two decimals. *)
Definition quantity_is_rounded_sum (h : Holding.t) : Prop :=
  exists (r : Float64.float) (rs : list Float64.float),
    Forall2 (fun lot rounded => round_half_up (Lot.quantity lot) = Ok rounded)
            (Holding.purchase_prices h) (r :: rs)
    /\ Holding.quantity h = fold_left Float64.add rs r.

(** ** What the two rounding modes mean

    [c' * 10^-2] is [c * 10^e] rounded to two decimals: exact when [e >= -2],
    otherwise the nearest multiple of [10^-2], a value half-way between two
    going away from zero ([half_up]) or to the even one ([half_even]). *)

Definition half_up (c : N) (e : Z) (c' : N) : Prop :=
  if -2 <=? e then Z.of_N c' = Z.of_N c * 10 ^ (e + 2)
  else
    let p := 10 ^ (-2 - e) in
    (2 * Z.of_N c' - 1) * p <= 2 * Z.of_N c < (2 * Z.of_N c' + 1) * p.

Definition half_even (c : N) (e : Z) (c' : N) : Prop :=
  if -2 <=? e then Z.of_N c' = Z.of_N c * 10 ^ (e + 2)
  else
    let p := 10 ^ (-2 - e) in
    (2 * Z.of_N c' - 1) * p <= 2 * Z.of_N c <= (2 * Z.of_N c' + 1) * p
    /\ (2 * Z.of_N c = (2 * Z.of_N c' - 1) * p
        \/ 2 * Z.of_N c = (2 * Z.of_N c' + 1) * p -> Z.even (Z.of_N c') = true).

(** [v] is [x] rounded to two decimals in mode [r]: the two-decimal
    [Decimal] that [str(x)] rounds to, read back as a float. *)
Definition rounds_to (r : Decimal.rounding) (x v : Float64.float) : Prop :=
  match Repr.to_decimal x with
  | Decimal.Finite s c e =>
      exists c' : N,
        match r with
        | Decimal.ROUND_HALF_UP => half_up c e c'
        | Decimal.ROUND_HALF_EVEN => half_even c e c'
        end
        /\ v = Decimal.to_float (Decimal.Finite s c' (-2))
  | Decimal.NaN => v = S754_nan
  | Decimal.Infinity _ => False
  end.

(** A float whose printed value lies exactly half-way between two
    neighbouring two-decimal numbers: the one case where the rounding mode
    matters. *)
Definition is_tie (x : Float64.float) : bool :=
  match Repr.to_decimal x with
  | Decimal.Finite _ c e =>
      negb (-2 <=? e)
      && (Decimal.pow10 (-2 - e) =? 2 * (c mod Decimal.pow10 (-2 - e)))%N
  | _ => false
  end.

(** The cells the PDF table shows for a row of the CSV export. *)
Definition cells_of_row (row : ExporterTool.Row) : list ExporterTool.cell :=
  [ExporterTool.Text (ExporterTool.Asset row);
   ExporterTool.Fixed2 (ExporterTool.Quantity row);
   ExporterTool.Fixed2 (ExporterTool.Price row);
   ExporterTool.Fixed2 (ExporterTool.Value row)].

(** ** Python strings

    The [str] operations the orchestrator applies to a query and to the
    numbers it prints.  A character stands for the code point of its number,
    so a [string] is a text of code points below 256, and on these texts the
    operations are Python's: [lower] folds [A-Z] and the capital letters of
    Latin-1, [split] cuts at the whitespace below 256, and [float] and [int]
    read the digits [0-9], the only decimal digits below 256.  The theorems
    on queries are stated for ASCII queries, which every encoding of a text
    reads the same. *)

Module Str.

Import Ascii.

Definition newline : string := String (Ascii.ascii_of_nat 10) EmptyString.

Definition code (c : Ascii.ascii) : N := Ascii.N_of_ascii c.

(** [c != c.lower()]: [A-Z], and in Latin-1 the capitals from 192 to 222
    but for the multiplication sign 215. *)
Definition is_upper (c : Ascii.ascii) : bool :=
  (((65 <=? code c) && (code c <=? 90))
   || ((192 <=? code c) && (code c <=? 222) && negb (code c =? 215)))%N.

(** Every character is below 128. *)
Fixpoint is_ascii (s : string) : bool :=
  match s with
  | EmptyString => true
  | String c rest => (code c <? 128)%N && is_ascii rest
  end.

Definition is_digit (c : Ascii.ascii) : bool :=
  ((48 <=? code c) && (code c <=? 57))%N.

(** [c.isspace()]: tab, line feed, vertical tab, form feed, carriage
    return, the four separators and the space, and in Latin-1 the next-line
    character 133 and the no-break space 160. *)
Definition is_space (c : Ascii.ascii) : bool :=
  (((9 <=? code c) && (code c <=? 13)) || ((28 <=? code c) && (code c <=? 32))
   || (code c =? 133) || (code c =? 160))%N.

(** [s.lower()] *)
Fixpoint lower (s : string) : string :=
  match s with
  | EmptyString => EmptyString
  | String c rest =>
      String (if is_upper c then Ascii.ascii_of_N (code c + 32) else c)
             (lower rest)
  end.

(** [needle in haystack] *)
Fixpoint contains (needle haystack : string) : bool :=
  String.prefix needle haystack
  || match haystack with
     | EmptyString => false
     | String _ rest => contains needle rest
     end.

(** [s.split()], reading [s] from the left with the word begun so far. *)
Fixpoint split_from (s word : string) : list string :=
  match s with
  | EmptyString => if falsy word then [] else [word]
  | String c rest =>
      if is_space c then
        if falsy word then split_from rest "" else word :: split_from rest ""
      else split_from rest (word ++ String c "")
  end.

Definition split (s : string) : list string := split_from s "".

(** [sep.join(words)] *)
Definition join (sep : string) (words : list string) : string :=
  String.concat sep words.

(** *** Printing numbers *)

Definition digits (n : N) : string :=
  DecimalString.NilZero.string_of_uint (N.to_uint n).

(** [str(z)] for an [int] *)
Definition of_int (z : Z) : string :=
  ((if (z <? 0)%Z then "-" else "") ++ digits (Z.abs_N z))%string.

Definition sign (negative : bool) : string := if negative then "-" else "".

Fixpoint zeros (n : nat) : string :=
  match n with
  | O => ""
  | S n' => String "0"%char (zeros n')
  end.

(** A coefficient without its trailing zeros, the exponent raised by their
    number. *)
Fixpoint strip_zeros (fuel : nat) (c : N) (t : Z) : N * Z :=
  match fuel with
  | O => (c, t)
  | S fuel' =>
      if ((c mod 10 =? 0) && negb (c =? 0))%N
      then strip_zeros fuel' (c / 10)%N (t + 1)
      else (c, t)
  end.

(** The exponent of the scientific form: a sign and at least two digits. *)
Definition exponent (e : Z) : string :=
  ((if (e <? 0)%Z then "-" else "+")
     ++ (if (Z.abs e <? 10)%Z then "0" else "") ++ digits (Z.abs_N e))%string.

(** The digits [repr(x)] prints.  Where two candidates of the shortest
    length are equally near to [x], [repr] prints the even one;
    [Repr.to_decimal] keeps the lower one, which reads back as the same float. *)
Definition printed (x : Float64.float) : Decimal.decimal :=
  match x, Repr.to_decimal x with
  | S754_finite _ m e, Decimal.Finite s c t =>
      let '(num, den) :=
        if 0 <=? e then (Zpos m * 2 ^ e, 1) else (Zpos m, 2 ^ (- e)) in
      let halfway :=
        if 0 <=? t
        then 2 * num =? (2 * Z.of_N c + 1) * 10 ^ t * den
        else 2 * num * 10 ^ (- t) =? (2 * Z.of_N c + 1) * den in
      if halfway && N.odd c && Repr.reads_back s (Z.of_N c + 1) t x
      then Decimal.Finite s (c + 1) t
      else Decimal.Finite s c t
  | _, d => d
  end.

(** [str(x)] and [f"{x}"] for a float: the shortest digits that read back as
    [x], in positional form when the decimal point falls within
    [-4 < decpt <= 16], else in scientific form. *)
Definition of_float (x : Float64.float) : string :=
  match printed x with
  | Decimal.NaN => "nan"
  | Decimal.Infinity s => (sign s ++ "inf")%string
  | Decimal.Finite s c t =>
      if (c =? 0)%N then (sign s ++ "0.0")%string
      else
        let '(c', t') := strip_zeros (N.to_nat (N.size c)) c t in
        let ds := digits c' in
        let k := String.length ds in
        let decpt := Z.of_nat k + t' in
        (sign s ++
         if ((decpt <=? -4) || (16 <? decpt))%Z then
           String.substring 0 1 ds
             ++ (if Nat.ltb 1 k then "." ++ String.substring 1 (k - 1)%nat ds else "")
             ++ "e" ++ exponent (decpt - 1)%Z
         else if (decpt <=? 0)%Z then
           "0." ++ zeros (Z.to_nat (- decpt)%Z) ++ ds
         else if (Z.of_nat k <=? decpt)%Z then
           ds ++ zeros (Z.to_nat decpt - k)%nat ++ ".0"
         else
           String.substring 0 (Z.to_nat decpt) ds
             ++ "." ++ String.substring (Z.to_nat decpt) (k - Z.to_nat decpt)%nat ds)%string
  end.

(** [f"{x:.2f}"]: the exact value of [x] rounded to two decimals, ties to
    even. *)
Definition fixed2 (x : Float64.float) : string :=
  match x with
  | S754_nan => "nan"
  | S754_infinity s => (sign s ++ "inf")%string
  | S754_zero s => (sign s ++ "0.00")%string
  | S754_finite s m e =>
      let '(num, den) :=
        if 0 <=? e then (Zpos m * 2 ^ e * 100, 1) else (Zpos m * 100, 2 ^ (- e)) in
      let q := num / den in
      let r := num mod den in
      let cents :=
        if (den <? 2 * r) || ((den =? 2 * r) && Z.odd q) then q + 1 else q in
      (sign s ++ digits (Z.to_N (cents / 100)%Z) ++ "."
         ++ (if (cents mod 100 <? 10)%Z then "0" else "")
         ++ digits (Z.to_N (cents mod 100)%Z))%string
  end.

(** *** Reading numbers *)

Definition is_underscore (c : Ascii.ascii) : bool := Ascii.eqb c "_"%char.

(** An underscore may only stand between two digits; [prev] is the character
    before [s]. *)
Fixpoint underscores_ok (prev : Ascii.ascii) (s : string) : bool :=
  match s with
  | EmptyString => negb (is_underscore prev)
  | String c rest =>
      (if is_underscore c then is_digit prev
       else negb (is_underscore prev) || is_digit c)
      && underscores_ok c rest
  end.

Fixpoint strip_underscores (s : string) : string :=
  match s with
  | EmptyString => EmptyString
  | String c rest =>
      if is_underscore c then strip_underscores rest
      else String c (strip_underscores rest)
  end.

Definition take_sign (s : string) : bool * string :=
  match s with
  | String "-"%char rest => (true, rest)
  | String "+"%char rest => (false, rest)
  | _ => (false, s)
  end.

(** The digits [s] starts with, appended to the number [value] read so far;
    with their count and what follows them. *)
Fixpoint take_digits (s : string) (value : N) (count : Z) : N * Z * string :=
  match s with
  | String c rest =>
      if is_digit c then take_digits rest (10 * value + (code c - 48))%N (count + 1)
      else (value, count, s)
  | EmptyString => (value, count, s)
  end.

(** [float(s)] for a word of [split], which holds no whitespace; [None]
    stands for the [ValueError] of a string that is no number. *)
Definition to_float (s : string) : option Float64.float :=
  if negb (underscores_ok Ascii.zero s) then None
  else
    let '(negative, body) := take_sign (strip_underscores s) in
    let word := lower body in
    if String.eqb word "inf" || String.eqb word "infinity"
    then Some (S754_infinity negative)
    else if String.eqb word "nan" then Some S754_nan
    else
      let '(whole, whole_count, after_whole) := take_digits body 0 0 in
      let '(coeff, frac_count, after_frac) :=
        match after_whole with
        | String "."%char rest => take_digits rest whole 0
        | _ => (whole, 0, after_whole)
        end in
      if whole_count + frac_count =? 0 then None
      else
        match after_frac with
        | EmptyString =>
            Some (Decimal.to_float (Decimal.Finite negative coeff (- frac_count)))
        | String c rest =>
            if Ascii.eqb c "e"%char || Ascii.eqb c "E"%char then
              let '(down, rest') := take_sign rest in
              let '(e, e_count, rest'') := take_digits rest' 0 0 in
              if (e_count =? 0) || negb (falsy rest'') then None
              else
                Some (Decimal.to_float
                        (Decimal.Finite negative coeff
                           ((if down then - Z.of_N e else Z.of_N e) - frac_count)))
            else None
        end.

(** [sys.get_int_max_str_digits()] *)
Definition int_max_str_digits : Z := 4300.

(** [int(s)] for a word of [split], which holds no whitespace; [None]
    stands for the [ValueError]. *)
Definition to_int (s : string) : option Z :=
  if negb (underscores_ok Ascii.zero s) then None
  else
    let '(negative, body) := take_sign (strip_underscores s) in
    let '(value, count, rest) := take_digits body 0 0 in
    if (count =? 0) || negb (falsy rest) || (int_max_str_digits <? count) then None
    else Some (if negative then - Z.of_N value else Z.of_N value).

End Str.

(** A markup parser for the examples: it takes every text without [<], the
    character a tag opens with, and refuses the others with a [ValueError],
    as reportlab refuses ["a<b"]; the message is the example's own. *)
Definition text_without_tags (text : string) : result unit :=
  if Str.contains "<" text
  then Raise (ValueError "paraparser: syntax error: unclosed tag")
  else Ok tt.

(** ** [app/agent/memory.py] on the file as it may be found

    [memory.json] may be missing; or be a file that cannot be opened, or
    whose text [json.load] rejects; or hold bytes that are no text in the
    encoding it is read with; or hold a JSON value that is not an object; or
    hold the mapping from user ids to records.  [load_memory] and
    [save_memory] catch [JSONDecodeError] and [IOError] only: the first
    answers these two with the empty record and the second turns them into a
    [ValueError], while the [UnicodeDecodeError] of the bytes and the
    [AttributeError] or [TypeError] of a value that is no object pass through
    both.  [save_memory] creates a missing file.  Writing the file is taken
    to succeed. *)

Module Disk.

(** What [json.load] returns when it is not a [dict]. *)
Inductive json_kind : Type :=
| JArray | JString | JInt | JFloat | JBool | JNull.

(** [type(value).__name__] *)
Definition type_name (kind : json_kind) : string :=
  match kind with
  | JArray => "list"
  | JString => "str"
  | JInt => "int"
  | JFloat => "float"
  | JBool => "bool"
  | JNull => "NoneType"
  end.

Inductive disk : Type :=
| Absent
| Unreadable (why : string)    (* [str(e)] of the [JSONDecodeError] or [IOError] *)
| Undecodable (why : string)   (* [str(e)] of the [UnicodeDecodeError] *)
| NotAnObject (kind : json_kind)
| Stored (all_data : File).

Definition load_memory (user_id : string) (d : disk) : result Memory :=
  match d with
  | Absent => Ok empty_memory
  | Unreadable _ => Ok empty_memory
  | Undecodable why => Raise (UnicodeDecodeError why)
  | NotAnObject kind =>
      (* data.get(user_id, {}) *)
      Raise (AttributeError
               ("'" ++ type_name kind ++ "' object has no attribute 'get'"))
  | Stored all_data =>
      Ok match Dict.get user_id all_data with
         | Some data => data
         | None => empty_memory
         end
  end.

Definition save_memory (user_id : string) (data : Memory) (d : disk)
  : result disk :=
  match d with
  | Absent => Ok (Stored (Dict.set user_id data Dict.empty))
  | Unreadable why => Raise (ValueError ("Failed to save memory: " ++ why))
  | Undecodable why => Raise (UnicodeDecodeError why)
  | NotAnObject kind =>
      (* all_data[user_id] = data *)
      Raise (TypeError
               match kind with
               | JArray => "list indices must be integers or slices, not str"
               | _ => "'" ++ type_name kind
                          ++ "' object does not support item assignment"
               end)
  | Stored all_data => Ok (Stored (Dict.set user_id data all_data))
  end.

End Disk.

(** ** The ledger over any store

    [portfolio_manager.py] reaches the file through [load_memory] and
    [save_memory] only.  [Ledger] is the code of its four operations over an
    arbitrary pair of these, both being allowed to raise; [PortfolioManager]
    above is the instance whose store is a well-formed file. *)

Module Ledger.

Section OverStore.

Variable Store : Type.
Variable load_memory : string -> Store -> result Memory.
Variable save_memory : string -> Memory -> Store -> result Store.

Definition add_asset (user_id asset_name : string)
           (quantity purchase_price : Float64.float) (store : Store)
  : result (Portfolio * Store) :=
  raise_if (falsy user_id) "User ID must be a non-empty string" (
  raise_if (falsy asset_name) "Asset name must be a non-empty string" (
  raise_if (Float64.leb quantity Float64.zero) "Quantity must be positive" (
  raise_if (Float64.ltb purchase_price Float64.zero)
           "Purchase price cannot be negative" (
    memory <- load_memory user_id store ;;
    let portfolio := memory_portfolio memory in
    portfolio' <-
      match Dict.get asset_name portfolio with
      | Some h =>
          q <- round_half_up quantity ;;
          let h1 := Holding.mk (Float64.add (Holding.quantity h) q)
                               (Holding.purchase_prices h)
                               (Holding.current_price h) in
          p <- round_half_up purchase_price ;;
          let h2 := Holding.mk (Holding.quantity h1)
                               (Holding.purchase_prices h1 ++ [Lot.mk quantity p])
                               (Holding.current_price h1) in
          Ok (Dict.set asset_name h2 portfolio)
      | None =>
          q <- round_half_up quantity ;;
          p <- round_half_up purchase_price ;;
          Ok (Dict.set asset_name
                (Holding.mk q [Lot.mk quantity p] None)
                portfolio)
      end ;;
    store' <- save_memory user_id (memory_set_portfolio memory portfolio') store ;;
    Ok (portfolio', store'))))).

Definition remove_asset (user_id asset_name : string) (store : Store)
  : result (Portfolio * Store) :=
  raise_if (falsy user_id) "User ID must be a non-empty string" (
  raise_if (falsy asset_name) "Asset name must be a non-empty string" (
    memory <- load_memory user_id store ;;
    let portfolio := memory_portfolio memory in
    if Dict.mem asset_name portfolio then
      let portfolio' := Dict.del asset_name portfolio in
      store' <- save_memory user_id (memory_set_portfolio memory portfolio') store ;;
      Ok (portfolio', store')
    else Ok (portfolio, store))).

Definition get_portfolio (user_id : string) (store : Store) : result Portfolio :=
  raise_if (falsy user_id) "User ID must be a non-empty string" (
    memory <- load_memory user_id store ;;
    Ok (memory_portfolio memory)).

Definition update_current_price (user_id asset_name : string)
           (current_price : Float64.float) (store : Store)
  : result (Portfolio * Store) :=
  raise_if (falsy user_id) "User ID must be a non-empty string" (
  raise_if (falsy asset_name) "Asset name must be a non-empty string" (
  raise_if (Float64.ltb current_price Float64.zero)
           "Current price cannot be negative" (
    memory <- load_memory user_id store ;;
    let portfolio := memory_portfolio memory in
    match Dict.get asset_name portfolio with
    | Some h =>
        p <- round_half_up current_price ;;
        let portfolio' :=
          Dict.set asset_name
            (Holding.mk (Holding.quantity h) (Holding.purchase_prices h) (Some p))
            portfolio in
        store' <- save_memory user_id (memory_set_portfolio memory portfolio') store ;;
        Ok (portfolio', store')
    | None => Ok (portfolio, store)
    end))).

End OverStore.

End Ledger.

(** The ledger on the file as it may be found. *)

Module DiskLedger.

Definition add_asset := Ledger.add_asset Disk.disk Disk.load_memory Disk.save_memory.
Definition remove_asset := Ledger.remove_asset Disk.disk Disk.load_memory Disk.save_memory.
Definition get_portfolio := Ledger.get_portfolio Disk.disk Disk.load_memory.
Definition update_current_price :=
  Ledger.update_current_price Disk.disk Disk.load_memory Disk.save_memory.

End DiskLedger.

(** ** [app/agent/core.py]

    [process_query] answers one query of one user.  It is modelled with the
    file it may change, one query at a time; the charts of the [visualizer]
    module, which is not part of the sources, are hooks that may be missing,
    that do not touch the memory file, and that return a path or [None];
    the markup parser of the PDF's title is the exporter's parameter;
    logging is left out. *)

Module Agent.

Record AgentResponse : Type := mkAgentResponse {
  text : string;
  chart_path : option string;
  csv_path : option string;
  pdf_path : option string
}.

(** [AgentResponse(text=text)] *)
Definition reply (text : string) : AgentResponse :=
  mkAgentResponse text None None None.

(** A step of the orchestrator: it returns or raises, and leaves a file. *)
Definition run (A : Type) : Type := Disk.disk -> result A * Disk.disk.

Definition ret {A : Type} (a : A) : run A := fun disk => (Ok a, disk).

Definition throw {A : Type} (e : exn) : run A := fun disk => (Raise e, disk).

Definition and_then {A B : Type} (c : run A) (k : A -> run B) : run B :=
  fun disk =>
    match c disk with
    | (Ok a, disk') => k a disk'
    | (Raise e, disk') => (Raise e, disk')
    end.

Notation "x <~ c ;; k" := (and_then c (fun x => k))
  (at level 61, c at next level, right associativity).

(** A call that leaves the file alone. *)
Definition call {A : Type} (c : result A) : run A :=
  fun disk => (c, disk).

(** A call that reads the file. *)
Definition reading {A : Type} (op : Disk.disk -> result A) : run A :=
  fun disk => call (op disk) disk.

(** A call that may write the file; when it raises the file is as it was. *)
Definition writing {A : Type} (op : Disk.disk -> result (A * Disk.disk)) : run A :=
  fun disk =>
    match op disk with
    | Ok (a, disk') => (Ok a, disk')
    | Raise e => (Raise e, disk)
    end.

(** [str(e)] when [e] is a [ValueError], which a [UnicodeDecodeError] is. *)
Definition as_ValueError (e : exn) : option string :=
  match e with
  | ValueError msg => Some msg
  | UnicodeDecodeError msg => Some msg
  | _ => None
  end.

(** [try: body  except ValueError as e: return handler(str(e))] *)
Definition except_ValueError {A : Type} (body : run A) (handler : string -> A)
  : run A :=
  fun disk =>
    match body disk with
    | (Raise e, disk') =>
        match as_ValueError e with
        | Some msg => (Ok (handler msg), disk')
        | None => (Raise e, disk')
        end
    | other => other
    end.

(** [float(word)] and [int(word)]; the message of their [ValueError] is only
    logged. *)
Definition float (word : string) : run Float64.float :=
  match Str.to_float word with
  | Some x => ret x
  | None => throw (ValueError "could not convert string to float")
  end.

Definition int (word : string) : run Z :=
  match Str.to_int word with
  | Some z => ret z
  | None => throw (ValueError "invalid literal for int() with base 10")
  end.

(** [value or 'N/A'] *)
Definition or_NA (value : option string) : string :=
  match value with
  | Some s => if falsy s then "N/A" else s
  | None => "N/A"
  end.

(** A chart function of the [visualizer] module, if the module has it. *)
Definition portfolio_hook : Type :=
  option (string -> Portfolio -> result (option string)).

Definition simulation_hook : Type :=
  option (string -> list (Z * Float64.float) -> result (option string)).

Section Environment.

(** [**] on floats, as in the calculator. *)
Variable pow : Float64.float -> Z -> result Float64.float.

(** reportlab's [Paragraph], as in the exporter. *)
Variable Paragraph : string -> result unit.

(** [visualizer.generate_portfolio_chart] and
    [visualizer.generate_simulation_chart], where the module has them. *)
Variable generate_portfolio_chart : portfolio_hook.
Variable generate_simulation_chart : simulation_hook.

(** [str(e)] for an exception that was raised without a message. *)
Variable describe : exn -> string.

(** [str(e)] *)
Definition str (e : exn) : string :=
  match e with
  | ValueError msg => msg
  | UnicodeDecodeError msg => msg
  | AttributeError msg => msg
  | TypeError msg => msg
  | _ => describe e
  end.

(** [visualizer.generate_portfolio_chart(user_id, portfolio)
     if hasattr(visualizer, "generate_portfolio_chart") else None] *)
Definition portfolio_chart (user_id : string) (portfolio : Portfolio)
  : result (option string) :=
  match generate_portfolio_chart with
  | Some chart => chart user_id portfolio
  | None => Ok None
  end.

Definition simulation_chart (user_id : string)
           (sim_result : list (Z * Float64.float)) : result (option string) :=
  match generate_simulation_chart with
  | Some chart => chart user_id sim_result
  | None => Ok None
  end.

(** The branch of ["add asset"]. *)
Definition add_asset_query (user_id query : string) : run AgentResponse :=
  match Str.split query with
  | [_; _; asset_name; quantity; price] =>
      except_ValueError
        (quantity <~ float quantity ;;
         price <~ float price ;;
         portfolio <~ writing (DiskLedger.add_asset user_id asset_name
                                                    quantity price) ;;
         let text := ("Added " ++ Str.of_float quantity ++ " " ++ asset_name
                        ++ " at $" ++ Str.of_float price ++ " each.")%string in
         chart_path <~ call (portfolio_chart user_id portfolio) ;;
         ret (mkAgentResponse text chart_path None None))
        (fun _ =>
           reply "Invalid quantity or price. Use: add asset [name] [quantity] [price]")
  | _ => ret (reply "Invalid format. Use: add asset [name] [quantity] [price]")
  end.

(** The branch of ["remove asset"]. *)
Definition remove_asset_query (user_id query : string) : run AgentResponse :=
  match Str.split query with
  | [_; _; asset_name] =>
      portfolio <~ writing (DiskLedger.remove_asset user_id asset_name) ;;
      let text := ("Removed " ++ asset_name ++ " from your portfolio.")%string in
      chart_path <~ call (portfolio_chart user_id portfolio) ;;
      ret (mkAgentResponse text chart_path None None)
  | _ => ret (reply "Invalid format. Use: remove asset [name]")
  end.

(** [f"{k}: {v['quantity']:.2f} units at ${v['purchase_prices'][-1]['price']:.2f}"] *)
Definition portfolio_line (item : string * Holding.t) : result string :=
  let '(k, v) := item in
  lot <- ExporterTool.last_item (Holding.purchase_prices v) ;;
  Ok (k ++ ": " ++ Str.fixed2 (Holding.quantity v) ++ " units at $"
        ++ Str.fixed2 (Lot.price lot))%string.

(** The branch of ["show portfolio"]. *)
Definition show_portfolio_query (user_id : string) : run AgentResponse :=
  portfolio <~ reading (DiskLedger.get_portfolio user_id) ;;
  match portfolio with
  | [] => ret (reply "Your portfolio is empty.")
  | _ :: _ =>
      lines <~ call (mapM portfolio_line portfolio) ;;
      let text := ("Your portfolio:" ++ Str.newline
                     ++ Str.join Str.newline lines)%string in
      chart_path <~ call (portfolio_chart user_id portfolio) ;;
      ret (mkAgentResponse text chart_path None None)
  end.

(** The branch of ["update current price"]. *)
Definition update_current_price_query (user_id query : string)
  : run AgentResponse :=
  match Str.split query with
  | [_; _; _; asset_name; price] =>
      except_ValueError
        (price <~ float price ;;
         portfolio <~ writing (DiskLedger.update_current_price
                                 user_id asset_name price) ;;
         let text := ("Updated " ++ asset_name ++ " current price to $"
                        ++ Str.of_float price ++ ".")%string in
         chart_path <~ call (portfolio_chart user_id portfolio) ;;
         ret (mkAgentResponse text chart_path None None))
        (fun _ =>
           reply "Invalid price. Use: update current price [name] [price]")
  | _ => ret (reply "Invalid format. Use: update current price [name] [price]")
  end.

(** [portfolio_manager.calculate_portfolio_roi]: the class has no such
    method, so looking it up raises. *)
Definition calculate_portfolio_roi : run Float64.float :=
  throw (AttributeError
           "'PortfolioManager' object has no attribute 'calculate_portfolio_roi'").

(** The branch of ["roi"]. *)
Definition roi_query (user_id : string) : run AgentResponse :=
  portfolio <~ reading (DiskLedger.get_portfolio user_id) ;;
  match portfolio with
  | [] => ret (reply "Your portfolio is empty. Add assets first.")
  | _ :: _ =>
      except_ValueError
        (roi <~ calculate_portfolio_roi ;;
         let text := ("Your portfolio ROI is " ++ Str.fixed2 roi ++ "%.")%string in
         chart_path <~ call (portfolio_chart user_id portfolio) ;;
         ret (mkAgentResponse text chart_path None None))
        (fun msg =>
           reply ("Cannot calculate ROI: " ++ msg
                    ++ " (Update current prices first.)")%string)
  end.

(** [f"Year {k}: ${v:.2f}"] *)
Definition simulation_line (entry : Z * Float64.float) : string :=
  let '(k, v) := entry in
  ("Year " ++ Str.of_int k ++ ": $" ++ Str.fixed2 v)%string.

(** The branch of ["simulate investment"]. *)
Definition simulate_investment_query (user_id query : string)
  : run AgentResponse :=
  match Str.split query with
  | [_; _; principal; rate; years] =>
      except_ValueError
        (principal <~ float principal ;;
         rate <~ float rate ;;
         years <~ int years ;;
         sim_result <~ call (CalculatorTool.investment_simulation
                               pow principal rate years 1) ;;
         let text := ("Investment Simulation:" ++ Str.newline
                        ++ Str.join Str.newline (map simulation_line sim_result))%string in
         chart_path <~ call (simulation_chart user_id sim_result) ;;
         ret (mkAgentResponse text chart_path None None))
        (fun _ =>
           reply "Invalid principal, rate, or years. Use: simulate investment [principal] [rate] [years]")
  | _ =>
      ret (reply "Invalid format. Use: simulate investment [principal] [rate] [years]")
  end.

(** The branch of ["export portfolio"]. *)
Definition export_portfolio_query (user_id : string) : run AgentResponse :=
  portfolio <~ reading (DiskLedger.get_portfolio user_id) ;;
  match portfolio with
  | [] => ret (reply "Your portfolio is empty. Nothing to export.")
  | _ :: _ =>
      except_ValueError
        (csv <~ call (ExporterTool.export_portfolio_csv user_id portfolio) ;;
         pdf <~ call (ExporterTool.export_portfolio_pdf
                        Paragraph user_id portfolio) ;;
         let csv_path := option_map fst csv in
         let pdf_path := option_map fst pdf in
         let text := ("Portfolio exported successfully. CSV: " ++ or_NA csv_path
                        ++ ", PDF: " ++ or_NA pdf_path)%string in
         ret (mkAgentResponse text None csv_path pdf_path))
        (fun msg => reply ("Failed to export portfolio: " ++ msg)%string)
  end.

(** The chain of [if "..." in query.lower()] tests; every branch returns or
    raises. *)
Definition dispatch (user_id query : string) : run AgentResponse :=
  let lowered := Str.lower query in
  if Str.contains "add asset" lowered then add_asset_query user_id query
  else if Str.contains "remove asset" lowered then remove_asset_query user_id query
  else if Str.contains "show portfolio" lowered then show_portfolio_query user_id
  else if Str.contains "update current price" lowered
  then update_current_price_query user_id query
  else if Str.contains "roi" lowered then roi_query user_id
  else if Str.contains "simulate investment" lowered
  then simulate_investment_query user_id query
  else if Str.contains "export portfolio" lowered then export_portfolio_query user_id
  else ret (reply "Sorry, I didn't understand your request.").

Definition process_query (user_id query : string) (disk : Disk.disk)
  : AgentResponse * Disk.disk :=
  if falsy user_id then (reply "Invalid user ID.", disk)
  else
    match dispatch user_id query disk with
    | (Ok response, disk') => (response, disk')
    | (Raise e, disk') => (reply ("An error occurred: " ++ str e)%string, disk')
    end.

End Environment.

End Agent.

(** ** Reading what the orchestrator does *)

(** The portfolio [get_portfolio] finds for a user on the disk; empty when
    the file cannot be loaded. *)
Definition stored_portfolio (user_id : string) (disk : Disk.disk) : Portfolio :=
  match Disk.load_memory user_id disk with
  | Ok memory => memory_portfolio memory
  | Raise _ => []
  end.

(** A result of [PortfolioManager] on a well-formed file, as a result on the
    disk that holds the file. *)
Definition on_disk {A : Type} (r : result (A * File)) : result (A * Disk.disk) :=
  ' (a, file) <- r ;; Ok (a, Disk.Stored file).

(** The branch of [process_query] a query is answered by: the first of the
    phrases, in the order of the [if] chain, that the lowered query
    contains. *)
Inductive command : Type :=
| AddAsset
| RemoveAsset
| ShowPortfolio
| UpdateCurrentPrice
| Roi
| SimulateInvestment
| ExportPortfolio
| Unknown.

Definition command_of (query : string) : command :=
  let lowered := Str.lower query in
  if Str.contains "add asset" lowered then AddAsset
  else if Str.contains "remove asset" lowered then RemoveAsset
  else if Str.contains "show portfolio" lowered then ShowPortfolio
  else if Str.contains "update current price" lowered then UpdateCurrentPrice
  else if Str.contains "roi" lowered then Roi
  else if Str.contains "simulate investment" lowered then SimulateInvestment
  else if Str.contains "export portfolio" lowered then ExportPortfolio
  else Unknown.

(** The queries that reach a ledger operation that can write: one of the
    three ledger commands with the number of words its branch asks for. *)
Definition writing_command (query : string) : bool :=
  let words := List.length (Str.split query) in
  match command_of query with
  | AddAsset => Nat.eqb words 5
  | RemoveAsset => Nat.eqb words 3
  | UpdateCurrentPrice => Nat.eqb words 5
  | _ => false
  end.

(** * Properties *)

(** ** Results *)

Lemma bind_Ok_inv :
  forall (A B : Type) (c : result A) (k : A -> result B) (b : B),
    bind c k = Ok b -> exists a, c = Ok a /\ k a = Ok b.
Proof.
  intros A B [a | e] k b H; simpl in H; [eauto | discriminate].
Qed.

Lemma raise_if_false :
  forall (A : Type) (msg : string) (k : result A), raise_if false msg k = k.
Proof. reflexivity. Qed.

Lemma falsy_true_iff : forall s : string, falsy s = true <-> s = ""%string.
Proof. intros s. unfold falsy. apply String.eqb_eq. Qed.

Lemma falsy_false_iff : forall s : string, falsy s = false <-> s <> ""%string.
Proof. intros s. unfold falsy. apply String.eqb_neq. Qed.

(** ** Dicts *)

Section DictFacts.

Variable V : Type.

Implicit Types (k : string) (v : V) (d : Dict.dict V).

Lemma mem_true_iff : forall k d, Dict.mem k d = true <-> exists v, Dict.get k d = Some v.
Proof.
  intros k d. unfold Dict.mem. destruct (Dict.get k d) as [v |]; split.
  - eauto.
  - reflexivity.
  - discriminate.
  - intros [v H]. discriminate.
Qed.

Lemma mem_false_iff : forall k d, Dict.mem k d = false <-> Dict.get k d = None.
Proof.
  intros k d. unfold Dict.mem. destruct (Dict.get k d); split; congruence.
Qed.

Lemma get_replace_same :
  forall k v d, Dict.mem k d = true -> Dict.get k (Dict.replace k v d) = Some v.
Proof.
  intros k v d. unfold Dict.mem.
  induction d as [| [k' v'] d IH]; simpl; [discriminate |].
  destruct (String.eqb k k') eqn:E; simpl; rewrite E; auto.
Qed.

Lemma get_replace_other :
  forall k k' v d, k' <> k -> Dict.get k' (Dict.replace k v d) = Dict.get k' d.
Proof.
  intros k k' v d Hne. induction d as [| [k0 v0] d IH]; simpl; [reflexivity |].
  destruct (String.eqb k k0) eqn:E; simpl.
  - apply String.eqb_eq in E. subst k0.
    apply String.eqb_neq in Hne. rewrite Hne. reflexivity.
  - rewrite IH. reflexivity.
Qed.

Lemma get_app_new :
  forall k v d, Dict.get k d = None -> Dict.get k (d ++ [(k, v)]) = Some v.
Proof.
  intros k v d. induction d as [| [k' v'] d IH]; simpl.
  - rewrite String.eqb_refl. reflexivity.
  - destruct (String.eqb k k'); [discriminate | exact IH].
Qed.

Lemma get_app_other :
  forall k k' v d, k' <> k -> Dict.get k' (d ++ [(k, v)]) = Dict.get k' d.
Proof.
  intros k k' v d Hne. apply String.eqb_neq in Hne.
  induction d as [| [k0 v0] d IH]; simpl.
  - rewrite Hne. reflexivity.
  - rewrite IH. reflexivity.
Qed.

Lemma get_set_same : forall k v d, Dict.get k (Dict.set k v d) = Some v.
Proof.
  intros k v d. unfold Dict.set. destruct (Dict.mem k d) eqn:E.
  - apply get_replace_same. exact E.
  - apply get_app_new. apply mem_false_iff. exact E.
Qed.

Lemma get_set_other :
  forall k k' v d, k' <> k -> Dict.get k' (Dict.set k v d) = Dict.get k' d.
Proof.
  intros k k' v d Hne. unfold Dict.set. destruct (Dict.mem k d).
  - apply get_replace_other. exact Hne.
  - apply get_app_other. exact Hne.
Qed.

Lemma keys_replace : forall k v d, Dict.keys (Dict.replace k v d) = Dict.keys d.
Proof.
  intros k v d. unfold Dict.keys.
  induction d as [| [k' v'] d IH]; simpl; [reflexivity |].
  destruct (String.eqb k k'); simpl; [reflexivity |].
  f_equal. exact IH.
Qed.

Lemma keys_set_present :
  forall k v d, Dict.mem k d = true -> Dict.keys (Dict.set k v d) = Dict.keys d.
Proof.
  intros k v d H. unfold Dict.set. rewrite H. apply keys_replace.
Qed.

Lemma keys_set_new :
  forall k v d,
    Dict.mem k d = false -> Dict.keys (Dict.set k v d) = Dict.keys d ++ [k].
Proof.
  intros k v d H. unfold Dict.set, Dict.keys. rewrite H, map_app. reflexivity.
Qed.

Lemma get_del_same : forall k d, Dict.get k (Dict.del k d) = None.
Proof.
  intros k d. induction d as [| [k' v'] d IH]; simpl; [reflexivity |].
  destruct (String.eqb k k') eqn:E; simpl; [exact IH |].
  rewrite E. exact IH.
Qed.

Lemma get_del_other :
  forall k k' d, k' <> k -> Dict.get k' (Dict.del k d) = Dict.get k' d.
Proof.
  intros k k' d Hne. induction d as [| [k0 v0] d IH]; simpl; [reflexivity |].
  destruct (String.eqb k k0) eqn:E; simpl.
  - apply String.eqb_eq in E. subst k0.
    apply String.eqb_neq in Hne. rewrite Hne. exact IH.
  - rewrite IH. reflexivity.
Qed.

Lemma get_None_not_In : forall k d, Dict.get k d = None -> ~ In k (Dict.keys d).
Proof.
  intros k d. induction d as [| [k' v'] d IH]; simpl; [tauto |].
  destruct (String.eqb k k') eqn:E; [discriminate |].
  apply String.eqb_neq in E. intros H [Hk | Hk]; [congruence | tauto].
Qed.

(** Assignment and deletion keep the keys unique. *)
Lemma wf_set : forall k v d, Dict.wf d -> Dict.wf (Dict.set k v d).
Proof.
  intros k v d Hwf. unfold Dict.wf. destruct (Dict.mem k d) eqn:E.
  - rewrite keys_set_present by exact E. exact Hwf.
  - rewrite keys_set_new by exact E.
    apply NoDup_app; [exact Hwf | repeat constructor; simpl; tauto |].
    intros a Ha [<- | []].
    apply mem_false_iff in E. exact (get_None_not_In _ _ E Ha).
Qed.

Lemma wf_del : forall k d, Dict.wf d -> Dict.wf (Dict.del k d).
Proof.
  intros k d. unfold Dict.wf, Dict.keys, Dict.del.
  induction d as [| [k' v'] d IH]; simpl; intros Hwf; [constructor |].
  inversion Hwf as [| ? ? Hnin Hrest]; subst.
  destruct (String.eqb k k'); simpl; [auto |].
  constructor; [| auto].
  intros Hin. apply Hnin. apply in_map_iff in Hin.
  destruct Hin as [[k0 v0] [Hk Hin]]. simpl in Hk. subst k0.
  apply filter_In in Hin. apply in_map_iff. exists (k', v0). tauto.
Qed.

End DictFacts.

(** ** Floats compared with zero *)

Lemma positive_not_le_zero :
  forall x : Float64.float,
    Float64.ltb Float64.zero x = true -> Float64.leb x Float64.zero = false.
Proof.
  intros [[|] | [|] | | [|] m e]; cbn; intros H; congruence.
Qed.

Lemma not_le_zero_not_eq_zero :
  forall x : Float64.float,
    Float64.leb x Float64.zero = false -> Float64.eqb x Float64.zero = false.
Proof.
  intros [[|] | [|] | | [|] m e]; cbn; intros H; congruence.
Qed.

Lemma nonnegative_not_lt_zero :
  forall x : Float64.float,
    Float64.leb Float64.zero x = true -> Float64.ltb x Float64.zero = false.
Proof.
  intros [[|] | [|] | | [|] m e]; cbn; intros H; congruence.
Qed.

(** Away from NaN, [x <= 0] is the negation of [0 < x]. *)
Lemma le_zero_iff_not_positive :
  forall x : Float64.float,
    Float64.is_nan x = false ->
    (Float64.leb x Float64.zero = true <-> Float64.ltb Float64.zero x = false).
Proof.
  intros [[|] | [|] | | [|] m e]; cbn; intros H; split; congruence.
Qed.

(** ** The rounding idiom raises nothing but [InvalidOperation] *)

Lemma quantize_not_ValueError :
  forall (r : Decimal.rounding) (d : Decimal.decimal),
    is_ValueError (Decimal.quantize r d) = false.
Proof.
  intros r [s c e | s | ]; cbn; try reflexivity.
  destruct (c =? 0)%N; [reflexivity |].
  destruct (Decimal.context_prec <? e + Decimal.ndigits c - 1 - -2 + 1);
    [reflexivity |].
  destruct (Decimal.context_prec <? Decimal.ndigits (Decimal.rescale r c e (-2)));
    reflexivity.
Qed.

Lemma quantize2_not_ValueError :
  forall (r : Decimal.rounding) (x : Float64.float),
    is_ValueError (quantize2 r x) = false.
Proof.
  intros r x. unfold quantize2.
  pose proof (quantize_not_ValueError r (Repr.to_decimal x)) as H.
  destruct (Decimal.quantize r (Repr.to_decimal x)) as [d | e]; simpl in *;
    [reflexivity | exact H].
Qed.

(** ** The rounding modes *)

Lemma pow10_nonneg : forall k : Z, 0 <= k -> Z.of_N (Decimal.pow10 k) = 10 ^ k.
Proof.
  intros k Hk. unfold Decimal.pow10. rewrite Z2N.id; [reflexivity |].
  apply Z.pow_nonneg. lia.
Qed.

(** Shared set-up of the two [rescale] lemmas: divide the coefficient by the
    power of ten that is dropped, and move the division to [Z]. *)
Ltac rescale_division c e :=
  let Hp := fresh "Hp" in
  let Hp10 := fresh "Hp10" in
  let Hpn := fresh "Hpn" in
  let Hdiv := fresh "Hdiv" in
  let Hrem := fresh "Hrem" in
  let Ep := fresh "Ep" in
  let Eq := fresh "Eq" in
  let Er := fresh "Er" in
  assert (Hp : 0 < 10 ^ (-2 - e)) by (apply Z.pow_pos_nonneg; lia);
  pose proof (pow10_nonneg (-2 - e) ltac:(lia)) as Hp10;
  remember (Decimal.pow10 (-2 - e)) as p eqn:Ep; clear Ep;
  assert (Hpn : p <> 0%N) by lia;
  pose proof (N.div_mod c p Hpn) as Hdiv;
  pose proof (N.mod_lt c p Hpn) as Hrem;
  remember (c / p)%N as q eqn:Eq; clear Eq;
  remember (c mod p)%N as rem eqn:Er; clear Er;
  apply (f_equal Z.of_N) in Hdiv;
  rewrite N2Z.inj_add, N2Z.inj_mul in Hdiv;
  apply N2Z.inj_lt in Hrem;
  pose proof (N2Z.is_nonneg q); pose proof (N2Z.is_nonneg rem);
  rewrite <- Hp10, Hdiv; clear Hp10 Hdiv.

(** Moves a comparison on [N], put in [H] by the lemma [L], to [Z]. *)
Ltac N_cmp_to_Z L H :=
  apply L in H;
  first [ apply N2Z.inj_le in H | apply N2Z.inj_lt in H
        | apply (f_equal Z.of_N) in H
        | (assert (Hne := fun E => H (N2Z.inj _ _ E)); clear H) ];
  rewrite ?N2Z.inj_mul in *; change (Z.of_N 2) with 2 in *;
  rewrite ?N2Z.inj_add; change (Z.of_N 1) with 1.

Lemma Z_even_of_N : forall n : N, Z.even (Z.of_N n) = negb (N.odd n).
Proof. intros [| [n | n |]]; reflexivity. Qed.

Lemma rescale_half_up :
  forall (c : N) (e : Z),
    half_up c e (Decimal.rescale Decimal.ROUND_HALF_UP c e (-2)).
Proof.
  intros c e. unfold half_up, Decimal.rescale.
  destruct (-2 <=? e) eqn:He.
  - apply Z.leb_le in He. rewrite N2Z.inj_mul, pow10_nonneg by lia.
    replace (e - -2) with (e + 2) by lia. reflexivity.
  - apply Z.leb_gt in He. cbv zeta. rescale_division c e.
    destruct (p <=? 2 * rem)%N eqn:Hup.
    + N_cmp_to_Z N.leb_le Hup. split; nia.
    + N_cmp_to_Z N.leb_gt Hup. split; nia.
Qed.

Lemma rescale_half_even :
  forall (c : N) (e : Z),
    half_even c e (Decimal.rescale Decimal.ROUND_HALF_EVEN c e (-2)).
Proof.
  intros c e. unfold half_even, Decimal.rescale.
  destruct (-2 <=? e) eqn:He.
  - apply Z.leb_le in He. rewrite N2Z.inj_mul, pow10_nonneg by lia.
    replace (e - -2) with (e + 2) by lia. reflexivity.
  - apply Z.leb_gt in He. cbv zeta. rescale_division c e.
    destruct (p <? 2 * rem)%N eqn:Hgt; cbn [orb andb].
    + N_cmp_to_Z N.ltb_lt Hgt.
      split; [split; nia |]. intros [Ht | Ht]; nia.
    + N_cmp_to_Z N.ltb_ge Hgt.
      destruct (p =? 2 * rem)%N eqn:Heq; cbn [orb andb].
      * N_cmp_to_Z N.eqb_eq Heq.
        destruct (N.odd q) eqn:Hodd.
        -- rewrite ?N2Z.inj_add; change (Z.of_N 1) with 1.
           split; [split; nia |]. intros _.
           change 1 with (Z.of_N 1). rewrite <- N2Z.inj_add.
           rewrite Z_even_of_N, N.odd_add, Hodd. reflexivity.
        -- split; [split; nia |]. intros _.
           rewrite Z_even_of_N, Hodd. reflexivity.
      * N_cmp_to_Z N.eqb_neq Heq.
        split; [split; nia |]. intros [Ht | Ht]; nia.
Qed.

Lemma half_up_zero : forall e : Z, half_up 0 e 0.
Proof.
  intros e. unfold half_up. destruct (-2 <=? e) eqn:He; [reflexivity |].
  apply Z.leb_gt in He. cbv zeta.
  assert (0 < 10 ^ (-2 - e)) by (apply Z.pow_pos_nonneg; lia).
  change (Z.of_N 0) with 0. lia.
Qed.

Lemma half_even_zero : forall e : Z, half_even 0 e 0.
Proof.
  intros e. unfold half_even. destruct (-2 <=? e) eqn:He; [reflexivity |].
  apply Z.leb_gt in He. cbv zeta.
  assert (0 < 10 ^ (-2 - e)) by (apply Z.pow_pos_nonneg; lia).
  change (Z.of_N 0) with 0. split; [lia | reflexivity].
Qed.

(** The rounding idiom returns the value its mode describes. *)
Lemma quantize2_rounds_to :
  forall (r : Decimal.rounding) (x v : Float64.float),
    quantize2 r x = Ok v -> rounds_to r x v.
Proof.
  intros r x v H. unfold quantize2 in H. unfold rounds_to.
  destruct (Repr.to_decimal x) as [s c e | s | ]; cbn in H.
  - destruct (c =? 0)%N eqn:Hc.
    + apply N.eqb_eq in Hc. subst c. cbn in H. injection H as <-.
      exists 0%N. split; [| reflexivity].
      destruct r; [apply half_up_zero | apply half_even_zero].
    + destruct (Decimal.context_prec <? e + Decimal.ndigits c - 1 - -2 + 1);
        [discriminate |].
      destruct (Decimal.context_prec
                  <? Decimal.ndigits (Decimal.rescale r c e (-2)));
        [discriminate |].
      cbn in H. injection H as <-.
      exists (Decimal.rescale r c e (-2)). split; [| reflexivity].
      destruct r; [apply rescale_half_up | apply rescale_half_even].
  - discriminate.
  - injection H as <-. reflexivity.
Qed.

(** ** C5: return on investment *)

(** C5.  For [initial > 0] and [final >= 0], [calculate_roi] is
    [(final - initial) / initial * 100] rounded half-up to two decimals: the
    rounding idiom applied to the float the expression evaluates to, whose
    result is the two-decimal number nearest to that float as printed, ties
    going away from zero.  It raises the validation error exactly when
    [initial <= 0] or [final < 0]; and [roi(1000, 1200) = 20.0],
    [roi(1000, 800) = -20.0]. *)
Theorem calculate_roi_spec :
  forall initial final : Float64.float,
    (Float64.ltb Float64.zero initial = true ->
     Float64.leb Float64.zero final = true ->
     CalculatorTool.calculate_roi initial final =
       round_half_up
         (Float64.mul
            (Float64.quotient (Float64.sub final initial) initial)
            (Float64.const 100))
     /\ forall v : Float64.float,
         CalculatorTool.calculate_roi initial final = Ok v ->
         rounds_to Decimal.ROUND_HALF_UP
           (Float64.mul
              (Float64.quotient (Float64.sub final initial) initial)
              (Float64.const 100))
           v)
    /\ (is_ValueError (CalculatorTool.calculate_roi initial final) = true <->
        Float64.leb initial Float64.zero = true
        \/ Float64.ltb final Float64.zero = true)
    /\ CalculatorTool.calculate_roi (lit 1000 0) (lit 1200 0) = Ok (lit 20 0)
    /\ CalculatorTool.calculate_roi (lit 1000 0) (lit 800 0) = Ok (lit (-20) 0).
Proof.
  intros initial final. split; [| split; [split | split]].
  - intros Hi Hf.
    assert (Heq : CalculatorTool.calculate_roi initial final =
                  round_half_up
                    (Float64.mul
                       (Float64.quotient (Float64.sub final initial) initial)
                       (Float64.const 100))).
    { unfold CalculatorTool.calculate_roi.
      rewrite (positive_not_le_zero _ Hi), (nonnegative_not_lt_zero _ Hf).
      rewrite !raise_if_false. unfold Float64.div.
      rewrite (not_le_zero_not_eq_zero _ (positive_not_le_zero _ Hi)).
      reflexivity. }
    split; [exact Heq |].
    intros v Hv. rewrite Heq in Hv. apply quantize2_rounds_to. exact Hv.
  - unfold CalculatorTool.calculate_roi.
    destruct (Float64.leb initial Float64.zero) eqn:Hi; [auto |].
    destruct (Float64.ltb final Float64.zero) eqn:Hf; [auto |].
    rewrite !raise_if_false. unfold Float64.div.
    rewrite (not_le_zero_not_eq_zero _ Hi). simpl.
    unfold round_half_up. rewrite quantize2_not_ValueError. discriminate.
  - unfold CalculatorTool.calculate_roi.
    intros [H | H]; rewrite H; [reflexivity |].
    destruct (Float64.leb initial Float64.zero); reflexivity.
  - vm_compute. reflexivity.
  - vm_compute. reflexivity.
Qed.

(** The theorem at [initial = 1000], [final = 1200]. *)
Lemma calculate_roi_spec_witness :
  CalculatorTool.calculate_roi (lit 1000 0) (lit 1200 0) =
    round_half_up
      (Float64.mul
         (Float64.quotient (Float64.sub (lit 1200 0) (lit 1000 0)) (lit 1000 0))
         (Float64.const 100)).
Proof.
  refine (proj1 (proj1 (calculate_roi_spec (lit 1000 0) (lit 1200 0)) _ _));
    vm_compute; reflexivity.
Defined.

(** ** The store *)

Lemma persisted_save :
  forall (user_id : string) (memory : Memory) (portfolio : Portfolio) (file : File),
    persisted user_id
      (save_memory user_id (memory_set_portfolio memory portfolio) file)
    = portfolio.
Proof.
  intros. unfold persisted, load_memory, save_memory.
  rewrite get_set_same. reflexivity.
Qed.

Lemma save_memory_other :
  forall (user_id other : string) (memory : Memory) (file : File),
    other <> user_id ->
    Dict.get other (save_memory user_id memory file) = Dict.get other file.
Proof.
  intros. unfold save_memory. apply get_set_other. assumption.
Qed.

Lemma save_memory_siblings :
  forall (user_id : string) (portfolio : Portfolio) (file : File),
    mem_siblings
      (load_memory user_id
         (save_memory user_id
            (memory_set_portfolio (load_memory user_id file) portfolio) file))
    = mem_siblings (load_memory user_id file).
Proof.
  intros. unfold load_memory at 1. unfold save_memory.
  rewrite get_set_same. reflexivity.
Qed.

(** ** [add_asset] on valid arguments *)

Lemma add_asset_valid :
  forall (user_id asset_name : string) (quantity purchase_price : Float64.float)
         (file : File),
    falsy user_id = false ->
    falsy asset_name = false ->
    Float64.leb quantity Float64.zero = false ->
    Float64.ltb purchase_price Float64.zero = false ->
    PortfolioManager.add_asset user_id asset_name quantity purchase_price file =
      (q <- round_half_up quantity ;;
       p <- round_half_up purchase_price ;;
       let portfolio' :=
         Dict.set asset_name
           (added_holding (Dict.get asset_name (persisted user_id file))
                          quantity q p)
           (persisted user_id file) in
       Ok (portfolio',
           save_memory user_id
             (memory_set_portfolio (load_memory user_id file) portfolio') file)).
Proof.
  intros user_id asset_name quantity purchase_price file Hu Ha Hq Hp.
  unfold PortfolioManager.add_asset. rewrite Hu, Ha, Hq, Hp, !raise_if_false.
  cbv zeta. unfold persisted.
  destruct (Dict.get asset_name (memory_portfolio (load_memory user_id file)))
    as [h |]; simpl;
    destruct (round_half_up quantity) as [q | e]; simpl; try reflexivity;
    destruct (round_half_up purchase_price) as [p | e]; reflexivity.
Qed.

Lemma add_asset_Ok_inv :
  forall (user_id asset_name : string) (quantity purchase_price : Float64.float)
         (file : File) (portfolio' : Portfolio) (file' : File),
    PortfolioManager.add_asset user_id asset_name quantity purchase_price file
      = Ok (portfolio', file') ->
    exists q p : Float64.float,
      round_half_up quantity = Ok q
      /\ round_half_up purchase_price = Ok p
      /\ portfolio' =
           Dict.set asset_name
             (added_holding (Dict.get asset_name (persisted user_id file))
                            quantity q p)
             (persisted user_id file)
      /\ file' =
           save_memory user_id
             (memory_set_portfolio (load_memory user_id file) portfolio') file.
Proof.
  intros user_id asset_name quantity purchase_price file portfolio' file' H.
  destruct (falsy user_id) eqn:Hu;
    [unfold PortfolioManager.add_asset in H; rewrite Hu in H; discriminate |].
  destruct (falsy asset_name) eqn:Ha;
    [unfold PortfolioManager.add_asset in H; rewrite Hu, Ha in H; discriminate |].
  destruct (Float64.leb quantity Float64.zero) eqn:Hq;
    [unfold PortfolioManager.add_asset in H; rewrite Hu, Ha, Hq in H;
     discriminate |].
  destruct (Float64.ltb purchase_price Float64.zero) eqn:Hp;
    [unfold PortfolioManager.add_asset in H; rewrite Hu, Ha, Hq, Hp in H;
     discriminate |].
  rewrite add_asset_valid in H by assumption.
  destruct (round_half_up quantity) as [q | e]; [| discriminate].
  destruct (round_half_up purchase_price) as [p | e]; [| discriminate].
  cbn in H. injection H as <- <-. exists q, p. auto.
Qed.

Lemma round_half_up_bind_not_ValueError :
  forall (A : Type) (x : Float64.float) (k : Float64.float -> result A),
    (forall v, is_ValueError (k v) = false) ->
    is_ValueError (v <- round_half_up x ;; k v) = false.
Proof.
  intros A x k Hk.
  pose proof (quantize2_not_ValueError Decimal.ROUND_HALF_UP x) as H.
  unfold round_half_up. destruct (quantize2 Decimal.ROUND_HALF_UP x) as [v | e].
  - apply Hk.
  - exact H.
Qed.

(** ** Adding an asset *)

(** [add_asset] raises the validation error exactly when the user id or the
    asset name is empty, the quantity is [<= 0] or the price is [< 0]; for a
    quantity that is a number, [<= 0] is the same as not strictly positive.
    On an asset that is present it appends a lot and increments the
    holding's quantity, by float addition, by the quantity rounded half-up
    to two decimals; on a new asset it creates a holding with exactly one
    lot and no current price, its quantity being the rounded quantity; the
    lot's price is the price rounded half-up, and either way the result is
    what is persisted.  Adding 2 BTC at 30000 and then 3 BTC at 31000 for
    user "u" gives quantity 5.0 and two lots; adding 1.234 BTC at 100.005
    and then 0.005 BTC at 1 gives quantity [1.23 + 0.01 = 1.24] and the lots
    [(1.234, 100.01)] and [(0.005, 1.0)]. *)
Theorem add_asset_spec :
  forall (user_id asset_name : string) (quantity purchase_price : Float64.float)
         (file : File),
    (is_ValueError
       (PortfolioManager.add_asset user_id asset_name quantity purchase_price file)
     = true
     <-> user_id = ""%string \/ asset_name = ""%string
         \/ Float64.leb quantity Float64.zero = true
         \/ Float64.ltb purchase_price Float64.zero = true)
    /\ (Float64.is_nan quantity = false ->
        (Float64.leb quantity Float64.zero = true
         <-> Float64.ltb Float64.zero quantity = false))
    /\ (forall (h : Holding.t) (q p : Float64.float),
          user_id <> ""%string -> asset_name <> ""%string ->
          Float64.leb quantity Float64.zero = false ->
          Float64.ltb purchase_price Float64.zero = false ->
          Dict.get asset_name (persisted user_id file) = Some h ->
          round_half_up quantity = Ok q ->
          round_half_up purchase_price = Ok p ->
          rounds_to Decimal.ROUND_HALF_UP quantity q
          /\ rounds_to Decimal.ROUND_HALF_UP purchase_price p
          /\ exists (portfolio' : Portfolio) (file' : File),
               PortfolioManager.add_asset user_id asset_name quantity
                                          purchase_price file
                 = Ok (portfolio', file')
               /\ Dict.get asset_name portfolio'
                  = Some (Holding.mk
                            (SFadd 53 1024 (Holding.quantity h) q)
                            (Holding.purchase_prices h ++ [Lot.mk quantity p])
                            (Holding.current_price h))
               /\ persisted user_id file' = portfolio')
    /\ (forall q p : Float64.float,
          user_id <> ""%string -> asset_name <> ""%string ->
          Float64.leb quantity Float64.zero = false ->
          Float64.ltb purchase_price Float64.zero = false ->
          Dict.get asset_name (persisted user_id file) = None ->
          round_half_up quantity = Ok q ->
          round_half_up purchase_price = Ok p ->
          rounds_to Decimal.ROUND_HALF_UP quantity q
          /\ rounds_to Decimal.ROUND_HALF_UP purchase_price p
          /\ exists (portfolio' : Portfolio) (file' : File),
               PortfolioManager.add_asset user_id asset_name quantity
                                          purchase_price file
                 = Ok (portfolio', file')
               /\ Dict.get asset_name portfolio'
                  = Some (Holding.mk q [Lot.mk quantity p] None)
               /\ persisted user_id file' = portfolio')
    /\ (first <- PortfolioManager.add_asset "u" "BTC" (lit 2 0) (lit 30000 0)
                   Dict.empty ;;
        second <- PortfolioManager.add_asset "u" "BTC" (lit 3 0) (lit 31000 0)
                    (snd first) ;;
        Ok (option_map
              (fun h => (Holding.quantity h,
                         List.length (Holding.purchase_prices h)))
              (Dict.get "BTC" (fst second))))
       = Ok (Some (lit 5 0, 2%nat))
    /\ (first <- PortfolioManager.add_asset "u" "BTC" (lit 1234 (-3))
                   (lit 100005 (-3)) Dict.empty ;;
        second <- PortfolioManager.add_asset "u" "BTC" (lit 5 (-3)) (lit 1 0)
                    (snd first) ;;
        Ok (Dict.get "BTC" (fst second)))
       = Ok (Some (Holding.mk (lit 124 (-2))
                     [Lot.mk (lit 1234 (-3)) (lit 10001 (-2));
                      Lot.mk (lit 5 (-3)) (lit 1 0)]
                     None)).
Proof.
  intros user_id asset_name quantity purchase_price file.
  split; [| split; [| split; [| split; [| split]]]].
  - split.
    + intros H.
      destruct (falsy user_id) eqn:Hu; [apply falsy_true_iff in Hu; auto |].
      destruct (falsy asset_name) eqn:Ha; [apply falsy_true_iff in Ha; auto |].
      destruct (Float64.leb quantity Float64.zero) eqn:Hq; [auto |].
      destruct (Float64.ltb purchase_price Float64.zero) eqn:Hp; [auto |].
      rewrite add_asset_valid in H by assumption.
      rewrite round_half_up_bind_not_ValueError in H; [discriminate |].
      intros q. apply round_half_up_bind_not_ValueError. reflexivity.
    + unfold PortfolioManager.add_asset.
      intros [H | [H | [H | H]]].
      * subst user_id. reflexivity.
      * subst asset_name. destruct (falsy user_id); reflexivity.
      * rewrite H. destruct (falsy user_id), (falsy asset_name); reflexivity.
      * rewrite H.
        destruct (falsy user_id), (falsy asset_name),
          (Float64.leb quantity Float64.zero); reflexivity.
  - apply le_zero_iff_not_positive.
  - intros h q p Hu Ha Hq Hp Hget Hrq Hrp.
    split; [apply quantize2_rounds_to; exact Hrq |].
    split; [apply quantize2_rounds_to; exact Hrp |].
    apply falsy_false_iff in Hu, Ha.
    rewrite add_asset_valid by assumption. rewrite Hrq, Hrp, Hget. cbn.
    eexists. eexists. split; [reflexivity |].
    split; [apply get_set_same | apply persisted_save].
  - intros q p Hu Ha Hq Hp Hget Hrq Hrp.
    split; [apply quantize2_rounds_to; exact Hrq |].
    split; [apply quantize2_rounds_to; exact Hrp |].
    apply falsy_false_iff in Hu, Ha.
    rewrite add_asset_valid by assumption. rewrite Hrq, Hrp, Hget. cbn.
    eexists. eexists. split; [reflexivity |].
    split; [apply get_set_same | apply persisted_save].
  - vm_compute. reflexivity.
  - vm_compute. reflexivity.
Qed.

(** The theorem on a first purchase that needs rounding, 1.234 BTC at
    100.005 held as 1.23 with a lot at 100.01, and on the second purchase of
    the example: 3 BTC at 31000 added to a holding of 2 BTC bought at
    30000. *)
Lemma add_asset_spec_witness :
  (exists (portfolio' : Portfolio) (file' : File),
      PortfolioManager.add_asset "u" "BTC" (lit 1234 (-3)) (lit 100005 (-3))
                                 Dict.empty
      = Ok (portfolio', file')
      /\ Dict.get "BTC" portfolio'
         = Some (Holding.mk (lit 123 (-2))
                   [Lot.mk (lit 1234 (-3)) (lit 10001 (-2))] None)
      /\ persisted "u" file' = portfolio')
  /\ (exists (portfolio' : Portfolio) (file' : File),
         PortfolioManager.add_asset "u" "BTC" (lit 3 0) (lit 31000 0)
           [("u"%string,
             mkMemory
               (Some [("BTC"%string,
                       Holding.mk (lit 2 0) [Lot.mk (lit 2 0) (lit 30000 0)]
                                  None)])
               [])]
         = Ok (portfolio', file')
         /\ Dict.get "BTC" portfolio'
            = Some (Holding.mk
                      (SFadd 53 1024 (lit 2 0) (lit 3 0))
                      ([Lot.mk (lit 2 0) (lit 30000 0)]
                         ++ [Lot.mk (lit 3 0) (lit 31000 0)])
                      None)
         /\ persisted "u" file' = portfolio').
Proof.
  split.
  - refine (proj2 (proj2
              (proj1 (proj2 (proj2 (proj2
                 (add_asset_spec "u" "BTC" (lit 1234 (-3)) (lit 100005 (-3))
                                 Dict.empty))))
                 (lit 123 (-2)) (lit 10001 (-2)) _ _ _ _ _ _ _)));
      solve [discriminate | vm_compute; reflexivity].
  - refine (proj2 (proj2
              (proj1 (proj2 (proj2
                 (add_asset_spec "u" "BTC" (lit 3 0) (lit 31000 0) _)))
                 (Holding.mk (lit 2 0) [Lot.mk (lit 2 0) (lit 30000 0)] None)
                 (lit 3 0) (lit 31000 0) _ _ _ _ _ _ _)));
      solve [discriminate | vm_compute; reflexivity].
Defined.

(** ** C9: what [add_asset] leaves alone *)

(** C9.  When the asset is already in the portfolio, a successful
    [add_asset] changes that holding's quantity and appends one lot to it:
    the holding's current price and the lots recorded before are as they
    were, every other asset's holding is as it was, and so is the order of
    the assets.  In the file, the records of other users and the sibling keys
    of the user's own record are untouched. *)
Theorem add_asset_frame :
  forall (user_id asset_name : string) (quantity purchase_price : Float64.float)
         (file : File) (h : Holding.t) (portfolio' : Portfolio) (file' : File),
    Dict.get asset_name (persisted user_id file) = Some h ->
    PortfolioManager.add_asset user_id asset_name quantity purchase_price file
      = Ok (portfolio', file') ->
    (exists (h' : Holding.t) (lot : Lot.t),
        Dict.get asset_name portfolio' = Some h'
        /\ Holding.current_price h' = Holding.current_price h
        /\ Holding.purchase_prices h' = Holding.purchase_prices h ++ [lot])
    /\ (forall other : string,
          other <> asset_name ->
          Dict.get other portfolio' = Dict.get other (persisted user_id file))
    /\ Dict.keys portfolio' = Dict.keys (persisted user_id file)
    /\ persisted user_id file' = portfolio'
    /\ (forall other_user : string,
          other_user <> user_id ->
          Dict.get other_user file' = Dict.get other_user file)
    /\ mem_siblings (load_memory user_id file')
       = mem_siblings (load_memory user_id file).
Proof.
  intros user_id asset_name quantity purchase_price file h portfolio' file'
         Hget Hadd.
  apply add_asset_Ok_inv in Hadd.
  destruct Hadd as (q & p & _ & _ & Hpf & Hfile).
  rewrite Hget in Hpf. cbn in Hpf.
  split; [| split; [| split; [| split; [| split]]]];
    [| | | | intros other_user Hne; rewrite Hfile;
             apply save_memory_other; exact Hne
         | rewrite Hfile; apply save_memory_siblings].
  - eexists. eexists. split; [| split].
    + rewrite Hpf. apply get_set_same.
    + reflexivity.
    + reflexivity.
  - intros other Hne. rewrite Hpf. apply get_set_other. exact Hne.
  - rewrite Hpf. apply keys_set_present.
    apply mem_true_iff. exists h. exact Hget.
  - rewrite Hfile. apply persisted_save.
Qed.

(** The theorem on [example_file]: adding BTC leaves the ETH holding as it
    was. *)
Lemma add_asset_frame_witness :
  exists (portfolio' : Portfolio) (file' : File),
    PortfolioManager.add_asset "u" "BTC" (lit 3 0) (lit 31000 0) example_file
      = Ok (portfolio', file')
    /\ Dict.get "ETH" portfolio' = Dict.get "ETH" (persisted "u" example_file).
Proof.
  eexists. eexists. split; [vm_compute; reflexivity |].
  refine (proj1 (proj2
            (add_asset_frame "u" "BTC" (lit 3 0) (lit 31000 0) example_file
               _ _ _ _ _)) "ETH"%string _);
    solve [discriminate | vm_compute; reflexivity].
Defined.

(** ** C2: which stored values are rounded *)

Lemma update_current_price_Ok_inv :
  forall (user_id asset_name : string) (current_price : Float64.float)
         (file : File) (portfolio' : Portfolio) (file' : File),
    PortfolioManager.update_current_price user_id asset_name current_price file
      = Ok (portfolio', file') ->
    match Dict.get asset_name (persisted user_id file) with
    | Some h =>
        exists p : Float64.float,
          round_half_up current_price = Ok p
          /\ portfolio' =
               Dict.set asset_name
                 (Holding.mk (Holding.quantity h) (Holding.purchase_prices h)
                             (Some p))
                 (persisted user_id file)
          /\ file' =
               save_memory user_id
                 (memory_set_portfolio (load_memory user_id file) portfolio')
                 file
    | None => portfolio' = persisted user_id file /\ file' = file
    end.
Proof.
  intros user_id asset_name current_price file portfolio' file' H.
  unfold PortfolioManager.update_current_price in H.
  destruct (falsy user_id); [discriminate |].
  destruct (falsy asset_name); [discriminate |].
  destruct (Float64.ltb current_price Float64.zero); [discriminate |].
  rewrite !raise_if_false in H. cbv zeta in H. fold (persisted user_id file) in H.
  destruct (Dict.get asset_name (persisted user_id file)) as [h |].
  - destruct (round_half_up current_price) as [p | e]; [| discriminate].
    cbn in H. injection H as <- <-. exists p. auto.
  - injection H as <- <-. auto.
Qed.

Lemma remove_asset_Ok_inv :
  forall (user_id asset_name : string) (file : File)
         (portfolio' : Portfolio) (file' : File),
    PortfolioManager.remove_asset user_id asset_name file = Ok (portfolio', file') ->
    if Dict.mem asset_name (persisted user_id file)
    then portfolio' = Dict.del asset_name (persisted user_id file)
         /\ file' =
              save_memory user_id
                (memory_set_portfolio (load_memory user_id file) portfolio') file
    else portfolio' = persisted user_id file /\ file' = file.
Proof.
  intros user_id asset_name file portfolio' file' H.
  unfold PortfolioManager.remove_asset in H.
  destruct (falsy user_id); [discriminate |].
  destruct (falsy asset_name); [discriminate |].
  rewrite !raise_if_false in H. cbv zeta in H. fold (persisted user_id file) in H.
  destruct (Dict.mem asset_name (persisted user_id file));
    injection H as <- <-; auto.
Qed.

(** C2, as stated, fails.  From the empty file, [add_asset("u", "BTC", 1.234,
    100)] persists a lot whose quantity is 1.234, which rounding to two
    decimals would turn into 1.23: the portfolio persisted before holds only
    two-decimal values, the one persisted after does not. *)
Lemma add_asset_stores_unrounded_lot_quantity :
  exists (portfolio' : Portfolio) (file' : File),
    PortfolioManager.add_asset "u" "BTC" (lit 1234 (-3)) (lit 100 0) Dict.empty
      = Ok (portfolio', file')
    /\ portfolio_rounded (persisted "u" Dict.empty) = true
    /\ option_map (fun h => map Lot.quantity (Holding.purchase_prices h))
                  (Dict.get "BTC" (persisted "u" file'))
       = Some [lit 1234 (-3)]
    /\ round_half_up (lit 1234 (-3)) = Ok (lit 123 (-2))
    /\ portfolio_rounded (persisted "u" file') = false.
Proof.
  eexists. eexists. split; [vm_compute; reflexivity |].
  repeat split; vm_compute; reflexivity.
Qed.

(** C2, amended.  What a successful ledger operation persists is the
    portfolio it returns.  [add_asset] stores the new lot's price rounded
    half-up to two decimals and the new lot's quantity as it was given; a new
    holding's quantity is the rounded quantity, an existing holding's quantity
    is the float sum of what it was and the rounded quantity, not rounded
    again.  [update_current_price] stores the price rounded half-up to two
    decimals.  Every other holding is stored as it was, and [remove_asset]
    stores no value that was not there. *)
Theorem ledger_stored_values :
  forall (user_id asset_name : string) (x y : Float64.float) (file : File)
         (portfolio' : Portfolio) (file' : File),
    (PortfolioManager.add_asset user_id asset_name x y file
       = Ok (portfolio', file') ->
     persisted user_id file' = portfolio'
     /\ exists q p : Float64.float,
         round_half_up x = Ok q /\ rounds_to Decimal.ROUND_HALF_UP x q
         /\ round_half_up y = Ok p /\ rounds_to Decimal.ROUND_HALF_UP y p
         /\ Dict.get asset_name portfolio'
            = Some match Dict.get asset_name (persisted user_id file) with
                   | Some h =>
                       Holding.mk
                         (Float64.add (Holding.quantity h) q)
                         (Holding.purchase_prices h ++ [Lot.mk x p])
                         (Holding.current_price h)
                   | None => Holding.mk q [Lot.mk x p] None
                   end
         /\ forall other : string,
             other <> asset_name ->
             Dict.get other portfolio'
             = Dict.get other (persisted user_id file))
    /\ (PortfolioManager.update_current_price user_id asset_name y file
          = Ok (portfolio', file') ->
        persisted user_id file' = portfolio'
        /\ match Dict.get asset_name (persisted user_id file) with
           | Some h =>
               exists p : Float64.float,
                 round_half_up y = Ok p /\ rounds_to Decimal.ROUND_HALF_UP y p
                 /\ Dict.get asset_name portfolio'
                    = Some (Holding.mk (Holding.quantity h)
                                       (Holding.purchase_prices h) (Some p))
                 /\ forall other : string,
                     other <> asset_name ->
                     Dict.get other portfolio'
                     = Dict.get other (persisted user_id file)
           | None => portfolio' = persisted user_id file /\ file' = file
           end)
    /\ (PortfolioManager.remove_asset user_id asset_name file
          = Ok (portfolio', file') ->
        persisted user_id file' = portfolio'
        /\ forall (other : string) (h : Holding.t),
            Dict.get other portfolio' = Some h ->
            Dict.get other (persisted user_id file) = Some h).
Proof.
  intros user_id asset_name x y file portfolio' file'.
  split; [| split].
  - intros H. apply add_asset_Ok_inv in H.
    destruct H as (q & p & Hq & Hp & Hpf & Hfile).
    split; [rewrite Hfile; apply persisted_save |].
    exists q, p.
    split; [exact Hq |]. split; [apply quantize2_rounds_to; exact Hq |].
    split; [exact Hp |]. split; [apply quantize2_rounds_to; exact Hp |].
    split.
    + rewrite Hpf, get_set_same. unfold added_holding.
      destruct (Dict.get asset_name (persisted user_id file)); reflexivity.
    + intros other Hne. rewrite Hpf. apply get_set_other. exact Hne.
  - intros H. apply update_current_price_Ok_inv in H.
    destruct (Dict.get asset_name (persisted user_id file)) as [h |].
    + destruct H as (p & Hp & Hpf & Hfile).
      split; [rewrite Hfile; apply persisted_save |].
      exists p. split; [exact Hp |].
      split; [apply quantize2_rounds_to; exact Hp |].
      split; [rewrite Hpf; apply get_set_same |].
      intros other Hne. rewrite Hpf. apply get_set_other. exact Hne.
    + destruct H as [-> ->]. auto.
  - intros H. apply remove_asset_Ok_inv in H.
    destruct (Dict.mem asset_name (persisted user_id file)).
    + destruct H as [Hpf Hfile].
      split; [rewrite Hfile; apply persisted_save |].
      intros other h Hget. rewrite Hpf in Hget.
      destruct (String.eqb other asset_name) eqn:E.
      * apply String.eqb_eq in E. subst other.
        rewrite get_del_same in Hget. discriminate.
      * apply String.eqb_neq in E.
        rewrite get_del_other in Hget by exact E. exact Hget.
    + destruct H as [-> ->]. auto.
Qed.

(** The theorem on the purchase of 1.234 BTC at 100 by a new user: the
    holding's quantity is stored as 1.23, the lot's as 1.234. *)
Lemma ledger_stored_values_witness :
  exists (portfolio' : Portfolio) (file' : File),
    PortfolioManager.add_asset "u" "BTC" (lit 1234 (-3)) (lit 100 0) Dict.empty
      = Ok (portfolio', file')
    /\ persisted "u" file' = portfolio'
    /\ Dict.get "BTC" portfolio'
       = Some (Holding.mk (lit 123 (-2))
                          [Lot.mk (lit 1234 (-3)) (lit 100 0)] None).
Proof.
  eexists. eexists. split; [vm_compute; reflexivity |].
  split.
  - refine (proj1 (proj1
              (ledger_stored_values "u" "BTC" (lit 1234 (-3)) (lit 100 0)
                 Dict.empty _ _) _)).
    vm_compute; reflexivity.
  - vm_compute; reflexivity.
Defined.

(** Two purchases of 0.1 and 0.2 units leave the holding's quantity at
    0.30000000000000004: the increments are rounded, their float sum is not. *)
Example add_asset_sum_not_rounded :
  (first <- PortfolioManager.add_asset "u" "BTC" (lit 1 (-1)) (lit 100 0)
              Dict.empty ;;
   second <- PortfolioManager.add_asset "u" "BTC" (lit 2 (-1)) (lit 100 0)
               (snd first) ;;
   Ok (option_map Holding.quantity (Dict.get "BTC" (fst second))))
  = Ok (Some (lit 30000000000000004 (-17))).
Proof. vm_compute. reflexivity. Qed.

(** ** C7: removing an asset *)

(** C7.  With a non-empty user id and asset name, [remove_asset] on an asset
    that is present returns and persists the portfolio without that holding
    (the holding goes with all its lots; the other holdings stay), and on an
    asset that is absent it returns the portfolio as it is and leaves the
    file untouched.  After either, [get_portfolio] for the user does not
    contain the asset.  With an empty user id or asset name it raises the
    validation error. *)
Theorem remove_asset_spec :
  forall (user_id asset_name : string) (file : File),
    (user_id <> ""%string -> asset_name <> ""%string ->
     Dict.mem asset_name (persisted user_id file) = true ->
     exists file' : File,
       PortfolioManager.remove_asset user_id asset_name file
         = Ok (Dict.del asset_name (persisted user_id file), file')
       /\ PortfolioManager.get_portfolio user_id file'
          = Ok (Dict.del asset_name (persisted user_id file))
       /\ Dict.get asset_name (Dict.del asset_name (persisted user_id file))
          = None
       /\ forall other : string,
           other <> asset_name ->
           Dict.get other (Dict.del asset_name (persisted user_id file))
           = Dict.get other (persisted user_id file))
    /\ (user_id <> ""%string -> asset_name <> ""%string ->
        Dict.mem asset_name (persisted user_id file) = false ->
        PortfolioManager.remove_asset user_id asset_name file
          = Ok (persisted user_id file, file))
    /\ (forall (portfolio' : Portfolio) (file' : File),
          PortfolioManager.remove_asset user_id asset_name file
            = Ok (portfolio', file') ->
          PortfolioManager.get_portfolio user_id file' = Ok portfolio'
          /\ Dict.mem asset_name portfolio' = false)
    /\ (user_id = ""%string \/ asset_name = ""%string ->
        is_ValueError (PortfolioManager.remove_asset user_id asset_name file)
        = true).
Proof.
  intros user_id asset_name file. split; [| split; [| split]].
  - intros Hu Ha Hmem. apply falsy_false_iff in Hu, Ha.
    unfold PortfolioManager.remove_asset, PortfolioManager.get_portfolio.
    rewrite Hu, Ha, !raise_if_false. cbv zeta.
    fold (persisted user_id file). rewrite Hmem.
    eexists. split; [reflexivity |].
    fold (persisted user_id
            (save_memory user_id
               (memory_set_portfolio (load_memory user_id file)
                  (Dict.del asset_name (persisted user_id file))) file)).
    rewrite persisted_save.
    split; [reflexivity |]. split; [apply get_del_same |].
    intros other Hne. apply get_del_other. exact Hne.
  - intros Hu Ha Hmem. apply falsy_false_iff in Hu, Ha.
    unfold PortfolioManager.remove_asset.
    rewrite Hu, Ha, !raise_if_false. cbv zeta.
    fold (persisted user_id file). rewrite Hmem. reflexivity.
  - intros portfolio' file' H.
    assert (Hu : falsy user_id = false).
    { unfold PortfolioManager.remove_asset in H.
      destruct (falsy user_id); [discriminate | reflexivity]. }
    apply remove_asset_Ok_inv in H.
    unfold PortfolioManager.get_portfolio. rewrite Hu, raise_if_false.
    fold (persisted user_id file').
    destruct (Dict.mem asset_name (persisted user_id file)) eqn:Hmem;
      destruct H as [Hpf Hfile].
    + rewrite Hfile, persisted_save. split; [reflexivity |].
      rewrite Hpf. apply mem_false_iff. apply get_del_same.
    + subst. auto.
  - unfold PortfolioManager.remove_asset. intros [-> | ->].
    + reflexivity.
    + destruct (falsy user_id); reflexivity.
Qed.

(** The theorem on [example_file]: removing BTC for user "u". *)
Lemma remove_asset_spec_witness :
  exists file' : File,
    PortfolioManager.remove_asset "u" "BTC" example_file
      = Ok (Dict.del "BTC" (persisted "u" example_file), file')
    /\ PortfolioManager.get_portfolio "u" file'
       = Ok (Dict.del "BTC" (persisted "u" example_file)).
Proof.
  destruct (proj1 (remove_asset_spec "u" "BTC" example_file))
    as (file' & Hremove & Hget & _).
  - discriminate.
  - discriminate.
  - vm_compute; reflexivity.
  - exists file'. split; assumption.
Defined.

(** ** C8: exporting an empty portfolio *)

(** C8.  For a non-empty user id, both exporters return [None] on the empty
    portfolio, and no exception; for the empty user id both raise the
    validation error whatever the portfolio.  Both checks come before the
    PDF's title is built, so this holds whatever the markup parser does. *)
Theorem export_empty_portfolio :
  forall (Paragraph : string -> result unit)
         (user_id : string) (portfolio : Portfolio),
    (user_id <> ""%string ->
     ExporterTool.export_portfolio_csv user_id Dict.empty = Ok None
     /\ ExporterTool.export_portfolio_pdf Paragraph user_id Dict.empty = Ok None)
    /\ ExporterTool.export_portfolio_csv "" portfolio
       = Raise (ValueError "User ID must be a non-empty string")
    /\ ExporterTool.export_portfolio_pdf Paragraph "" portfolio
       = Raise (ValueError "User ID must be a non-empty string").
Proof.
  intros Paragraph user_id portfolio. split; [| split].
  - intros Hu. apply falsy_false_iff in Hu.
    unfold ExporterTool.export_portfolio_csv, ExporterTool.export_portfolio_pdf.
    rewrite Hu. split; reflexivity.
  - reflexivity.
  - reflexivity.
Qed.

(** The theorem for the user id of the exporter's tests. *)
Lemma export_empty_portfolio_witness :
  ExporterTool.export_portfolio_csv "user1" Dict.empty = Ok None
  /\ ExporterTool.export_portfolio_pdf text_without_tags "user1" Dict.empty
     = Ok None.
Proof.
  apply (proj1 (export_empty_portfolio text_without_tags "user1" Dict.empty)).
  discriminate.
Defined.

(** ** C4: the investment simulation *)

Lemma mapM_ext_in :
  forall (A B : Type) (f g : A -> result B) (l : list A),
    (forall a, In a l -> f a = g a) -> mapM f l = mapM g l.
Proof.
  intros A B f g l. induction l as [| a l IH]; intros H; simpl; [reflexivity |].
  rewrite (H a) by (left; reflexivity).
  rewrite IH by (intros a' Ha'; apply H; right; exact Ha').
  reflexivity.
Qed.

Lemma mapM_Ok_Forall2 :
  forall (A B : Type) (f : A -> result B) (l : list A) (bs : list B),
    mapM f l = Ok bs -> Forall2 (fun a b => f a = Ok b) l bs.
Proof.
  intros A B f l. induction l as [| a l IH]; intros bs H; simpl in H.
  - injection H as <-. constructor.
  - apply bind_Ok_inv in H. destruct H as (b & Hb & H).
    apply bind_Ok_inv in H. destruct H as (bs' & Hbs & H).
    injection H as <-. constructor; [exact Hb | apply IH; exact Hbs].
Qed.

Lemma mapM_is_Ok :
  forall (A B : Type) (f : A -> result B) (l : list A),
    (forall a, In a l -> is_Ok (f a) = true) -> is_Ok (mapM f l) = true.
Proof.
  intros A B f l. induction l as [| a l IH]; intros H; simpl; [reflexivity |].
  pose proof (H a (or_introl eq_refl)) as Ha.
  destruct (f a) as [b | e]; [| discriminate]. simpl.
  specialize (IH (fun a' Ha' => H a' (or_intror Ha'))).
  destruct (mapM f l); [reflexivity | discriminate].
Qed.

(** A [mapM] that pairs each key with the value computed for it. *)
Lemma mapM_keyed_Ok :
  forall (K B : Type) (f : K -> result B) (l : list K) (bs : list (K * B)),
    mapM (fun k => v <- f k ;; Ok (k, v)) l = Ok bs ->
    map fst bs = l
    /\ forall (k : K) (v : B), In (k, v) bs -> In k l /\ f k = Ok v.
Proof.
  intros K B f l bs H. apply mapM_Ok_Forall2 in H.
  induction H as [| k [k' v] l bs Hkv _ [IHfst IHin]]; simpl.
  - split; [reflexivity | intros ? ? []].
  - apply bind_Ok_inv in Hkv. destruct Hkv as (v' & Hv' & Hkv).
    injection Hkv as <- <-. split; [f_equal; exact IHfst |].
    intros k' v'' [Hhd | Htl].
    + injection Hhd as <- <-. auto.
    + destruct (IHin _ _ Htl). auto.
Qed.

(** The loop of the simulation is a [mapM] over the years left. *)
Lemma simulation_loop_mapM :
  forall (pow : Float64.float -> Z -> result Float64.float)
         (principal rate : Float64.float) (n : Z)
         (todo : list Z) (so_far : list (Z * Float64.float)),
    CalculatorTool.simulation_loop pow principal rate n todo so_far =
      (entries <-
         mapM (fun year =>
                 amount <- (if year =? 0 then Ok principal
                            else CalculatorTool.compound_amount
                                   pow principal rate year n) ;;
                 value <- round_half_up amount ;;
                 Ok (year, value))
              todo ;;
       Ok (so_far ++ entries)).
Proof.
  intros pow principal rate n todo.
  induction todo as [| year todo IH]; intros so_far; simpl.
  - rewrite app_nil_r. reflexivity.
  - destruct (if year =? 0 then Ok principal
              else CalculatorTool.compound_amount pow principal rate year n)
      as [amount | e]; simpl; [| reflexivity].
    destruct (round_half_up amount) as [value | e]; simpl; [| reflexivity].
    rewrite IH.
    destruct (mapM _ todo) as [entries | e]; simpl; [| reflexivity].
    rewrite <- app_assoc. reflexivity.
Qed.

Lemma In_range :
  forall stop year : Z, In year (CalculatorTool.range stop) <-> 0 <= year < stop.
Proof.
  intros stop year. unfold CalculatorTool.range. rewrite in_map_iff. split.
  - intros (i & <- & Hi). apply in_seq in Hi. lia.
  - intros H. exists (Z.to_nat year). split; [lia |]. apply in_seq. lia.
Qed.

(** On valid arguments [compound_interest] is the loop body of the
    simulation. *)
Lemma compound_interest_valid :
  forall (pow : Float64.float -> Z -> result Float64.float)
         (principal rate : Float64.float) (years n : Z),
    Float64.leb principal Float64.zero = false ->
    Float64.ltb rate Float64.zero = false ->
    0 <= years -> 0 < n ->
    CalculatorTool.compound_interest pow principal rate years n =
      (amount <- (if years =? 0 then Ok principal
                  else CalculatorTool.compound_amount pow principal rate years n) ;;
       round_half_up amount).
Proof.
  intros pow principal rate years n Hp Hr Hy Hn.
  unfold CalculatorTool.compound_interest. rewrite Hp, Hr.
  replace (years <? 0) with false by (symmetry; apply Z.ltb_ge; lia).
  replace (n <=? 0) with false by (symmetry; apply Z.leb_gt; lia).
  rewrite !raise_if_false. destruct (years =? 0); reflexivity.
Qed.

(** The year-0 entry, and the entry of a later year once the power is
    known. *)
Lemma compound_interest_year_0 :
  forall (pow : Float64.float -> Z -> result Float64.float)
         (principal rate : Float64.float) (n : Z),
    Float64.leb principal Float64.zero = false ->
    Float64.ltb rate Float64.zero = false ->
    0 < n ->
    CalculatorTool.compound_interest pow principal rate 0 n
    = round_half_up principal.
Proof.
  intros pow principal rate n Hp Hr Hn.
  rewrite compound_interest_valid by (assumption || lia).
  change (0 =? 0) with true. unfold bind. reflexivity.
Qed.

Lemma compound_interest_later_year :
  forall (pow : Float64.float -> Z -> result Float64.float)
         (principal rate : Float64.float) (years n : Z)
         (n' per_period growth : Float64.float),
    Float64.leb principal Float64.zero = false ->
    Float64.ltb rate Float64.zero = false ->
    0 < years -> 0 < n ->
    Float64.of_int n = Ok n' ->
    Float64.div rate n' = Ok per_period ->
    pow (Float64.add (Float64.const 1) per_period) (n * years) = Ok growth ->
    CalculatorTool.compound_interest pow principal rate years n
    = round_half_up (Float64.mul principal growth).
Proof.
  intros pow principal rate years n n' per_period growth
         Hp Hr Hy Hn Hn' Hper Hgrowth.
  rewrite compound_interest_valid by (assumption || lia).
  replace (years =? 0) with false by (symmetry; apply Z.eqb_neq; lia).
  unfold CalculatorTool.compound_amount.
  rewrite Hn'. unfold bind at 2. rewrite Hper. unfold bind at 2.
  rewrite Hgrowth. reflexivity.
Qed.

(** Year by year, the simulation is [compound_interest] on the original
    principal. *)
Lemma investment_simulation_pointwise :
  forall (pow : Float64.float -> Z -> result Float64.float)
         (principal rate : Float64.float) (years n : Z),
    Float64.leb principal Float64.zero = false ->
    Float64.ltb rate Float64.zero = false ->
    0 <= years ->
    0 < n ->
    CalculatorTool.investment_simulation pow principal rate years n =
      mapM (fun year =>
              value <- CalculatorTool.compound_interest pow principal rate year n ;;
              Ok (year, value))
           (CalculatorTool.range (years + 1)).
Proof.
  intros pow principal rate years n Hp Hr Hyears Hn.
  unfold CalculatorTool.investment_simulation. rewrite Hp, Hr.
  replace (years <? 0) with false by (symmetry; apply Z.ltb_ge; lia).
  replace (n <=? 0) with false by (symmetry; apply Z.leb_gt; lia).
  rewrite !raise_if_false, simulation_loop_mapM.
  match goal with
  | |- (entries <- ?m ;; Ok ([] ++ entries)) = _ =>
      transitivity m; [destruct m; reflexivity |]
  end.
  apply mapM_ext_in. intros year Hin. apply In_range in Hin.
  rewrite compound_interest_valid by (assumption || lia).
  destruct (if year =? 0 then Ok principal
            else CalculatorTool.compound_amount pow principal rate year n);
    reflexivity.
Qed.

(** C4.  For valid arguments ([principal > 0], [rate >= 0], [years >= 0],
    [n > 0]) the simulation is, year by year over [0 .. years], what
    [compound_interest] computes from the original principal for that many
    years, never from the value stored for the year before.  When it returns,
    its mapping has exactly [years + 1] entries, keyed [0 .. years] in order,
    the entry of each year being [compound_interest]'s value for that year.
    The entry of year 0 is the principal rounded half-up to two decimals,
    and the entry of a later year [y] is the float product
    [principal * (1 + rate / n) ** (n * y)], the quotient, the sum and the
    product being the IEEE operations, rounded half-up to two decimals.
    With a [pow] that gives [1.05 ** 1 = 1.05] and [1.05 ** 2 = 1.1025],
    [investment_simulation(1000, 0.05, 2)] is
    [{0: 1000.0, 1: 1050.0, 2: 1102.5}]; and with monthly compounding and
    the correctly rounded power, [investment_simulation(1000, 0.05, 2, 12)]
    is [{0: 1000.0, 1: 1051.16, 2: 1104.94}]. *)
Theorem investment_simulation_spec :
  forall (pow : Float64.float -> Z -> result Float64.float)
         (principal rate : Float64.float) (years n : Z),
    Float64.ltb Float64.zero principal = true ->
    Float64.leb Float64.zero rate = true ->
    0 <= years ->
    0 < n ->
    CalculatorTool.investment_simulation pow principal rate years n =
      mapM (fun year =>
              value <- CalculatorTool.compound_interest pow principal rate year n ;;
              Ok (year, value))
           (CalculatorTool.range (years + 1))
    /\ (forall result : list (Z * Float64.float),
          CalculatorTool.investment_simulation pow principal rate years n
            = Ok result ->
          Z.of_nat (List.length result) = years + 1
          /\ map fst result = CalculatorTool.range (years + 1)
          /\ (forall (year : Z) (value : Float64.float),
                In (year, value) result ->
                0 <= year <= years
                /\ CalculatorTool.compound_interest pow principal rate year n
                   = Ok value)
          /\ (forall year : Z,
                0 <= year <= years ->
                exists value : Float64.float, In (year, value) result)
          /\ (exists v0 : Float64.float,
                nth_error result 0 = Some (0, v0)
                /\ round_half_up principal = Ok v0
                /\ rounds_to Decimal.ROUND_HALF_UP principal v0)
          /\ (forall (year : Z) (value : Float64.float),
                In (year, value) result ->
                year <> 0 ->
                exists growth : Float64.float,
                  pow (SFadd 53 1024
                         (binary_normalize 53 1024 1 0 false)
                         (SFdiv 53 1024 rate
                                (binary_normalize 53 1024 n 0 false)))
                      (n * year)
                  = Ok growth
                  /\ rounds_to Decimal.ROUND_HALF_UP
                               (SFmul 53 1024 principal growth) value))
    /\ ((forall year : Z,
           0 <= year <= years ->
           is_Ok (CalculatorTool.compound_interest pow principal rate year n)
           = true) ->
        is_Ok (CalculatorTool.investment_simulation pow principal rate years n)
        = true)
    /\ (pow (lit 105 (-2)) 1 = Ok (lit 105 (-2)) ->
        pow (lit 105 (-2)) 2 = Ok (lit 11025 (-4)) ->
        CalculatorTool.investment_simulation pow (lit 1000 0) (lit 5 (-2)) 2 1
        = Ok [(0, lit 1000 0); (1, lit 1050 0); (2, lit 11025 (-1))])
    /\ CalculatorTool.investment_simulation Libm.pow
         (lit 1000 0) (lit 5 (-2)) 2 12
       = Ok [(0, lit 1000 0); (1, lit 105116 (-2)); (2, lit 110494 (-2))].
Proof.
  intros pow principal rate years n Hprincipal Hrate Hyears Hn.
  pose proof (positive_not_le_zero _ Hprincipal) as Hp.
  pose proof (nonnegative_not_lt_zero _ Hrate) as Hr.
  pose proof (investment_simulation_pointwise pow principal rate years n
                Hp Hr Hyears Hn) as Heq.
  split; [exact Heq |]. split; [| split; [| split]].
  - intros result Hres. rewrite Heq in Hres.
    apply mapM_keyed_Ok in Hres. destruct Hres as [Hfst Hin].
    split; [| split; [exact Hfst | split; [| split; [| split]]]].
    + rewrite <- (length_map fst), Hfst. unfold CalculatorTool.range.
      rewrite length_map, length_seq. lia.
    + intros year value Hyv. destruct (Hin _ _ Hyv) as [Hrange Hci].
      apply In_range in Hrange. split; [lia | exact Hci].
    + intros year Hy.
      assert (Hrange : In year (map fst result))
        by (rewrite Hfst; apply In_range; lia).
      apply in_map_iff in Hrange. destruct Hrange as ([y v] & Hy' & Hyv).
      simpl in Hy'. subst y. exists v. exact Hyv.
    + destruct result as [| [y0 v0] result'].
      * apply (f_equal (@List.length Z)) in Hfst. simpl in Hfst.
        unfold CalculatorTool.range in Hfst.
        rewrite length_map, length_seq in Hfst. lia.
      * exists v0.
        assert (Hy0 : y0 = 0).
        { unfold CalculatorTool.range in Hfst.
          replace (Z.to_nat (years + 1)) with (S (Z.to_nat years)) in Hfst by lia.
          simpl in Hfst. injection Hfst as -> _. reflexivity. }
        subst y0. split; [reflexivity |].
        destruct (Hin 0 v0 (or_introl eq_refl)) as [_ Hci].
        rewrite compound_interest_valid in Hci by (assumption || lia).
        split; [exact Hci |].
        apply quantize2_rounds_to. exact Hci.
    + intros year value Hyv Hyear.
      destruct (Hin _ _ Hyv) as [Hrange Hci].
      apply In_range in Hrange.
      rewrite compound_interest_valid in Hci by (assumption || lia).
      replace (year =? 0) with false in Hci
        by (symmetry; apply Z.eqb_neq; exact Hyear).
      apply bind_Ok_inv in Hci. destruct Hci as (amount & Hamount & Hvalue).
      unfold CalculatorTool.compound_amount in Hamount.
      apply bind_Ok_inv in Hamount. destruct Hamount as (n' & Hn' & Hamount).
      apply bind_Ok_inv in Hamount.
      destruct Hamount as (per_period & Hper & Hamount).
      apply bind_Ok_inv in Hamount.
      destruct Hamount as (growth & Hgrowth & Hamount).
      injection Hamount as <-.
      unfold Float64.of_int in Hn'.
      destruct (Float64.is_inf
                  (binary_normalize Float64.prec Float64.emax n 0 false));
        [discriminate |].
      injection Hn' as <-.
      unfold Float64.div in Hper.
      destruct (Float64.eqb
                  (binary_normalize Float64.prec Float64.emax n 0 false)
                  Float64.zero); [discriminate |].
      injection Hper as <-.
      exists growth. split; [exact Hgrowth |].
      apply quantize2_rounds_to. exact Hvalue.
  - intros Hall. rewrite Heq. apply mapM_is_Ok.
    intros year Hin. apply In_range in Hin.
    specialize (Hall year ltac:(lia)).
    destruct (CalculatorTool.compound_interest pow principal rate year n);
      [reflexivity | discriminate].
  - intros Hpow1 Hpow2.
    assert (Hp' : Float64.leb (lit 1000 0) Float64.zero = false)
      by (vm_compute; reflexivity).
    assert (Hr' : Float64.ltb (lit 5 (-2)) Float64.zero = false)
      by (vm_compute; reflexivity).
    assert (Hn' : Float64.of_int 1 = Ok (lit 1 0)) by (vm_compute; reflexivity).
    assert (Hper : Float64.div (lit 5 (-2)) (lit 1 0) = Ok (lit 5 (-2)))
      by (vm_compute; reflexivity).
    assert (Hbase : Float64.add (Float64.const 1) (lit 5 (-2)) = lit 105 (-2))
      by (vm_compute; reflexivity).
    rewrite investment_simulation_pointwise by (assumption || lia).
    replace (CalculatorTool.range (2 + 1)) with [0; 1; 2]
      by (vm_compute; reflexivity).
    cbn [mapM].
    rewrite compound_interest_year_0 by (assumption || lia).
    rewrite compound_interest_later_year
      with (years := 1) (n' := lit 1 0) (per_period := lit 5 (-2))
           (growth := lit 105 (-2))
      by first [assumption | lia | rewrite Hbase; exact Hpow1].
    rewrite compound_interest_later_year
      with (years := 2) (n' := lit 1 0) (per_period := lit 5 (-2))
           (growth := lit 11025 (-4))
      by first [assumption | lia | rewrite Hbase; exact Hpow2].
    vm_compute. reflexivity.
  - vm_compute. reflexivity.
Qed.

(** The theorem with the correctly rounded [pow]: on the simulation of the
    calculator's tests, and on monthly compounding, where the value of year
    1 is [1000 * (1 + 0.05 / 12) ** 12 = 1051.161897881733] rounded to
    [1051.16]. *)
Lemma investment_simulation_spec_witness :
  CalculatorTool.investment_simulation Libm.pow (lit 1000 0) (lit 5 (-2)) 2 1
  = Ok [(0, lit 1000 0); (1, lit 1050 0); (2, lit 11025 (-1))]
  /\ exists growth : Float64.float,
       Libm.pow (SFadd 53 1024
                   (binary_normalize 53 1024 1 0 false)
                   (SFdiv 53 1024 (lit 5 (-2))
                          (binary_normalize 53 1024 12 0 false)))
                (12 * 1)
       = Ok growth
       /\ SFmul 53 1024 (lit 1000 0) growth = lit 1051161897881733 (-12)
       /\ rounds_to Decimal.ROUND_HALF_UP
                    (SFmul 53 1024 (lit 1000 0) growth) (lit 105116 (-2)).
Proof.
  split.
  - refine (proj1 (proj2 (proj2 (proj2
              (investment_simulation_spec Libm.pow (lit 1000 0) (lit 5 (-2)) 2 1
                 _ _ _ _)))) _ _);
      solve [lia | vm_compute; reflexivity].
  - assert (Hres : CalculatorTool.investment_simulation Libm.pow
                     (lit 1000 0) (lit 5 (-2)) 2 12
                   = Ok [(0, lit 1000 0); (1, lit 105116 (-2));
                         (2, lit 110494 (-2))])
      by (vm_compute; reflexivity).
    assert (Hp : Float64.ltb Float64.zero (lit 1000 0) = true)
      by (vm_compute; reflexivity).
    assert (Hr : Float64.leb Float64.zero (lit 5 (-2)) = true)
      by (vm_compute; reflexivity).
    destruct (proj2 (proj2 (proj2 (proj2 (proj2
                (proj1 (proj2 (investment_simulation_spec
                                 Libm.pow (lit 1000 0) (lit 5 (-2)) 2 12
                                 Hp Hr ltac:(lia) ltac:(lia)))
                       _ Hres)))))
                1 (lit 105116 (-2)) ltac:(simpl; auto) ltac:(lia))
      as (growth & Hgrowth & Hrounds).
    exists growth. split; [exact Hgrowth |]. split; [| exact Hrounds].
    vm_compute in Hgrowth. injection Hgrowth as <-.
    vm_compute. reflexivity.
Defined.

(** ** The exporters' rows *)

Lemma last_item_app :
  forall (A : Type) (l : list A) (x : A), ExporterTool.last_item (l ++ [x]) = Ok x.
Proof.
  intros A l x. induction l as [| a l IH]; simpl; [reflexivity |].
  destruct (l ++ [x]) eqn:E; [destruct l; discriminate | exact IH].
Qed.





(** ** C6: the valuation price and the asset's value *)



(** The CSV export of the exporter's test: BTC is valued at its current
    price, ETH at the price of its last lot. *)
Example export_portfolio_csv_test :
  ExporterTool.export_portfolio_csv "user1" (persisted "u" example_file)
  = Ok (Some ("app/data/exports/user1_portfolio.csv"%string,
              [ExporterTool.mkRow "BTC" (lit 2 0) (lit 32000 0) (lit 64000 0);
               ExporterTool.mkRow "ETH" (lit 5 0) (lit 2000 0) (lit 10000 0)])).
Proof. vm_compute. reflexivity. Qed.

(** ** C10: the exporters round half-even *)



(** ** Further properties of the ledger and the calculator *)

(** [update_current_price] raises the validation error exactly when the user
    id or the asset name is empty or the price is [< 0]; on an asset that is
    present it sets the current price, rounded half-up to two decimals, and
    persists; on an asset that is absent it returns the portfolio as it is
    and leaves the file untouched.  After buying BTC, setting its price to
    32000 stores 32000.0, and setting it to 32000.005 stores 32000.01. *)
Theorem update_current_price_spec :
  forall (user_id asset_name : string) (price : Float64.float) (file : File),
    (is_ValueError
       (PortfolioManager.update_current_price user_id asset_name price file)
     = true
     <-> user_id = ""%string \/ asset_name = ""%string
         \/ Float64.ltb price Float64.zero = true)
    /\ (forall (h : Holding.t) (p : Float64.float),
          user_id <> ""%string -> asset_name <> ""%string ->
          Float64.ltb price Float64.zero = false ->
          Dict.get asset_name (persisted user_id file) = Some h ->
          round_half_up price = Ok p ->
          exists (portfolio' : Portfolio) (file' : File),
            PortfolioManager.update_current_price user_id asset_name price file
              = Ok (portfolio', file')
            /\ Dict.get asset_name portfolio'
               = Some (Holding.mk (Holding.quantity h)
                                  (Holding.purchase_prices h) (Some p))
            /\ persisted user_id file' = portfolio')
    /\ (user_id <> ""%string -> asset_name <> ""%string ->
        Float64.ltb price Float64.zero = false ->
        Dict.get asset_name (persisted user_id file) = None ->
        PortfolioManager.update_current_price user_id asset_name price file
        = Ok (persisted user_id file, file))
    /\ (bought <- PortfolioManager.add_asset "user1" "BTC" (lit 2 0)
                    (lit 30000 0) Dict.empty ;;
        priced <- PortfolioManager.update_current_price "user1" "BTC"
                    (lit 32000 0) (snd bought) ;;
        Ok (option_map Holding.current_price (Dict.get "BTC" (fst priced))))
       = Ok (Some (Some (lit 32000 0)))
    /\ (forall p : Float64.float,
          round_half_up price = Ok p ->
          rounds_to Decimal.ROUND_HALF_UP price p)
    /\ (bought <- PortfolioManager.add_asset "user1" "BTC" (lit 2 0)
                    (lit 30000 0) Dict.empty ;;
        priced <- PortfolioManager.update_current_price "user1" "BTC"
                    (lit 32000005 (-3)) (snd bought) ;;
        Ok (option_map Holding.current_price (Dict.get "BTC" (fst priced))))
       = Ok (Some (Some (lit 3200001 (-2)))).
Proof.
  intros user_id asset_name price file.
  split; [| split; [| split; [| split; [| split]]]].
  - unfold PortfolioManager.update_current_price. split.
    + intros H.
      destruct (falsy user_id) eqn:Hu; [apply falsy_true_iff in Hu; auto |].
      destruct (falsy asset_name) eqn:Ha; [apply falsy_true_iff in Ha; auto |].
      destruct (Float64.ltb price Float64.zero) eqn:Hp; [auto |].
      rewrite !raise_if_false in H. cbv zeta in H.
      destruct (Dict.get asset_name (memory_portfolio (load_memory user_id file)));
        [| discriminate].
      rewrite round_half_up_bind_not_ValueError in H; [discriminate |].
      reflexivity.
    + intros [H | [H | H]].
      * subst user_id. reflexivity.
      * subst asset_name. destruct (falsy user_id); reflexivity.
      * rewrite H. destruct (falsy user_id), (falsy asset_name); reflexivity.
  - intros h p Hu Ha Hp Hget Hround. apply falsy_false_iff in Hu, Ha.
    unfold PortfolioManager.update_current_price.
    rewrite Hu, Ha, Hp, !raise_if_false. cbv zeta.
    fold (persisted user_id file). rewrite Hget, Hround. cbn.
    eexists. eexists. split; [reflexivity |].
    split; [apply get_set_same | apply persisted_save].
  - intros Hu Ha Hp Hget. apply falsy_false_iff in Hu, Ha.
    unfold PortfolioManager.update_current_price.
    rewrite Hu, Ha, Hp, !raise_if_false. cbv zeta.
    fold (persisted user_id file). rewrite Hget. reflexivity.
  - vm_compute. reflexivity.
  - intros p Hround. apply quantize2_rounds_to. exact Hround.
  - vm_compute. reflexivity.
Qed.

(** The theorem on [example_file]: pricing ETH at 2100. *)
Lemma update_current_price_spec_witness :
  exists (portfolio' : Portfolio) (file' : File),
    PortfolioManager.update_current_price "u" "ETH" (lit 2100 0) example_file
      = Ok (portfolio', file')
    /\ Dict.get "ETH" portfolio'
       = Some (Holding.mk (lit 5 0) [Lot.mk (lit 5 0) (lit 2000 0)]
                          (Some (lit 2100 0)))
    /\ persisted "u" file' = portfolio'.
Proof.
  refine (proj1 (proj2
            (update_current_price_spec "u" "ETH" (lit 2100 0) example_file))
            (Holding.mk (lit 5 0) [Lot.mk (lit 5 0) (lit 2000 0)] None)
            (lit 2100 0) _ _ _ _ _);
    solve [discriminate | vm_compute; reflexivity].
Defined.

(** [get_portfolio] raises the validation error on the empty user id and
    otherwise returns the persisted portfolio, the empty one for a user the
    file does not know; it has no effect on the file, so it returns the same
    mapping until the next mutation; and after a successful [add_asset] it
    returns the portfolio that [add_asset] returned. *)
Theorem get_portfolio_spec :
  forall (user_id : string) (file : File),
    (user_id = ""%string ->
     PortfolioManager.get_portfolio user_id file
     = Raise (ValueError "User ID must be a non-empty string"))
    /\ (user_id <> ""%string ->
        PortfolioManager.get_portfolio user_id file
        = Ok (persisted user_id file))
    /\ (user_id <> ""%string -> Dict.get user_id file = None ->
        PortfolioManager.get_portfolio user_id file = Ok Dict.empty)
    /\ (forall (asset_name : string) (quantity purchase_price : Float64.float)
               (portfolio' : Portfolio) (file' : File),
          PortfolioManager.add_asset user_id asset_name quantity purchase_price
                                     file
            = Ok (portfolio', file') ->
          PortfolioManager.get_portfolio user_id file' = Ok portfolio').
Proof.
  intros user_id file. unfold PortfolioManager.get_portfolio.
  split; [| split; [| split]].
  - intros ->. reflexivity.
  - intros Hu. apply falsy_false_iff in Hu. rewrite Hu. reflexivity.
  - intros Hu Hnone. apply falsy_false_iff in Hu. rewrite Hu.
    unfold load_memory. rewrite Hnone. reflexivity.
  - intros asset_name quantity purchase_price portfolio' file' Hadd.
    assert (Hu : falsy user_id = false).
    { unfold PortfolioManager.add_asset in Hadd.
      destruct (falsy user_id); [discriminate | reflexivity]. }
    apply add_asset_Ok_inv in Hadd.
    destruct Hadd as (q & p & _ & _ & _ & Hfile).
    rewrite Hu, raise_if_false. fold (persisted user_id file').
    rewrite Hfile, persisted_save. reflexivity.
Qed.

(** The theorem for a user the empty file does not know. *)
Lemma get_portfolio_spec_witness :
  PortfolioManager.get_portfolio "unknown_user" Dict.empty = Ok Dict.empty.
Proof.
  apply (proj1 (proj2 (proj2 (get_portfolio_spec "unknown_user" Dict.empty))));
    [discriminate | reflexivity].
Defined.

(** [simple_interest] checks the principal, then the rate, then the years;
    with no years it returns the rounded principal, otherwise
    [principal * (1 + rate * years)] rounded half-up; and
    [simple_interest(1000, 0.05, 3) = 1150.0],
    [simple_interest(1000, 0.05, 0) = 1000.0],
    [simple_interest(1234.567, 0.0333, 7) = 1522.34]. *)
Theorem simple_interest_spec :
  forall (principal rate : Float64.float) (years : Z),
    (Float64.leb principal Float64.zero = true ->
     CalculatorTool.simple_interest principal rate years
     = Raise (ValueError "Principal must be positive"))
    /\ (Float64.leb principal Float64.zero = false ->
        Float64.ltb rate Float64.zero = true ->
        CalculatorTool.simple_interest principal rate years
        = Raise (ValueError "Interest rate cannot be negative"))
    /\ (Float64.leb principal Float64.zero = false ->
        Float64.ltb rate Float64.zero = false ->
        years < 0 ->
        CalculatorTool.simple_interest principal rate years
        = Raise (ValueError "Years cannot be negative"))
    /\ (Float64.leb principal Float64.zero = false ->
        Float64.ltb rate Float64.zero = false ->
        CalculatorTool.simple_interest principal rate 0
        = round_half_up principal)
    /\ (forall years' : Float64.float,
          Float64.leb principal Float64.zero = false ->
          Float64.ltb rate Float64.zero = false ->
          0 < years ->
          Float64.of_int years = Ok years' ->
          CalculatorTool.simple_interest principal rate years
          = round_half_up
              (Float64.mul principal
                 (Float64.add (Float64.const 1) (Float64.mul rate years'))))
    /\ CalculatorTool.simple_interest (lit 1000 0) (lit 5 (-2)) 3
       = Ok (lit 1150 0)
    /\ CalculatorTool.simple_interest (lit 1000 0) (lit 5 (-2)) 0
       = Ok (lit 1000 0)
    /\ (forall value : Float64.float,
          Float64.leb principal Float64.zero = false ->
          Float64.ltb rate Float64.zero = false ->
          CalculatorTool.simple_interest principal rate years = Ok value ->
          if years =? 0
          then rounds_to Decimal.ROUND_HALF_UP principal value
          else rounds_to Decimal.ROUND_HALF_UP
                 (SFmul 53 1024 principal
                    (SFadd 53 1024
                       (binary_normalize 53 1024 1 0 false)
                       (SFmul 53 1024 rate
                              (binary_normalize 53 1024 years 0 false))))
                 value)
    /\ CalculatorTool.simple_interest (lit 1234567 (-3)) (lit 333 (-4)) 7
       = Ok (lit 152234 (-2)).
Proof.
  intros principal rate years. unfold CalculatorTool.simple_interest.
  split; [| split; [| split; [| split; [| split; [| split; [| split; [| split]]]]]]].
  - intros ->. reflexivity.
  - intros -> ->. reflexivity.
  - intros -> -> Hy. apply Z.ltb_lt in Hy. rewrite Hy. reflexivity.
  - intros -> ->. reflexivity.
  - intros years' -> -> Hy Hof.
    replace (years <? 0) with false by (symmetry; apply Z.ltb_ge; lia).
    replace (years =? 0) with false by (symmetry; apply Z.eqb_neq; lia).
    rewrite !raise_if_false. unfold CalculatorTool.simple_amount.
    rewrite Hof. reflexivity.
  - vm_compute. reflexivity.
  - vm_compute. reflexivity.
  - intros value -> ->. rewrite !raise_if_false.
    destruct (years <? 0); [discriminate |]. rewrite raise_if_false.
    destruct (years =? 0).
    + apply quantize2_rounds_to.
    + intros H. apply bind_Ok_inv in H. destruct H as (amount & Hamount & H).
      unfold CalculatorTool.simple_amount in Hamount.
      apply bind_Ok_inv in Hamount. destruct Hamount as (years' & Hof & Hamount).
      injection Hamount as <-.
      unfold Float64.of_int in Hof.
      destruct (Float64.is_inf
                  (binary_normalize Float64.prec Float64.emax years 0 false));
        [discriminate |].
      injection Hof as <-.
      apply quantize2_rounds_to. exact H.
  - vm_compute. reflexivity.
Qed.

(** The theorem on the test's [simple_interest(1000, 0.05, 3)]. *)
Lemma simple_interest_spec_witness :
  CalculatorTool.simple_interest (lit 1000 0) (lit 5 (-2)) 3
  = round_half_up
      (Float64.mul (lit 1000 0)
         (Float64.add (Float64.const 1) (Float64.mul (lit 5 (-2)) (lit 3 0)))).
Proof.
  refine (proj1 (proj2 (proj2 (proj2 (proj2
            (simple_interest_spec (lit 1000 0) (lit 5 (-2)) 3)))))
            (lit 3 0) _ _ _ _);
    solve [lia | vm_compute; reflexivity].
Defined.

(** [compound_interest] checks the principal, the rate, the years and the
    frequency in that order; with no years it returns the rounded principal;
    and with the correctly rounded [pow],
    [compound_interest(1000, 0.05, 3) = 1157.63] and
    [compound_interest(1000, 0.05, 0) = 1000.0]. *)
Theorem compound_interest_spec :
  forall (pow : Float64.float -> Z -> result Float64.float)
         (principal rate : Float64.float) (years n : Z),
    (Float64.leb principal Float64.zero = true ->
     CalculatorTool.compound_interest pow principal rate years n
     = Raise (ValueError "Principal must be positive"))
    /\ (Float64.leb principal Float64.zero = false ->
        Float64.ltb rate Float64.zero = true ->
        CalculatorTool.compound_interest pow principal rate years n
        = Raise (ValueError "Interest rate cannot be negative"))
    /\ (Float64.leb principal Float64.zero = false ->
        Float64.ltb rate Float64.zero = false ->
        years < 0 ->
        CalculatorTool.compound_interest pow principal rate years n
        = Raise (ValueError "Years cannot be negative"))
    /\ (Float64.leb principal Float64.zero = false ->
        Float64.ltb rate Float64.zero = false ->
        0 <= years -> n <= 0 ->
        CalculatorTool.compound_interest pow principal rate years n
        = Raise (ValueError "Compounding frequency must be positive"))
    /\ (Float64.leb principal Float64.zero = false ->
        Float64.ltb rate Float64.zero = false ->
        0 < n ->
        CalculatorTool.compound_interest pow principal rate 0 n
        = round_half_up principal)
    /\ CalculatorTool.compound_interest Libm.pow (lit 1000 0) (lit 5 (-2)) 3 1
       = Ok (lit 115763 (-2))
    /\ CalculatorTool.compound_interest Libm.pow (lit 1000 0) (lit 5 (-2)) 0 1
       = Ok (lit 1000 0).
Proof.
  intros pow principal rate years n.
  split; [| split; [| split; [| split; [| split; [| split]]]]].
  - unfold CalculatorTool.compound_interest. intros ->. reflexivity.
  - unfold CalculatorTool.compound_interest. intros -> ->. reflexivity.
  - unfold CalculatorTool.compound_interest. intros -> -> Hy.
    apply Z.ltb_lt in Hy. rewrite Hy. reflexivity.
  - unfold CalculatorTool.compound_interest. intros -> -> Hy Hn.
    replace (years <? 0) with false by (symmetry; apply Z.ltb_ge; lia).
    apply Z.leb_le in Hn. rewrite Hn. reflexivity.
  - intros Hp Hr Hn. apply compound_interest_year_0; assumption.
  - vm_compute. reflexivity.
  - vm_compute. reflexivity.
Qed.

(** The theorem on the test's [compound_interest(-1000, 0.05, 3)]. *)
Lemma compound_interest_spec_witness :
  CalculatorTool.compound_interest Libm.pow (lit (-1000) 0) (lit 5 (-2)) 3 1
  = Raise (ValueError "Principal must be positive").
Proof.
  apply (proj1 (compound_interest_spec Libm.pow (lit (-1000) 0) (lit 5 (-2)) 3 1)).
  vm_compute. reflexivity.
Defined.

(** ** What the ledger keeps true of a portfolio *)

Lemma last_item_is_Ok :
  forall (A : Type) (l : list A), l <> [] -> is_Ok (ExporterTool.last_item l) = true.
Proof.
  intros A l. induction l as [| a l IH]; intros H; [congruence |].
  simpl. destruct l as [| b l]; [reflexivity |].
  apply IH. discriminate.
Qed.

Lemma has_lots_set :
  forall (asset_name : string) (h : Holding.t) (portfolio : Portfolio),
    Holding.purchase_prices h <> [] ->
    every_holding_has_lots portfolio ->
    every_holding_has_lots (Dict.set asset_name h portfolio).
Proof.
  intros asset_name h portfolio Hh Hall other h' Hget.
  destruct (String.eqb other asset_name) eqn:E.
  - apply String.eqb_eq in E. subst other.
    rewrite get_set_same in Hget. injection Hget as <-. exact Hh.
  - apply String.eqb_neq in E. rewrite get_set_other in Hget by exact E.
    exact (Hall _ _ Hget).
Qed.

Lemma has_lots_del :
  forall (asset_name : string) (portfolio : Portfolio),
    every_holding_has_lots portfolio ->
    every_holding_has_lots (Dict.del asset_name portfolio).
Proof.
  intros asset_name portfolio Hall other h Hget.
  destruct (String.eqb other asset_name) eqn:E.
  - apply String.eqb_eq in E. subst other.
    rewrite get_del_same in Hget. discriminate.
  - apply String.eqb_neq in E. rewrite get_del_other in Hget by exact E.
    exact (Hall _ _ Hget).
Qed.

(** Starting from the empty portfolio, the ledger's operations keep the
    asset names unique and every holding with at least one lot; so the
    exporters find a price for every holding of a portfolio the ledger
    built. *)
Theorem ledger_invariants :
  forall (user_id asset_name : string) (x y : Float64.float) (file : File)
         (portfolio' : Portfolio) (file' : File),
    Dict.wf (persisted user_id file) ->
    every_holding_has_lots (persisted user_id file) ->
    PortfolioManager.add_asset user_id asset_name x y file
      = Ok (portfolio', file')
    \/ PortfolioManager.update_current_price user_id asset_name y file
       = Ok (portfolio', file')
    \/ PortfolioManager.remove_asset user_id asset_name file
       = Ok (portfolio', file') ->
    Dict.wf portfolio'
    /\ every_holding_has_lots portfolio'
    /\ persisted user_id file' = portfolio'
    /\ forall (name : string) (h : Holding.t),
        Dict.get name portfolio' = Some h ->
        is_Ok (ExporterTool.asset_price h) = true.
Proof.
  intros user_id asset_name x y file portfolio' file' Hwf Hlots Hop.
  assert (H : Dict.wf portfolio' /\ every_holding_has_lots portfolio'
              /\ persisted user_id file' = portfolio').
  { destruct Hop as [Hadd | [Hupd | Hrem]].
    - apply add_asset_Ok_inv in Hadd.
      destruct Hadd as (q & p & _ & _ & Hpf & Hfile).
      split; [| split].
      + rewrite Hpf. apply wf_set. exact Hwf.
      + rewrite Hpf. apply has_lots_set; [| exact Hlots].
        unfold added_holding.
        destruct (Dict.get asset_name (persisted user_id file)) as [h |]; simpl;
          [| discriminate].
        destruct (Holding.purchase_prices h); discriminate.
      + rewrite Hfile. apply persisted_save.
    - apply update_current_price_Ok_inv in Hupd.
      destruct (Dict.get asset_name (persisted user_id file)) as [h |] eqn:Hget.
      + destruct Hupd as (p & _ & Hpf & Hfile).
        split; [| split].
        * rewrite Hpf. apply wf_set. exact Hwf.
        * rewrite Hpf. apply has_lots_set; [| exact Hlots].
          simpl. exact (Hlots _ _ Hget).
        * rewrite Hfile. apply persisted_save.
      + destruct Hupd as [-> ->]. auto.
    - apply remove_asset_Ok_inv in Hrem.
      destruct (Dict.mem asset_name (persisted user_id file)).
      + destruct Hrem as [Hpf Hfile].
        split; [| split].
        * rewrite Hpf. apply wf_del. exact Hwf.
        * rewrite Hpf. apply has_lots_del. exact Hlots.
        * rewrite Hfile. apply persisted_save.
      + destruct Hrem as [-> ->]. auto. }
  destruct H as (Hwf' & Hlots' & Hpersisted).
  split; [exact Hwf' |]. split; [exact Hlots' |]. split; [exact Hpersisted |].
  intros name h Hget. unfold ExporterTool.asset_price.
  destruct (Holding.current_price h); [reflexivity |].
  pose proof (last_item_is_Ok _ _ (Hlots' _ _ Hget)) as Hlast.
  destruct (ExporterTool.last_item (Holding.purchase_prices h));
    [reflexivity | discriminate].
Qed.

(** The theorem on the first purchase into the empty file. *)
Lemma ledger_invariants_witness :
  exists (portfolio' : Portfolio) (file' : File),
    PortfolioManager.add_asset "u" "BTC" (lit 2 0) (lit 30000 0) Dict.empty
      = Ok (portfolio', file')
    /\ Dict.wf portfolio' /\ every_holding_has_lots portfolio'.
Proof.
  eexists. eexists. split; [vm_compute; reflexivity |].
  refine ((fun H => conj (proj1 H) (proj1 (proj2 H)))
            (ledger_invariants "u" "BTC" (lit 2 0) (lit 30000 0) Dict.empty
               _ _ _ _ (or_introl _))).
  - constructor.
  - intros name h Hget. discriminate.
  - vm_compute. reflexivity.
Defined.

(** The quantity of every holding the ledger builds is the sum of its lots'
    rounded quantities, not of the quantities the lots record: [add_asset]
    and [update_current_price] keep it so, and [remove_asset] keeps it for
    the holdings that stay. *)
Theorem ledger_quantity_is_rounded_sum :
  forall (user_id asset_name : string) (x y : Float64.float) (file : File)
         (portfolio' : Portfolio) (file' : File),
    (forall (name : string) (h : Holding.t),
        Dict.get name (persisted user_id file) = Some h ->
        quantity_is_rounded_sum h) ->
    PortfolioManager.add_asset user_id asset_name x y file
      = Ok (portfolio', file')
    \/ PortfolioManager.update_current_price user_id asset_name y file
       = Ok (portfolio', file')
    \/ PortfolioManager.remove_asset user_id asset_name file
       = Ok (portfolio', file') ->
    forall (name : string) (h : Holding.t),
      Dict.get name portfolio' = Some h -> quantity_is_rounded_sum h.
Proof.
  intros user_id asset_name x y file portfolio' file' Hold Hop name h Hget.
  destruct Hop as [Hadd | [Hupd | Hrem]].
  - apply add_asset_Ok_inv in Hadd.
    destruct Hadd as (q & p & Hq & _ & Hpf & _). rewrite Hpf in Hget.
    destruct (String.eqb name asset_name) eqn:E.
    + apply String.eqb_eq in E. subst name.
      rewrite get_set_same in Hget. injection Hget as <-.
      unfold added_holding.
      destruct (Dict.get asset_name (persisted user_id file)) as [h0 |] eqn:Hh0.
      * destruct (Hold _ _ Hh0) as (r & rs & Hlots & Hsum).
        exists r, (rs ++ [q]). simpl. split.
        -- change (r :: rs ++ [q]) with ((r :: rs) ++ [q]).
           apply Forall2_app; [exact Hlots |].
           constructor; [exact Hq | constructor].
        -- rewrite fold_left_app, <- Hsum. reflexivity.
      * exists q, []. simpl. split; [| reflexivity].
        constructor; [exact Hq | constructor].
    + apply String.eqb_neq in E. rewrite get_set_other in Hget by exact E.
      exact (Hold _ _ Hget).
  - apply update_current_price_Ok_inv in Hupd.
    destruct (Dict.get asset_name (persisted user_id file)) as [h0 |] eqn:Hh0.
    + destruct Hupd as (p & _ & Hpf & _). rewrite Hpf in Hget.
      destruct (String.eqb name asset_name) eqn:E.
      * apply String.eqb_eq in E. subst name.
        rewrite get_set_same in Hget. injection Hget as <-.
        exact (Hold _ _ Hh0).
      * apply String.eqb_neq in E. rewrite get_set_other in Hget by exact E.
        exact (Hold _ _ Hget).
    + destruct Hupd as [-> _]. exact (Hold _ _ Hget).
  - apply remove_asset_Ok_inv in Hrem.
    destruct (Dict.mem asset_name (persisted user_id file)).
    + destruct Hrem as [Hpf _]. rewrite Hpf in Hget.
      destruct (String.eqb name asset_name) eqn:E.
      * apply String.eqb_eq in E. subst name.
        rewrite get_del_same in Hget. discriminate.
      * apply String.eqb_neq in E. rewrite get_del_other in Hget by exact E.
        exact (Hold _ _ Hget).
    + destruct Hrem as [-> _]. exact (Hold _ _ Hget).
Qed.

(** The theorem on the first purchase into the empty file: 1.234 BTC, held
    as 1.23. *)
Lemma ledger_quantity_is_rounded_sum_witness :
  quantity_is_rounded_sum
    (Holding.mk (lit 123 (-2)) [Lot.mk (lit 1234 (-3)) (lit 100 0)] None).
Proof.
  refine (ledger_quantity_is_rounded_sum "u" "BTC" (lit 1234 (-3)) (lit 100 0)
            Dict.empty _ _ _ (or_introl _) "BTC"%string _ _).
  - intros name h Hget. discriminate.
  - vm_compute. reflexivity.
  - vm_compute. reflexivity.
Defined.

(** ** The two rounding modes side by side *)

Lemma rescale_modes_agree :
  forall (c : N) (e : Z),
    (Decimal.pow10 (-2 - e) =? 2 * (c mod Decimal.pow10 (-2 - e)))%N = false ->
    Decimal.rescale Decimal.ROUND_HALF_EVEN c e (-2)
    = Decimal.rescale Decimal.ROUND_HALF_UP c e (-2).
Proof.
  intros c e Hne. unfold Decimal.rescale.
  destruct (-2 <=? e); [reflexivity |].
  cbv zeta. rewrite Hne. rewrite Bool.andb_false_l, Bool.orb_false_r.
  apply N.eqb_neq in Hne.
  destruct (Decimal.pow10 (-2 - e) <? 2 * (c mod Decimal.pow10 (-2 - e)))%N eqn:Hlt;
    destruct (Decimal.pow10 (-2 - e) <=? 2 * (c mod Decimal.pow10 (-2 - e)))%N eqn:Hle;
    try reflexivity.
  - apply N.ltb_lt in Hlt. apply N.leb_gt in Hle. lia.
  - apply N.ltb_ge in Hlt. apply N.leb_le in Hle. lia.
Qed.

(** Half-even and half-up rounding give the same result, the same exception
    included, on every float that is not a tie; so an exported value differs
    from the half-up rounding of [quantity * price] only when that product
    prints as an exact half cent.  At such a tie the dropped digits are
    exactly half a unit, half-up takes the next coefficient, and half-even
    takes it only when the kept coefficient is odd. *)
Theorem rounding_modes_differ_only_at_ties :
  forall x : Float64.float,
    (is_tie x = false ->
     quantize2 Decimal.ROUND_HALF_EVEN x = round_half_up x)
    /\ (forall (details : Holding.t) (price : Float64.float),
          is_tie (Float64.mul (Holding.quantity details) price) = false ->
          ExporterTool.asset_value details price
          = round_half_up (Float64.mul (Holding.quantity details) price))
    /\ (forall (s : bool) (c : N) (e : Z),
          Repr.to_decimal x = Decimal.Finite s c e ->
          is_tie x = true ->
          Decimal.rescale Decimal.ROUND_HALF_UP c e (-2)
          = (c / Decimal.pow10 (-2 - e) + 1)%N
          /\ Decimal.rescale Decimal.ROUND_HALF_EVEN c e (-2)
             = (if N.odd (c / Decimal.pow10 (-2 - e))
                then c / Decimal.pow10 (-2 - e) + 1
                else c / Decimal.pow10 (-2 - e))%N).
Proof.
  assert (Hagree : forall y : Float64.float,
             is_tie y = false ->
             quantize2 Decimal.ROUND_HALF_EVEN y = round_half_up y).
  { intros y Htie. unfold round_half_up, quantize2, is_tie in *.
    destruct (Repr.to_decimal y) as [s c e | s |]; try reflexivity.
    unfold Decimal.quantize.
    destruct (c =? 0)%N; [reflexivity |].
    destruct (Decimal.context_prec <? e + Decimal.ndigits c - 1 - -2 + 1);
      [reflexivity |].
    cbv zeta.
    assert (Hsame : Decimal.rescale Decimal.ROUND_HALF_EVEN c e (-2)
                    = Decimal.rescale Decimal.ROUND_HALF_UP c e (-2)).
    { destruct (-2 <=? e) eqn:He.
      - unfold Decimal.rescale. rewrite He. reflexivity.
      - apply rescale_modes_agree. exact Htie. }
    rewrite Hsame. reflexivity. }
  intros x. split; [apply Hagree |]. split.
  - intros details price Htie. unfold ExporterTool.asset_value.
    apply Hagree. exact Htie.
  - intros s c e Hdec Htie. unfold is_tie in Htie. rewrite Hdec in Htie.
    apply Bool.andb_true_iff in Htie. destruct Htie as [He Heq].
    apply Bool.negb_true_iff in He.
    unfold Decimal.rescale. rewrite He. cbv zeta. rewrite Heq.
    apply N.eqb_eq in Heq.
    assert (Hle : (Decimal.pow10 (-2 - e)
                   <=? 2 * (c mod Decimal.pow10 (-2 - e)))%N = true)
      by (apply N.leb_le; lia).
    assert (Hlt : (Decimal.pow10 (-2 - e)
                   <? 2 * (c mod Decimal.pow10 (-2 - e)))%N = false)
      by (apply N.ltb_ge; lia).
    rewrite Hle, Hlt. split; [reflexivity |].
    destruct (N.odd (c / Decimal.pow10 (-2 - e))); reflexivity.
Qed.

(** The theorem on the product [2 * 32000] of the exporter's test, which is
    no tie. *)
Lemma rounding_modes_differ_only_at_ties_witness :
  quantize2 Decimal.ROUND_HALF_EVEN (Float64.mul (lit 2 0) (lit 32000 0))
  = round_half_up (Float64.mul (lit 2 0) (lit 32000 0)).
Proof.
  apply (proj1 (rounding_modes_differ_only_at_ties
                  (Float64.mul (lit 2 0) (lit 32000 0)))).
  vm_compute. reflexivity.
Defined.

(** ** Breaking even *)

Lemma sub_self_finite :
  forall (s : bool) (m : positive) (e : Z),
    Float64.sub (S754_finite s m e) (S754_finite s m e) = Float64.zero.
Proof.
  intros s m e. unfold Float64.sub, SFsub.
  rewrite Z.min_id, Z.sub_diag. reflexivity.
Qed.

(** An investment whose final value equals the (positive, finite) amount
    invested has a return of exactly [0.0]: the difference is an exact zero
    and stays one through the division, the scaling and the rounding. *)
Theorem calculate_roi_break_even :
  forall x : Float64.float,
    Float64.ltb Float64.zero x = true ->
    Float64.is_inf x = false ->
    CalculatorTool.calculate_roi x x = Ok Float64.zero.
Proof.
  intros [[|] | [|] | | [|] m e] Hpos Hfin; try discriminate.
  unfold CalculatorTool.calculate_roi.
  change (Float64.leb (S754_finite false m e) Float64.zero) with false.
  change (Float64.ltb (S754_finite false m e) Float64.zero) with false.
  rewrite !raise_if_false, sub_self_finite.
  reflexivity.
Qed.

(** The theorem on the test's [calculate_roi(1000, 1000)]. *)
Lemma calculate_roi_break_even_witness :
  CalculatorTool.calculate_roi (lit 1000 0) (lit 1000 0) = Ok Float64.zero.
Proof.
  apply calculate_roi_break_even; vm_compute; reflexivity.
Defined.

(** ** One user's operations and another user's data *)

Lemma load_memory_ext :
  forall (user_id : string) (file file' : File),
    Dict.get user_id file' = Dict.get user_id file ->
    load_memory user_id file' = load_memory user_id file.
Proof.
  intros user_id file file' H. unfold load_memory. rewrite H. reflexivity.
Qed.

(** Whatever a ledger operation does for one user, the record of every other
    user in the file is untouched, so their portfolios read exactly as
    before; and the operation keeps the sibling keys of the user's own
    record. *)
Theorem ledger_user_isolation :
  forall (user_id asset_name : string) (x y : Float64.float) (file : File)
         (portfolio' : Portfolio) (file' : File),
    PortfolioManager.add_asset user_id asset_name x y file
      = Ok (portfolio', file')
    \/ PortfolioManager.update_current_price user_id asset_name y file
       = Ok (portfolio', file')
    \/ PortfolioManager.remove_asset user_id asset_name file
       = Ok (portfolio', file') ->
    (forall other : string,
        other <> user_id ->
        Dict.get other file' = Dict.get other file
        /\ PortfolioManager.get_portfolio other file'
           = PortfolioManager.get_portfolio other file)
    /\ mem_siblings (load_memory user_id file')
       = mem_siblings (load_memory user_id file).
Proof.
  intros user_id asset_name x y file portfolio' file' Hop.
  assert (Hfile : file' = file
                  \/ file' = save_memory user_id
                               (memory_set_portfolio (load_memory user_id file)
                                                     portfolio') file).
  { destruct Hop as [Hadd | [Hupd | Hrem]].
    - apply add_asset_Ok_inv in Hadd.
      destruct Hadd as (q & p & _ & _ & _ & Hfile). auto.
    - apply update_current_price_Ok_inv in Hupd.
      destruct (Dict.get asset_name (persisted user_id file)).
      + destruct Hupd as (p & _ & _ & Hfile). auto.
      + destruct Hupd as [_ Hfile]. auto.
    - apply remove_asset_Ok_inv in Hrem.
      destruct (Dict.mem asset_name (persisted user_id file));
        destruct Hrem as [_ Hfile]; auto. }
  destruct Hfile as [-> | ->].
  - split; [intros other Hne; split; reflexivity | reflexivity].
  - split; [| apply save_memory_siblings].
    intros other Hne.
    assert (Hget : Dict.get other
                     (save_memory user_id
                        (memory_set_portfolio (load_memory user_id file)
                                              portfolio') file)
                   = Dict.get other file)
      by (apply save_memory_other; exact Hne).
    split; [exact Hget |].
    unfold PortfolioManager.get_portfolio.
    rewrite (load_memory_ext _ _ _ Hget). reflexivity.
Qed.

(** The theorem on [example_file]: user "v" buys BTC, the record of user "u"
    stays. *)
Lemma ledger_user_isolation_witness :
  exists (portfolio' : Portfolio) (file' : File),
    PortfolioManager.add_asset "v" "BTC" (lit 1 0) (lit 30000 0) example_file
      = Ok (portfolio', file')
    /\ Dict.get "u" file' = Dict.get "u" example_file.
Proof.
  eexists. eexists. split; [vm_compute; reflexivity |].
  refine (proj1 (proj1
            (ledger_user_isolation "v" "BTC" (lit 1 0) (lit 30000 0)
               example_file _ _ (or_introl _)) "u"%string _)).
  - vm_compute. reflexivity.
  - discriminate.
Defined.

(** ** Buying and then removing *)

Lemma del_append_absent :
  forall (V : Type) (k : string) (v : V) (d : Dict.dict V),
    Dict.get k d = None -> Dict.del k (d ++ [(k, v)]) = d.
Proof.
  intros V k v d. unfold Dict.del.
  induction d as [| [k' v'] d IH]; simpl; intros Hnone.
  - rewrite String.eqb_refl. reflexivity.
  - destruct (String.eqb k k') eqn:E; [discriminate |]. simpl.
    rewrite IH by exact Hnone. reflexivity.
Qed.

(** Removing an asset right after its first purchase gives back the
    portfolio there was before the purchase, order included; and removing an
    asset a second time changes nothing: it returns what the first removal
    returned and leaves the file as the first removal left it. *)
Theorem remove_asset_undoes_first_purchase :
  forall (user_id asset_name : string) (x y : Float64.float) (file : File),
    (forall (portfolio1 : Portfolio) (file1 : File),
        Dict.get asset_name (persisted user_id file) = None ->
        PortfolioManager.add_asset user_id asset_name x y file
          = Ok (portfolio1, file1) ->
        exists file2 : File,
          PortfolioManager.remove_asset user_id asset_name file1
            = Ok (persisted user_id file, file2)
          /\ persisted user_id file2 = persisted user_id file)
    /\ (forall (portfolio1 : Portfolio) (file1 : File),
          PortfolioManager.remove_asset user_id asset_name file
            = Ok (portfolio1, file1) ->
          PortfolioManager.remove_asset user_id asset_name file1
          = Ok (portfolio1, file1)).
Proof.
  intros user_id asset_name x y file. split.
  - intros portfolio1 file1 Hnone Hadd.
    assert (Hu : falsy user_id = false /\ falsy asset_name = false).
    { unfold PortfolioManager.add_asset in Hadd.
      destruct (falsy user_id); [discriminate |].
      destruct (falsy asset_name); [discriminate | auto]. }
    destruct Hu as [Hu Ha].
    apply add_asset_Ok_inv in Hadd.
    destruct Hadd as (q & p & _ & _ & Hpf & Hfile).
    unfold PortfolioManager.remove_asset. rewrite Hu, Ha, !raise_if_false.
    cbv zeta. fold (persisted user_id file1).
    assert (Hp1 : persisted user_id file1 = portfolio1)
      by (rewrite Hfile; apply persisted_save).
    rewrite Hp1.
    assert (Hmem : Dict.mem asset_name portfolio1 = true).
    { apply mem_true_iff. rewrite Hpf. eexists. apply get_set_same. }
    rewrite Hmem.
    assert (Hdel : Dict.del asset_name portfolio1 = persisted user_id file).
    { rewrite Hpf. unfold Dict.set.
      replace (Dict.mem asset_name (persisted user_id file)) with false
        by (symmetry; apply mem_false_iff; exact Hnone).
      apply del_append_absent. exact Hnone. }
    rewrite Hdel. eexists. split; [reflexivity |]. apply persisted_save.
  - intros portfolio1 file1 Hrem.
    assert (Hu : falsy user_id = false /\ falsy asset_name = false).
    { unfold PortfolioManager.remove_asset in Hrem.
      destruct (falsy user_id); [discriminate |].
      destruct (falsy asset_name); [discriminate | auto]. }
    destruct Hu as [Hu Ha].
    apply remove_asset_Ok_inv in Hrem.
    assert (Hp1 : persisted user_id file1 = portfolio1
                  /\ Dict.mem asset_name portfolio1 = false).
    { destruct (Dict.mem asset_name (persisted user_id file)) eqn:Hmem;
        destruct Hrem as [Hpf Hfile].
      - split; [rewrite Hfile; apply persisted_save |].
        rewrite Hpf. apply mem_false_iff. apply get_del_same.
      - subst. auto. }
    destruct Hp1 as [Hp1 Hmem1].
    unfold PortfolioManager.remove_asset. rewrite Hu, Ha, !raise_if_false.
    cbv zeta. fold (persisted user_id file1). rewrite Hp1, Hmem1. reflexivity.
Qed.

(** The theorem on [example_file]: user "u" buys SOL for the first time and
    removes it again. *)
Lemma remove_asset_undoes_first_purchase_witness :
  exists (portfolio1 : Portfolio) (file1 file2 : File),
    PortfolioManager.add_asset "u" "SOL" (lit 10 0) (lit 150 0) example_file
      = Ok (portfolio1, file1)
    /\ PortfolioManager.remove_asset "u" "SOL" file1
       = Ok (persisted "u" example_file, file2).
Proof.
  eexists. eexists.
  assert (Hadd : PortfolioManager.add_asset "u" "SOL" (lit 10 0) (lit 150 0)
                   example_file
                 = Ok (Dict.set "SOL"
                         (Holding.mk (lit 10 0) [Lot.mk (lit 10 0) (lit 150 0)]
                                     None)
                         (persisted "u" example_file),
                       save_memory "u"
                         (memory_set_portfolio (load_memory "u" example_file)
                            (Dict.set "SOL"
                               (Holding.mk (lit 10 0)
                                  [Lot.mk (lit 10 0) (lit 150 0)] None)
                               (persisted "u" example_file)))
                         example_file))
    by (vm_compute; reflexivity).
  destruct (proj1 (remove_asset_undoes_first_purchase
                     "u" "SOL" (lit 10 0) (lit 150 0) example_file)
              _ _ eq_refl Hadd) as (file2 & Hrem & _).
  exists file2. split; [exact Hadd | exact Hrem].
Defined.

(** ** The ledger and the valuation price *)

(** The exporters follow the ledger's price updates and ignore later
    purchase prices once a current price is set: after
    [update_current_price] the asset is valued at the rounded price given,
    and after [add_asset] on a holding with a current price it is still
    valued at that current price, whatever was paid for the new lot.  The
    price given is rounded half-up to two decimals: BTC priced at 32000.005
    is valued at 32000.01. *)
Theorem valuation_follows_current_price :
  forall (user_id asset_name : string) (x y : Float64.float) (file : File)
         (h : Holding.t) (portfolio' : Portfolio) (file' : File),
    Dict.get asset_name (persisted user_id file) = Some h ->
    (PortfolioManager.update_current_price user_id asset_name y file
       = Ok (portfolio', file') ->
     exists (p : Float64.float) (h' : Holding.t),
       round_half_up y = Ok p
       /\ Dict.get asset_name (persisted user_id file') = Some h'
       /\ ExporterTool.asset_price h' = Ok p)
    /\ (forall current : Float64.float,
          Holding.current_price h = Some current ->
          PortfolioManager.add_asset user_id asset_name x y file
            = Ok (portfolio', file') ->
          exists h' : Holding.t,
            Dict.get asset_name (persisted user_id file') = Some h'
            /\ ExporterTool.asset_price h' = Ok current)
    /\ (forall p : Float64.float,
          round_half_up y = Ok p -> rounds_to Decimal.ROUND_HALF_UP y p)
    /\ (priced <- PortfolioManager.update_current_price
                    "u" "BTC" (lit 32000005 (-3)) example_file ;;
        match Dict.get "BTC" (persisted "u" (snd priced)) with
        | Some h' => ExporterTool.asset_price h'
        | None => Raise IndexError
        end)
       = Ok (lit 3200001 (-2)).
Proof.
  intros user_id asset_name x y file h portfolio' file' Hget.
  split; [| split; [| split]].
  - intros Hupd. apply update_current_price_Ok_inv in Hupd.
    rewrite Hget in Hupd. destruct Hupd as (p & Hp & Hpf & Hfile).
    exists p. eexists. split; [exact Hp |].
    rewrite Hfile, persisted_save, Hpf, get_set_same.
    split; reflexivity.
  - intros current Hcurrent Hadd. apply add_asset_Ok_inv in Hadd.
    destruct Hadd as (q & p & _ & _ & Hpf & Hfile).
    eexists. rewrite Hfile, persisted_save, Hpf, get_set_same, Hget.
    split; [reflexivity |].
    unfold ExporterTool.asset_price. simpl. rewrite Hcurrent. reflexivity.
  - intros p Hp. apply quantize2_rounds_to. exact Hp.
  - vm_compute. reflexivity.
Qed.

(** The theorem on [example_file]: more BTC bought at 31000 is still valued
    at the current price of 32000. *)
Lemma valuation_follows_current_price_witness :
  exists (portfolio' : Portfolio) (file' : File) (h' : Holding.t),
    PortfolioManager.add_asset "u" "BTC" (lit 3 0) (lit 31000 0) example_file
      = Ok (portfolio', file')
    /\ Dict.get "BTC" (persisted "u" file') = Some h'
    /\ ExporterTool.asset_price h' = Ok (lit 32000 0).
Proof.
  eexists. eexists.
  assert (Hadd : PortfolioManager.add_asset "u" "BTC" (lit 3 0) (lit 31000 0)
                   example_file
                 = Ok (Dict.set "BTC"
                         (added_holding (Dict.get "BTC" (persisted "u" example_file))
                                        (lit 3 0) (lit 3 0) (lit 31000 0))
                         (persisted "u" example_file),
                       save_memory "u"
                         (memory_set_portfolio (load_memory "u" example_file)
                            (Dict.set "BTC"
                               (added_holding
                                  (Dict.get "BTC" (persisted "u" example_file))
                                  (lit 3 0) (lit 3 0) (lit 31000 0))
                               (persisted "u" example_file)))
                         example_file))
    by (vm_compute; reflexivity).
  destruct (proj1 (proj2 (valuation_follows_current_price
                     "u" "BTC" (lit 3 0) (lit 31000 0) example_file
                     (Holding.mk (lit 2 0) [Lot.mk (lit 2 0) (lit 30000 0)]
                                 (Some (lit 32000 0)))
                     _ _ eq_refl))
              (lit 32000 0) eq_refl Hadd) as (h' & Hh' & Hprice).
  exists h'. split; [exact Hadd |]. split; [exact Hh' | exact Hprice].
Defined.

(** ** The two exports of one portfolio *)

Lemma csv_loop_from_empty :
  forall (items : list (string * Holding.t)) (data : list ExporterTool.Row),
    ExporterTool.csv_loop items data
    = (rows <- ExporterTool.csv_loop items [] ;; Ok (data ++ rows)).
Proof.
  induction items as [| [asset_name details] items IH]; intros data; simpl.
  - rewrite app_nil_r. reflexivity.
  - destruct (ExporterTool.asset_price details) as [price | e]; simpl;
      [| reflexivity].
    destruct (ExporterTool.asset_value details price) as [value | e]; simpl;
      [| reflexivity].
    rewrite (IH (data ++ _)), (IH [_]).
    destruct (ExporterTool.csv_loop items []) as [rows | e]; simpl;
      [| reflexivity].
    rewrite <- app_assoc. reflexivity.
Qed.

Lemma pdf_loop_from_csv_loop :
  forall (items : list (string * Holding.t))
         (table_data : list (list ExporterTool.cell))
         (total_value : Float64.float),
    ExporterTool.pdf_loop items table_data total_value
    = (rows <- ExporterTool.csv_loop items [] ;;
       Ok (table_data ++ map cells_of_row rows,
           fold_left Float64.add (map ExporterTool.Value rows) total_value)).
Proof.
  induction items as [| [asset_name details] items IH];
    intros table_data total_value; simpl.
  - rewrite app_nil_r. reflexivity.
  - destruct (ExporterTool.asset_price details) as [price | e]; simpl;
      [| reflexivity].
    destruct (ExporterTool.asset_value details price) as [value | e]; simpl;
      [| reflexivity].
    rewrite IH, (csv_loop_from_empty items [_]).
    destruct (ExporterTool.csv_loop items []) as [rows | e]; simpl;
      [| reflexivity].
    rewrite <- app_assoc. reflexivity.
Qed.

(** The PDF export shows exactly what the CSV export writes, once its title
    is built: when the markup parser takes the title, the PDF export raises
    when and what the CSV export raises, returns [None] when that does, and
    otherwise its table is the header, one line per CSV row with the same
    asset, quantity, price and value, and a total line whose amount is the
    float sum of the CSV values taken in row order from [0].  When the
    parser refuses the title (the user id is part of it), the PDF export of
    a portfolio that is not empty raises what the parser raises, whatever
    the CSV export does. *)
Theorem export_pdf_matches_csv :
  forall (Paragraph : string -> result unit)
         (user_id : string) (portfolio : Portfolio),
    (Paragraph ("Portfolio Report for " ++ user_id)%string = Ok tt ->
     ExporterTool.export_portfolio_pdf Paragraph user_id portfolio
     = (exported <- ExporterTool.export_portfolio_csv user_id portfolio ;;
        match exported with
        | None => Ok None
        | Some (_, rows) =>
            Ok (Some
                  (ExporterTool.os_path_join ExporterTool.EXPORT_PATH
                     (user_id ++ "_portfolio.pdf"),
                   [ExporterTool.Text "Asset"; ExporterTool.Text "Quantity";
                    ExporterTool.Text "Price ($)"; ExporterTool.Text "Value ($)"]
                     :: map cells_of_row rows
                     ++ [[ExporterTool.Text "Total"; ExporterTool.Text "";
                          ExporterTool.Text "";
                          ExporterTool.Fixed2
                            (fold_left Float64.add
                                       (map ExporterTool.Value rows)
                                       Float64.zero)]]))
        end))
    /\ (forall e : exn,
           Paragraph ("Portfolio Report for " ++ user_id)%string = Raise e ->
           user_id <> ""%string ->
           portfolio <> [] ->
           ExporterTool.export_portfolio_pdf Paragraph user_id portfolio
           = Raise e).
Proof.
  intros Paragraph user_id portfolio. split.
  - intros Htitle.
    unfold ExporterTool.export_portfolio_pdf, ExporterTool.export_portfolio_csv.
    destruct (falsy user_id); [reflexivity |]. rewrite !raise_if_false.
    destruct portfolio as [| item portfolio]; [reflexivity |].
    cbv zeta. rewrite Htitle. cbn [bind].
    rewrite pdf_loop_from_csv_loop.
    destruct (ExporterTool.csv_loop (item :: portfolio) []) as [rows | e];
      reflexivity.
  - intros e Htitle Hu Hportfolio. apply falsy_false_iff in Hu.
    unfold ExporterTool.export_portfolio_pdf.
    rewrite Hu, raise_if_false.
    destruct portfolio as [| item portfolio]; [congruence |].
    cbv zeta. rewrite Htitle. reflexivity.
Qed.

(** The theorem on the portfolio of user "u" of [example_file]: exported
    for the user id ["a<b"], the CSV export succeeds and the PDF export
    raises on its title. *)
Lemma export_pdf_matches_csv_witness :
  is_Ok (ExporterTool.export_portfolio_csv "a<b" (persisted "u" example_file))
  = true
  /\ ExporterTool.export_portfolio_pdf text_without_tags "a<b"
                                       (persisted "u" example_file)
     = Raise (ValueError "paraparser: syntax error: unclosed tag").
Proof.
  split; [vm_compute; reflexivity |].
  apply (proj2 (export_pdf_matches_csv text_without_tags "a<b"
                  (persisted "u" example_file))).
  - vm_compute. reflexivity.
  - discriminate.
  - discriminate.
Defined.

(** ** The memory file as it may be found *)

Lemma disk_load_stored :
  forall (user_id : string) (all_data : File),
    Disk.load_memory user_id (Disk.Stored all_data)
    = Ok (load_memory user_id all_data).
Proof. reflexivity. Qed.

(** [PortfolioManager] is the ledger over the store that is a well-formed
    file and whose reads and writes succeed. *)
Lemma ledger_over_file :
  forall (user_id asset_name : string) (x y : Float64.float) (file : File),
    Ledger.add_asset File (fun u f => Ok (load_memory u f))
                     (fun u m f => Ok (save_memory u m f))
                     user_id asset_name x y file
    = PortfolioManager.add_asset user_id asset_name x y file
    /\ Ledger.remove_asset File (fun u f => Ok (load_memory u f))
                           (fun u m f => Ok (save_memory u m f))
                           user_id asset_name file
       = PortfolioManager.remove_asset user_id asset_name file
    /\ Ledger.get_portfolio File (fun u f => Ok (load_memory u f)) user_id file
       = PortfolioManager.get_portfolio user_id file
    /\ Ledger.update_current_price File (fun u f => Ok (load_memory u f))
                                   (fun u m f => Ok (save_memory u m f))
                                   user_id asset_name y file
       = PortfolioManager.update_current_price user_id asset_name y file.
Proof.
  intros. split; [| split; [| split]]; reflexivity.
Qed.

(** On a disk that holds a well-formed file the ledger does what
    [PortfolioManager] does on the file. *)
Lemma disk_ledger_stored :
  forall (user_id asset_name : string) (x y : Float64.float) (file : File),
    DiskLedger.add_asset user_id asset_name x y (Disk.Stored file)
    = on_disk (PortfolioManager.add_asset user_id asset_name x y file)
    /\ DiskLedger.remove_asset user_id asset_name (Disk.Stored file)
       = on_disk (PortfolioManager.remove_asset user_id asset_name file)
    /\ DiskLedger.get_portfolio user_id (Disk.Stored file)
       = PortfolioManager.get_portfolio user_id file
    /\ DiskLedger.update_current_price user_id asset_name y (Disk.Stored file)
       = on_disk (PortfolioManager.update_current_price user_id asset_name y file).
Proof.
  intros. split; [| split; [| split]].
  - unfold DiskLedger.add_asset, Ledger.add_asset, PortfolioManager.add_asset,
      on_disk, raise_if.
    destruct (falsy user_id); [reflexivity |].
    destruct (falsy asset_name); [reflexivity |].
    destruct (Float64.leb x Float64.zero); [reflexivity |].
    destruct (Float64.ltb y Float64.zero); [reflexivity |].
    rewrite disk_load_stored. cbn [bind]. cbv zeta.
    destruct (Dict.get asset_name (memory_portfolio (load_memory user_id file)));
      destruct (round_half_up x); try reflexivity;
      destruct (round_half_up y); reflexivity.
  - unfold DiskLedger.remove_asset, Ledger.remove_asset,
      PortfolioManager.remove_asset, on_disk, raise_if.
    destruct (falsy user_id); [reflexivity |].
    destruct (falsy asset_name); [reflexivity |].
    rewrite disk_load_stored. cbn [bind]. cbv zeta.
    destruct (Dict.mem asset_name (memory_portfolio (load_memory user_id file)));
      reflexivity.
  - reflexivity.
  - unfold DiskLedger.update_current_price, Ledger.update_current_price,
      PortfolioManager.update_current_price, on_disk, raise_if.
    destruct (falsy user_id); [reflexivity |].
    destruct (falsy asset_name); [reflexivity |].
    destruct (Float64.ltb y Float64.zero); [reflexivity |].
    rewrite disk_load_stored. cbn [bind]. cbv zeta.
    destruct (Dict.get asset_name (memory_portfolio (load_memory user_id file)));
      [| reflexivity].
    destruct (round_half_up y); reflexivity.
Qed.


(** ** The ledger on a file that cannot be read *)

Lemma disk_add_asset_unreadable :
  forall (why user_id asset_name : string) (x y q p : Float64.float),
    falsy user_id = false ->
    falsy asset_name = false ->
    Float64.leb x Float64.zero = false ->
    Float64.ltb y Float64.zero = false ->
    round_half_up x = Ok q ->
    round_half_up y = Ok p ->
    DiskLedger.add_asset user_id asset_name x y (Disk.Unreadable why)
    = Raise (ValueError ("Failed to save memory: " ++ why)).
Proof.
  intros why user_id asset_name x y q p Hu Ha Hx Hy Hq Hp.
  unfold DiskLedger.add_asset, Ledger.add_asset.
  rewrite Hu, Ha, Hx, Hy, !raise_if_false. simpl.
  rewrite Hq, Hp. reflexivity.
Qed.

(** A memory file that cannot be opened or parsed looks like an empty
    portfolio and is never overwritten: [get_portfolio], [remove_asset] and
    [update_current_price] return the empty portfolio and leave the file, and
    [add_asset] with valid arguments never succeeds; once its two roundings
    pass it raises the [ValueError] of [save_memory], which is no validation
    error.  A file whose bytes are no text is never overwritten either: with
    valid arguments every operation raises the [UnicodeDecodeError] that
    [load_memory] lets through. *)
Theorem unreadable_file_is_never_overwritten :
  forall (why user_id asset_name : string) (x y : Float64.float),
    falsy user_id = false ->
    falsy asset_name = false ->
    (DiskLedger.get_portfolio user_id (Disk.Unreadable why) = Ok []
     /\ DiskLedger.remove_asset user_id asset_name (Disk.Unreadable why)
        = Ok ([], Disk.Unreadable why)
     /\ (Float64.ltb y Float64.zero = false ->
         DiskLedger.update_current_price user_id asset_name y
                                         (Disk.Unreadable why)
         = Ok ([], Disk.Unreadable why))
     /\ (forall q p : Float64.float,
            Float64.leb x Float64.zero = false ->
            Float64.ltb y Float64.zero = false ->
            round_half_up x = Ok q ->
            round_half_up y = Ok p ->
            DiskLedger.add_asset user_id asset_name x y (Disk.Unreadable why)
            = Raise (ValueError ("Failed to save memory: " ++ why)))
     /\ is_Ok (DiskLedger.add_asset user_id asset_name x y (Disk.Unreadable why))
        = false)
    /\ (DiskLedger.get_portfolio user_id (Disk.Undecodable why)
        = Raise (UnicodeDecodeError why)
        /\ DiskLedger.remove_asset user_id asset_name (Disk.Undecodable why)
           = Raise (UnicodeDecodeError why)
        /\ (Float64.ltb y Float64.zero = false ->
            DiskLedger.update_current_price user_id asset_name y
                                            (Disk.Undecodable why)
            = Raise (UnicodeDecodeError why))
        /\ (Float64.leb x Float64.zero = false ->
            Float64.ltb y Float64.zero = false ->
            DiskLedger.add_asset user_id asset_name x y (Disk.Undecodable why)
            = Raise (UnicodeDecodeError why))).
Proof.
  intros why user_id asset_name x y Hu Ha. split.
  - split; [| split; [| split; [| split]]].
    + unfold DiskLedger.get_portfolio, Ledger.get_portfolio.
      rewrite Hu, raise_if_false. reflexivity.
    + unfold DiskLedger.remove_asset, Ledger.remove_asset.
      rewrite Hu, Ha, !raise_if_false. reflexivity.
    + intros Hy.
      unfold DiskLedger.update_current_price, Ledger.update_current_price.
      rewrite Hu, Ha, Hy, !raise_if_false. reflexivity.
    + intros q p Hx Hy Hq Hp.
      apply (disk_add_asset_unreadable why user_id asset_name x y q p);
        assumption.
    + unfold DiskLedger.add_asset, Ledger.add_asset, raise_if.
      rewrite Hu, Ha.
      destruct (Float64.leb x Float64.zero); [reflexivity |].
      destruct (Float64.ltb y Float64.zero); [reflexivity |].
      simpl.
      destruct (round_half_up x); [| reflexivity].
      destruct (round_half_up y); reflexivity.
  - split; [| split; [| split]].
    + unfold DiskLedger.get_portfolio, Ledger.get_portfolio.
      rewrite Hu, raise_if_false. reflexivity.
    + unfold DiskLedger.remove_asset, Ledger.remove_asset.
      rewrite Hu, Ha, !raise_if_false. reflexivity.
    + intros Hy.
      unfold DiskLedger.update_current_price, Ledger.update_current_price.
      rewrite Hu, Ha, Hy, !raise_if_false. reflexivity.
    + intros Hx Hy.
      unfold DiskLedger.add_asset, Ledger.add_asset.
      rewrite Hu, Ha, Hx, Hy, !raise_if_false. reflexivity.
Qed.

(** The theorem on a file that holds no JSON: buying 2 BTC at 30000 raises
    the error of [save_memory]. *)
Lemma unreadable_file_is_never_overwritten_witness :
  DiskLedger.add_asset "user1" "BTC" (lit 2 0) (lit 30000 0)
                       (Disk.Unreadable "Expecting value: line 1 column 1 (char 0)")
  = Raise (ValueError
             "Failed to save memory: Expecting value: line 1 column 1 (char 0)").
Proof.
  refine (proj1 (proj2 (proj2 (proj2 (proj1
            (unreadable_file_is_never_overwritten
               "Expecting value: line 1 column 1 (char 0)" "user1" "BTC"
               (lit 2 0) (lit 30000 0) _ _)))))
            (lit 2 0) (lit 30000 0) _ _ _ _);
    vm_compute; reflexivity.
Defined.
(** ** Not-a-number passes the validation *)

Lemma add_nan_r :
  forall x : Float64.float, Float64.add x S754_nan = S754_nan.
Proof. intros [s | s | | s m e]; reflexivity. Qed.

(** [add_asset] accepts a quantity that is not a number, since
    [nan <= 0] is false: the holding's quantity becomes NaN and stays NaN
    through every later purchase of the asset.  [update_current_price]
    accepts a NaN price likewise and stores it as the current price. *)
Theorem nan_passes_validation :
  forall (user_id asset_name : string) (y p : Float64.float) (file : File),
    falsy user_id = false ->
    falsy asset_name = false ->
    Float64.ltb y Float64.zero = false ->
    round_half_up y = Ok p ->
    (exists (portfolio' : Portfolio) (file' : File) (h : Holding.t),
        PortfolioManager.add_asset user_id asset_name S754_nan y file
        = Ok (portfolio', file')
        /\ Dict.get asset_name (persisted user_id file') = Some h
        /\ Holding.quantity h = S754_nan
        /\ (forall (x' y' : Float64.float) (portfolio'' : Portfolio)
                   (file'' : File),
               PortfolioManager.add_asset user_id asset_name x' y' file'
               = Ok (portfolio'', file'') ->
               exists h' : Holding.t,
                 Dict.get asset_name (persisted user_id file'') = Some h'
                 /\ Holding.quantity h' = S754_nan))
    /\ (forall h : Holding.t,
           Dict.get asset_name (persisted user_id file) = Some h ->
           exists (portfolio' : Portfolio) (file' : File),
             PortfolioManager.update_current_price user_id asset_name
                                                   S754_nan file
             = Ok (portfolio', file')
             /\ Dict.get asset_name (persisted user_id file')
                = Some (Holding.mk (Holding.quantity h)
                                   (Holding.purchase_prices h)
                                   (Some S754_nan))).
Proof.
  intros user_id asset_name y p file Hu Ha Hy Hp. split.
  - eexists. eexists. eexists.
    rewrite add_asset_valid by (try assumption; reflexivity).
    change (round_half_up S754_nan) with (Ok S754_nan).
    rewrite Hp. cbn [bind]. split; [reflexivity |].
    rewrite persisted_save, get_set_same.
    split; [reflexivity |]. split.
    + destruct (Dict.get asset_name (persisted user_id file)) as [h |];
        simpl; [apply add_nan_r | reflexivity].
    + intros x' y' portfolio'' file'' Hadd.
      apply add_asset_Ok_inv in Hadd.
      destruct Hadd as (q' & p' & _ & _ & Hpf & Hfile).
      eexists. rewrite Hfile, persisted_save, Hpf, get_set_same.
      split; [reflexivity |].
      rewrite persisted_save, get_set_same. simpl.
      destruct (Dict.get asset_name (persisted user_id file)) as [h |]; simpl.
      * rewrite add_nan_r. reflexivity.
      * reflexivity.
  - intros h Hget.
    unfold PortfolioManager.update_current_price.
    rewrite Hu, Ha.
    change (Float64.ltb S754_nan Float64.zero) with false.
    rewrite !raise_if_false. cbv zeta. fold (persisted user_id file).
    rewrite Hget.
    change (round_half_up S754_nan) with (Ok S754_nan). cbn [bind].
    eexists. eexists. split; [reflexivity |].
    rewrite persisted_save, get_set_same. reflexivity.
Qed.

(** The theorem on [example_file] and the words ["nan"] and ["5"] of a
    query: user "u" buys not-a-number ETH at 5. *)
Lemma nan_passes_validation_witness :
  Str.to_float "nan" = Some S754_nan
  /\ Str.to_float "5" = Some (lit 5 0)
  /\ exists (portfolio' : Portfolio) (file' : File) (h : Holding.t),
       PortfolioManager.add_asset "u" "ETH" S754_nan (lit 5 0) example_file
       = Ok (portfolio', file')
       /\ Dict.get "ETH" (persisted "u" file') = Some h
       /\ Holding.quantity h = S754_nan.
Proof.
  split; [vm_compute; reflexivity |]. split; [vm_compute; reflexivity |].
  destruct (proj1 (nan_passes_validation "u" "ETH" (lit 5 0) (lit 5 0)
                     example_file eq_refl eq_refl eq_refl eq_refl))
    as (portfolio' & file' & h & Hadd & Hget & Hq & _).
  exists portfolio', file', h. split; [exact Hadd |]. split; assumption.
Defined.

(** ** C3: a quantity that is not a number *)

(** C3.  [add_asset] does not raise the validation error for every quantity
    that is not strictly positive.  NaN is not strictly positive ([0 < nan]
    is false), but the test the code makes, [quantity <= 0], is false for it
    as well: [add_asset("u", "BTC", nan, 100)] returns, and persists a
    holding whose quantity and whose lot quantity are NaN.  The orchestrator
    hands such a quantity to the ledger, [float("nan")] being a float: the
    query ["add asset BTC nan 100"] is answered as a purchase and written to
    the memory file. *)
Theorem add_asset_accepts_nan_quantity :
  Float64.ltb Float64.zero S754_nan = false
  /\ Float64.leb S754_nan Float64.zero = false
  /\ is_ValueError
       (PortfolioManager.add_asset "u" "BTC" S754_nan (lit 100 0) Dict.empty)
     = false
  /\ (exists file' : File,
         PortfolioManager.add_asset "u" "BTC" S754_nan (lit 100 0) Dict.empty
         = Ok ([("BTC"%string,
                 Holding.mk S754_nan [Lot.mk S754_nan (lit 100 0)] None)],
               file')
         /\ persisted "u" file'
            = [("BTC"%string,
                Holding.mk S754_nan [Lot.mk S754_nan (lit 100 0)] None)])
  /\ Str.to_float "nan" = Some S754_nan
  /\ Agent.process_query Libm.pow text_without_tags None None
                         (fun _ => "?"%string)
                         "u" "add asset BTC nan 100" Disk.Absent
     = (Agent.reply "Added nan BTC at $100.0 each.",
        Disk.Stored
          [("u"%string,
            mkMemory
              (Some [("BTC"%string,
                      Holding.mk S754_nan [Lot.mk S754_nan (lit 100 0)] None)])
              [])]).
Proof.
  split; [reflexivity |]. split; [reflexivity |].
  split; [vm_compute; reflexivity |].
  split; [eexists; split; vm_compute; reflexivity |].
  split; vm_compute; reflexivity.
Qed.
(** ** The orchestrator: how a query is routed *)

Lemma split_from_nonempty :
  forall (s word w : string),
    In w (Str.split_from s word) -> falsy w = false.
Proof.
  induction s as [| c rest IH]; intros word w Hin; simpl in Hin.
  - destruct (falsy word) eqn:Hword; simpl in Hin; [contradiction |].
    destruct Hin as [<- | []]. exact Hword.
  - destruct (Str.is_space c).
    + destruct (falsy word) eqn:Hword.
      * apply (IH _ _ Hin).
      * destruct Hin as [<- | Hin]; [exact Hword | apply (IH _ _ Hin)].
    + apply (IH _ _ Hin).
Qed.

(** The words of a query are never empty, so the orchestrator never passes
    an empty asset name to the ledger. *)
Lemma split_nonempty :
  forall (query w : string), In w (Str.split query) -> falsy w = false.
Proof. intros query w. apply split_from_nonempty. Qed.

Lemma process_query_dispatch :
  forall (pow : Float64.float -> Z -> result Float64.float)
         (Paragraph : string -> result unit)
         (charts : Agent.portfolio_hook) (sim_charts : Agent.simulation_hook)
         (describe : exn -> string) (user_id query : string) (disk : Disk.disk),
    falsy user_id = false ->
    Agent.process_query pow Paragraph charts sim_charts describe
                        user_id query disk
    = match Agent.dispatch pow Paragraph charts sim_charts user_id query disk with
      | (Ok response, disk') => (response, disk')
      | (Raise e, disk') =>
          (Agent.reply ("An error occurred: " ++ Agent.str describe e), disk')
      end.
Proof.
  intros. unfold Agent.process_query. rewrite H. reflexivity.
Qed.

Lemma dispatch_command :
  forall (pow : Float64.float -> Z -> result Float64.float)
         (Paragraph : string -> result unit)
         (charts : Agent.portfolio_hook) (sim_charts : Agent.simulation_hook)
         (user_id query : string),
    Agent.dispatch pow Paragraph charts sim_charts user_id query
    = match command_of query with
      | AddAsset => Agent.add_asset_query charts user_id query
      | RemoveAsset => Agent.remove_asset_query charts user_id query
      | ShowPortfolio => Agent.show_portfolio_query charts user_id
      | UpdateCurrentPrice => Agent.update_current_price_query charts user_id query
      | Roi => Agent.roi_query charts user_id
      | SimulateInvestment =>
          Agent.simulate_investment_query pow sim_charts user_id query
      | ExportPortfolio => Agent.export_portfolio_query Paragraph user_id
      | Unknown => Agent.ret (Agent.reply "Sorry, I didn't understand your request.")
      end.
Proof.
  intros. unfold Agent.dispatch, command_of. cbv zeta.
  repeat match goal with
         | |- context [if ?b then _ else _] => destruct b; [reflexivity |]
         end.
  reflexivity.
Qed.

(** [get_portfolio] for a user id that is not empty: the portfolio of the
    record [load_memory] returns, or what [load_memory] raises. *)
Lemma disk_get_portfolio_load :
  forall (user_id : string) (disk : Disk.disk),
    falsy user_id = false ->
    DiskLedger.get_portfolio user_id disk
    = (memory <- Disk.load_memory user_id disk ;; Ok (memory_portfolio memory)).
Proof.
  intros user_id disk Hu.
  unfold DiskLedger.get_portfolio, Ledger.get_portfolio.
  rewrite Hu, raise_if_false. reflexivity.
Qed.

(** When [get_portfolio] returns, it returns [stored_portfolio]. *)
Lemma disk_get_portfolio_stored :
  forall (user_id : string) (disk : Disk.disk) (portfolio : Portfolio),
    DiskLedger.get_portfolio user_id disk = Ok portfolio ->
    falsy user_id = false
    /\ portfolio = stored_portfolio user_id disk
    /\ exists memory : Memory,
         Disk.load_memory user_id disk = Ok memory
         /\ memory_portfolio memory = portfolio.
Proof.
  intros user_id disk portfolio H.
  unfold DiskLedger.get_portfolio, Ledger.get_portfolio, raise_if in H.
  destruct (falsy user_id); [discriminate |].
  split; [reflexivity |].
  unfold stored_portfolio.
  destruct (Disk.load_memory user_id disk) as [memory | e]; [| discriminate].
  cbn [bind] in H. injection H as <-.
  split; [reflexivity |]. exists memory. split; reflexivity.
Qed.

(** ** The orchestrator: the return on investment is never computed *)

(** An ASCII query routed to the ROI branch leaves the file alone and gets
    one of three answers, none of them a return on investment: when
    [get_portfolio] raises (a memory file that is no text, or no JSON
    object), the catch-all text with the error; on an empty portfolio the
    hint to add assets; and otherwise the catch-all text with the
    [AttributeError] for [calculate_portfolio_roi], a method the ledger
    class does not have.  The calculator is never reached. *)
Theorem roi_query_is_never_computed :
  forall (pow : Float64.float -> Z -> result Float64.float)
         (Paragraph : string -> result unit)
         (charts : Agent.portfolio_hook) (sim_charts : Agent.simulation_hook)
         (describe : exn -> string) (user_id query : string) (disk : Disk.disk),
    falsy user_id = false ->
    Str.is_ascii query = true ->
    command_of query = Roi ->
    Agent.process_query pow Paragraph charts sim_charts describe
                        user_id query disk
    = (Agent.reply
         match DiskLedger.get_portfolio user_id disk with
         | Raise e => ("An error occurred: " ++ Agent.str describe e)%string
         | Ok [] => "Your portfolio is empty. Add assets first."
         | Ok (_ :: _) =>
             "An error occurred: 'PortfolioManager' object has no attribute 'calculate_portfolio_roi'"
         end,
       disk)
    /\ (forall why : string,
           DiskLedger.get_portfolio user_id (Disk.Unreadable why) = Ok []
           /\ DiskLedger.get_portfolio user_id (Disk.Undecodable why)
              = Raise (UnicodeDecodeError why)
           /\ Agent.str describe (UnicodeDecodeError why) = why)
    /\ DiskLedger.get_portfolio user_id Disk.Absent = Ok [].
Proof.
  intros pow Paragraph charts sim_charts describe user_id query disk
         Hu Hascii Hcmd.
  split; [| split].
  - rewrite process_query_dispatch by exact Hu.
    rewrite dispatch_command, Hcmd.
    unfold Agent.roi_query, Agent.and_then, Agent.reading, Agent.call.
    destruct (DiskLedger.get_portfolio user_id disk)
      as [[| item portfolio] | e]; reflexivity.
  - intros why. rewrite !disk_get_portfolio_load by exact Hu.
    split; [reflexivity |]. split; reflexivity.
  - rewrite disk_get_portfolio_load by exact Hu. reflexivity.
Qed.

(** The theorem on the query ["How heroic is my ROI?"] of user "u" of
    [example_file], with no chart functions. *)
Lemma roi_query_is_never_computed_witness :
  Agent.process_query Libm.pow text_without_tags None None
                      (fun _ => "?"%string) "u"
                      "How heroic is my ROI?" (Disk.Stored example_file)
  = (Agent.reply
       "An error occurred: 'PortfolioManager' object has no attribute 'calculate_portfolio_roi'",
     Disk.Stored example_file).
Proof.
  refine (proj1 (roi_query_is_never_computed Libm.pow text_without_tags
                   None None (fun _ => "?"%string) "u"
                   "How heroic is my ROI?" (Disk.Stored example_file) _ _ _));
    vm_compute; reflexivity.
Defined.
(** ** C1: the portfolio ROI operation *)

(** C1.  The portfolio ROI operation is not in the code: the ROI branch of
    [process_query] calls [portfolio_manager.calculate_portfolio_roi], a
    method the [PortfolioManager] class does not define.  So for a user who
    holds assets the initial investment and the final value are never
    summed and the calculator's [calculate_roi] is never reached: user
    "user1" buys 2 BTC at 30000 with no memory file yet, the purchase is
    stored, and the ROI query that follows is answered with the text of the
    [AttributeError], the file staying as the purchase left it; the same
    answer is given to user "u" of [example_file], whose BTC has a current
    price, whatever the power function, the markup parser and the chart
    functions are. *)
Theorem portfolio_roi_raises_AttributeError :
  (exists disk1 : Disk.disk,
      Agent.process_query Libm.pow text_without_tags None None
                          (fun _ => "?"%string)
                          "user1" "add asset BTC 2 30000" Disk.Absent
      = (Agent.reply "Added 2.0 BTC at $30000.0 each.", disk1)
      /\ DiskLedger.get_portfolio "user1" disk1
         = Ok [("BTC"%string,
                Holding.mk (lit 2 0) [Lot.mk (lit 2 0) (lit 30000 0)] None)]
      /\ Agent.process_query Libm.pow text_without_tags None None
                             (fun _ => "?"%string)
                             "user1" "roi" disk1
         = (Agent.reply
              "An error occurred: 'PortfolioManager' object has no attribute 'calculate_portfolio_roi'",
            disk1))
  /\ (forall (pow : Float64.float -> Z -> result Float64.float)
             (Paragraph : string -> result unit)
             (charts : Agent.portfolio_hook)
             (sim_charts : Agent.simulation_hook)
             (describe : exn -> string),
         Agent.process_query pow Paragraph charts sim_charts describe
                             "u" "What is my ROI?" (Disk.Stored example_file)
         = (Agent.reply
              "An error occurred: 'PortfolioManager' object has no attribute 'calculate_portfolio_roi'",
            Disk.Stored example_file)).
Proof.
  split.
  - eexists. split; [vm_compute; reflexivity |].
    split; vm_compute; reflexivity.
  - intros pow Paragraph charts sim_charts describe.
    rewrite process_query_dispatch by reflexivity.
    rewrite dispatch_command.
    replace (command_of "What is my ROI?") with Roi
      by (vm_compute; reflexivity).
    unfold Agent.roi_query, Agent.and_then, Agent.reading, Agent.call.
    replace (DiskLedger.get_portfolio "u" (Disk.Stored example_file))
      with (Ok (persisted "u" example_file)) by (vm_compute; reflexivity).
    reflexivity.
Qed.
(** ** The orchestrator: which queries can change the file *)

Section Unchanged.

Variable A : Type.
Variable B : Type.

Lemma ret_unchanged :
  forall (a : A) (disk : Disk.disk), snd (Agent.ret a disk) = disk.
Proof. reflexivity. Qed.

Lemma throw_unchanged :
  forall (e : exn) (disk : Disk.disk),
    snd (@Agent.throw A e disk) = disk.
Proof. reflexivity. Qed.

Lemma call_unchanged :
  forall (c : result A) (disk : Disk.disk), snd (Agent.call c disk) = disk.
Proof. intros [a | e] disk; reflexivity. Qed.

Lemma reading_unchanged :
  forall (op : Disk.disk -> result A) (disk : Disk.disk),
    snd (Agent.reading op disk) = disk.
Proof. intros op disk. unfold Agent.reading. apply call_unchanged. Qed.

Lemma and_then_unchanged :
  forall (c : Agent.run A) (k : A -> Agent.run B),
    (forall disk, snd (c disk) = disk) ->
    (forall a disk, snd (k a disk) = disk) ->
    forall disk, snd (Agent.and_then c k disk) = disk.
Proof.
  intros c k Hc Hk disk. unfold Agent.and_then.
  specialize (Hc disk). destruct (c disk) as [[a | r] disk']; simpl in Hc; subst.
  - apply Hk.
  - reflexivity.
Qed.

Lemma except_ValueError_unchanged :
  forall (body : Agent.run A) (handler : string -> A),
    (forall disk, snd (body disk) = disk) ->
    forall disk, snd (Agent.except_ValueError body handler disk) = disk.
Proof.
  intros body handler Hbody disk. unfold Agent.except_ValueError.
  specialize (Hbody disk).
  destruct (body disk) as [[a | e] disk']; [exact Hbody |].
  destruct (Agent.as_ValueError e); exact Hbody.
Qed.

End Unchanged.

Lemma float_unchanged :
  forall (word : string) (disk : Disk.disk), snd (Agent.float word disk) = disk.
Proof. intros word disk. unfold Agent.float. destruct (Str.to_float word); reflexivity. Qed.

Lemma int_unchanged :
  forall (word : string) (disk : Disk.disk), snd (Agent.int word disk) = disk.
Proof. intros word disk. unfold Agent.int. destruct (Str.to_int word); reflexivity. Qed.

Ltac unchanged :=
  repeat first
    [ apply ret_unchanged | apply throw_unchanged | apply call_unchanged
    | apply reading_unchanged | apply float_unchanged | apply int_unchanged
    | apply except_ValueError_unchanged; intros
    | apply and_then_unchanged; intros ].

(** A ledger operation that raises leaves the file as it was. *)
Lemma writing_raise_unchanged :
  forall (A : Type) (op : Disk.disk -> result (A * Disk.disk))
         (disk : Disk.disk) (e : exn),
    op disk = Raise e -> Agent.writing op disk = (Raise e, disk).
Proof. intros A op disk e H. unfold Agent.writing. rewrite H. reflexivity. Qed.

(** Only the three ledger commands, given with the number of words their
    branch asks for, can change the memory file: every other ASCII query
    (showing, ROI, simulating, exporting, a command with too few or too many
    words, a text that is not understood) leaves the file exactly as it was,
    whatever state the file is in and whether the query is answered or ends
    in the catch-all text; and an empty user id is refused before anything
    is read. *)
Theorem only_ledger_commands_write :
  forall (pow : Float64.float -> Z -> result Float64.float)
         (Paragraph : string -> result unit)
         (charts : Agent.portfolio_hook) (sim_charts : Agent.simulation_hook)
         (describe : exn -> string) (user_id query : string) (disk : Disk.disk),
    (Str.is_ascii query = true ->
     writing_command query = false ->
     snd (Agent.process_query pow Paragraph charts sim_charts describe
                              user_id query disk)
     = disk)
    /\ (falsy user_id = true ->
        Agent.process_query pow Paragraph charts sim_charts describe
                            user_id query disk
        = (Agent.reply "Invalid user ID.", disk)).
Proof.
  intros pow Paragraph charts sim_charts describe user_id query disk. split.
  - intros Hascii Hw. unfold Agent.process_query.
    destruct (falsy user_id); [reflexivity |].
    assert (H : snd (Agent.dispatch pow Paragraph charts sim_charts
                                    user_id query disk)
                = disk).
    { rewrite dispatch_command. unfold writing_command in Hw. cbv zeta in Hw.
      destruct (command_of query).
      - unfold Agent.add_asset_query.
        destruct (Str.split query) as [| w1 [| w2 [| w3 [| w4 [| w5 [| w6 l]]]]]];
          try reflexivity.
        discriminate.
      - unfold Agent.remove_asset_query.
        destruct (Str.split query) as [| w1 [| w2 [| w3 [| w4 l]]]];
          try reflexivity.
        discriminate.
      - unfold Agent.show_portfolio_query.
        apply and_then_unchanged; intros; [apply reading_unchanged |].
        destruct a; unchanged.
      - unfold Agent.update_current_price_query.
        destruct (Str.split query) as [| w1 [| w2 [| w3 [| w4 [| w5 [| w6 l]]]]]];
          try reflexivity.
        discriminate.
      - unfold Agent.roi_query.
        apply and_then_unchanged; intros; [apply reading_unchanged |].
        destruct a; unchanged.
      - unfold Agent.simulate_investment_query.
        destruct (Str.split query) as [| w1 [| w2 [| w3 [| w4 [| w5 [| w6 l]]]]]];
          try reflexivity.
        unchanged.
      - unfold Agent.export_portfolio_query.
        apply and_then_unchanged; intros; [apply reading_unchanged |].
        destruct a; unchanged.
      - reflexivity. }
    destruct (Agent.dispatch pow Paragraph charts sim_charts user_id query disk)
      as [[response | e] disk']; exact H.
  - intros Hu. unfold Agent.process_query. rewrite Hu. reflexivity.
Qed.

(** The theorem on the query ["show portfolio"] of user "u" of
    [example_file]. *)
Lemma only_ledger_commands_write_witness :
  snd (Agent.process_query Libm.pow text_without_tags None None
                           (fun _ => "?"%string) "u"
                           "show portfolio" (Disk.Stored example_file))
  = Disk.Stored example_file.
Proof.
  refine (proj1 (only_ledger_commands_write Libm.pow text_without_tags None None
                   (fun _ => "?"%string) "u" "show portfolio"
                   (Disk.Stored example_file)) _ _);
    vm_compute; reflexivity.
Defined.
(** ** The orchestrator: adding an asset *)



(** ** The orchestrator: removing and repricing an asset that is not held *)

Lemma disk_remove_asset_absent :
  forall (user_id asset_name : string) (disk : Disk.disk) (portfolio : Portfolio),
    falsy asset_name = false ->
    DiskLedger.get_portfolio user_id disk = Ok portfolio ->
    Dict.get asset_name portfolio = None ->
    DiskLedger.remove_asset user_id asset_name disk = Ok (portfolio, disk).
Proof.
  intros user_id asset_name disk portfolio Ha Hget Hnone.
  apply disk_get_portfolio_stored in Hget.
  destruct Hget as (Hu & _ & memory & Hload & <-).
  unfold DiskLedger.remove_asset, Ledger.remove_asset.
  rewrite Hu, Ha, !raise_if_false, Hload. cbn [bind]. cbv zeta.
  unfold Dict.mem. rewrite Hnone. reflexivity.
Qed.

Lemma disk_update_current_price_absent :
  forall (user_id asset_name : string) (y : Float64.float) (disk : Disk.disk)
         (portfolio : Portfolio),
    falsy asset_name = false ->
    Float64.ltb y Float64.zero = false ->
    DiskLedger.get_portfolio user_id disk = Ok portfolio ->
    Dict.get asset_name portfolio = None ->
    DiskLedger.update_current_price user_id asset_name y disk
    = Ok (portfolio, disk).
Proof.
  intros user_id asset_name y disk portfolio Ha Hy Hget Hnone.
  apply disk_get_portfolio_stored in Hget.
  destruct Hget as (Hu & _ & memory & Hload & <-).
  unfold DiskLedger.update_current_price, Ledger.update_current_price.
  rewrite Hu, Ha, Hy, !raise_if_false, Hload. cbn [bind]. cbv zeta.
  rewrite Hnone. reflexivity.
Qed.

(** Removing, or setting the current price of, an asset the user does not
    hold is answered as if it had been done: when [get_portfolio] returns a
    portfolio without the asset, the answer to the ASCII command is its
    success text, and the memory file is left as it was.  On a memory file
    that is no text the same commands end in an error text instead: the
    catch-all text for the removal, and the invalid-price text for the new
    price, the [UnicodeDecodeError] being a [ValueError]. *)
Theorem unknown_asset_is_reported_as_done :
  forall (pow : Float64.float -> Z -> result Float64.float)
         (Paragraph : string -> result unit)
         (charts : Agent.portfolio_hook) (sim_charts : Agent.simulation_hook)
         (describe : exn -> string) (user_id query : string) (disk : Disk.disk)
         (portfolio : Portfolio) (asset_name : string) (chart : option string),
    Str.is_ascii query = true ->
    DiskLedger.get_portfolio user_id disk = Ok portfolio ->
    Dict.get asset_name portfolio = None ->
    Agent.portfolio_chart charts user_id portfolio = Ok chart ->
    (forall w1 w2 : string,
        command_of query = RemoveAsset ->
        Str.split query = [w1; w2; asset_name] ->
        Agent.process_query pow Paragraph charts sim_charts describe
                            user_id query disk
        = (Agent.mkAgentResponse
             ("Removed " ++ asset_name ++ " from your portfolio.")
             chart None None,
           disk))
    /\ (forall (w1 w2 w3 price : string) (y : Float64.float),
           command_of query = UpdateCurrentPrice ->
           Str.split query = [w1; w2; w3; asset_name; price] ->
           Str.to_float price = Some y ->
           Float64.ltb y Float64.zero = false ->
           Agent.process_query pow Paragraph charts sim_charts describe
                               user_id query disk
           = (Agent.mkAgentResponse
                ("Updated " ++ asset_name ++ " current price to $"
                   ++ Str.of_float y ++ ".")
                chart None None,
              disk))
    /\ (forall why w1 w2 name : string,
           command_of query = RemoveAsset ->
           Str.split query = [w1; w2; name] ->
           Agent.process_query pow Paragraph charts sim_charts describe
                               user_id query (Disk.Undecodable why)
           = (Agent.reply ("An error occurred: " ++ why),
              Disk.Undecodable why))
    /\ (forall (why w1 w2 w3 name price : string) (y : Float64.float),
           command_of query = UpdateCurrentPrice ->
           Str.split query = [w1; w2; w3; name; price] ->
           Str.to_float price = Some y ->
           Float64.ltb y Float64.zero = false ->
           Agent.process_query pow Paragraph charts sim_charts describe
                               user_id query (Disk.Undecodable why)
           = (Agent.reply
                "Invalid price. Use: update current price [name] [price]",
              Disk.Undecodable why)).
Proof.
  intros pow Paragraph charts sim_charts describe user_id query disk
         portfolio asset_name chart Hascii Hget Hnone Hchart.
  assert (Hu : falsy user_id = false)
    by (apply (disk_get_portfolio_stored _ _ _ Hget)).
  split; [| split; [| split]]; cycle 2.
  - intros why w1 w2 name Hcmd Hsplit.
    assert (Hname : falsy name = false).
    { apply (split_nonempty query). rewrite Hsplit. simpl. auto. }
    rewrite process_query_dispatch by exact Hu.
    rewrite dispatch_command, Hcmd.
    unfold Agent.remove_asset_query. rewrite Hsplit.
    unfold Agent.and_then, Agent.writing, DiskLedger.remove_asset,
      Ledger.remove_asset.
    rewrite Hu, Hname, !raise_if_false. reflexivity.
  - intros why w1 w2 w3 name price y Hcmd Hsplit Hprice Hy.
    assert (Hname : falsy name = false).
    { apply (split_nonempty query). rewrite Hsplit. simpl. auto. }
    rewrite process_query_dispatch by exact Hu.
    rewrite dispatch_command, Hcmd.
    unfold Agent.update_current_price_query. rewrite Hsplit.
    unfold Agent.except_ValueError, Agent.and_then, Agent.float, Agent.writing,
      Agent.ret, DiskLedger.update_current_price, Ledger.update_current_price.
    rewrite Hprice. cbv beta iota.
    rewrite Hu, Hname, Hy, !raise_if_false. reflexivity.
  - intros w1 w2 Hcmd Hsplit.
    assert (Hname : falsy asset_name = false).
    { apply (split_nonempty query). rewrite Hsplit. simpl. auto. }
    rewrite process_query_dispatch by exact Hu.
    rewrite dispatch_command, Hcmd.
    unfold Agent.remove_asset_query. rewrite Hsplit.
    unfold Agent.and_then, Agent.writing, Agent.call, Agent.ret.
    rewrite (disk_remove_asset_absent _ _ _ _ Hname Hget Hnone).
    rewrite Hchart. reflexivity.
  - intros w1 w2 w3 price y Hcmd Hsplit Hprice Hy.
    assert (Hname : falsy asset_name = false).
    { apply (split_nonempty query). rewrite Hsplit. simpl. auto. }
    rewrite process_query_dispatch by exact Hu.
    rewrite dispatch_command, Hcmd.
    unfold Agent.update_current_price_query. rewrite Hsplit.
    unfold Agent.except_ValueError, Agent.and_then, Agent.float, Agent.writing,
      Agent.call, Agent.ret.
    rewrite Hprice.
    rewrite (disk_update_current_price_absent _ _ _ _ _ Hname Hy Hget Hnone).
    rewrite Hchart. reflexivity.
Qed.

(** The theorem on ["remove asset DOGE"] sent by user "u" of [example_file],
    who holds BTC and ETH only. *)
Lemma unknown_asset_is_reported_as_done_witness :
  Agent.process_query Libm.pow text_without_tags None None
                      (fun _ => "?"%string) "u"
                      "remove asset DOGE" (Disk.Stored example_file)
  = (Agent.reply "Removed DOGE from your portfolio.", Disk.Stored example_file).
Proof.
  refine (proj1 (unknown_asset_is_reported_as_done Libm.pow text_without_tags
                   None None
                   (fun _ => "?"%string) "u" "remove asset DOGE"
                   (Disk.Stored example_file) (persisted "u" example_file)
                   "DOGE" None _ _ _ _)
            "remove"%string "asset"%string _ _);
    vm_compute; reflexivity.
Defined.

(** ** The orchestrator: exporting *)

Lemma quantize2_raises :
  forall (r : Decimal.rounding) (x : Float64.float) (e : exn),
    quantize2 r x = Raise e -> e = InvalidOperation.
Proof.
  intros r x e H. unfold quantize2 in H.
  destruct (Repr.to_decimal x) as [s c t | s | ]; cbn in H.
  - destruct (c =? 0)%N; [discriminate |].
    destruct (Decimal.context_prec <? t + Decimal.ndigits c - 1 - -2 + 1);
      [cbn in H; congruence |].
    destruct (Decimal.context_prec <? Decimal.ndigits (Decimal.rescale r c t (-2)));
      cbn in H; congruence.
  - congruence.
  - discriminate.
Qed.

Lemma last_item_raises :
  forall (A : Type) (l : list A) (e : exn),
    ExporterTool.last_item l = Raise e -> e = IndexError.
Proof.
  induction l as [| x [| y l] IH]; intros e H.
  - simpl in H. congruence.
  - discriminate.
  - apply IH. exact H.
Qed.

(** The loop of the exporters raises an [IndexError] (a holding without a
    lot and without a current price) or the [InvalidOperation] of the
    rounding, and nothing else. *)
Lemma csv_loop_raises :
  forall (items : list (string * Holding.t)) (data : list ExporterTool.Row)
         (e : exn),
    ExporterTool.csv_loop items data = Raise e ->
    e = IndexError \/ e = InvalidOperation.
Proof.
  induction items as [| [asset_name details] items IH]; intros data e H;
    simpl in H.
  - discriminate.
  - destruct (ExporterTool.asset_price details) as [price | e1] eqn:Hprice.
    + cbn [bind] in H.
      destruct (ExporterTool.asset_value details price) as [value | e2] eqn:Hvalue.
      * cbn [bind] in H. apply (IH _ _ H).
      * cbn [bind] in H. injection H as <-. right.
        apply (quantize2_raises _ _ _ Hvalue).
    + cbn [bind] in H. injection H as <-. left.
      unfold ExporterTool.asset_price in Hprice.
      destruct (Holding.current_price details); [discriminate |].
      destruct (ExporterTool.last_item (Holding.purchase_prices details))
        as [lot | e2] eqn:Hlast; [discriminate |].
      cbn [bind] in Hprice. injection Hprice as <-.
      apply (last_item_raises _ _ _ Hlast).
Qed.

Lemma prefix_empty : forall s : string, String.prefix "" s = true.
Proof. intros [| c s]; reflexivity. Qed.

Lemma export_file_name :
  forall (user_id suffix : string),
    falsy user_id = false ->
    ExporterTool.os_path_join ExporterTool.EXPORT_PATH (user_id ++ suffix)
    = (if String.prefix "/" user_id then user_id ++ suffix
       else "app/data/exports/" ++ user_id ++ suffix)%string.
Proof.
  intros [| c user_id] suffix Hu; [discriminate |].
  unfold ExporterTool.os_path_join.
  change (ExporterTool.EXPORT_PATH) with "app/data/exports"%string.
  cbn [String.append String.prefix].
  match goal with
  | |- context [Ascii.ascii_dec ?a c] => destruct (Ascii.ascii_dec a c)
  end; rewrite ?prefix_empty; reflexivity.
Qed.

(** An ASCII query routed to the export branch leaves the memory file alone.
    When [get_portfolio] raises, the answer is the catch-all text; on an
    empty portfolio nothing is exported.  Otherwise the CSV export runs
    first: when it raises, its exception is no [ValueError] and the answer
    is the catch-all text; when it succeeds, the PDF export succeeds exactly
    when the markup parser takes the title with the user id in it, and the
    answer then gives the two paths, never ["N/A"]; a title the parser
    refuses with a [ValueError] gives the export-failure text, after the CSV
    file was written.  The paths lie under [app/data/exports] unless the
    user id starts with a slash: then they are the user id itself with the
    suffix, outside the export directory.  As in the exporter's model, the
    two files are taken to be written without error. *)
Theorem export_query_answers :
  forall (pow : Float64.float -> Z -> result Float64.float)
         (Paragraph : string -> result unit)
         (charts : Agent.portfolio_hook) (sim_charts : Agent.simulation_hook)
         (describe : exn -> string) (user_id query : string) (disk : Disk.disk),
    falsy user_id = false ->
    Str.is_ascii query = true ->
    command_of query = ExportPortfolio ->
    Agent.process_query pow Paragraph charts sim_charts describe
                        user_id query disk
    = (match DiskLedger.get_portfolio user_id disk with
       | Raise e => Agent.reply ("An error occurred: " ++ Agent.str describe e)
       | Ok [] => Agent.reply "Your portfolio is empty. Nothing to export."
       | Ok (item :: rest) =>
           match ExporterTool.export_portfolio_csv user_id (item :: rest) with
           | Raise e =>
               Agent.reply ("An error occurred: " ++ Agent.str describe e)
           | Ok _ =>
               let csv_file :=
                 ExporterTool.os_path_join ExporterTool.EXPORT_PATH
                                           (user_id ++ "_portfolio.csv") in
               let pdf_file :=
                 ExporterTool.os_path_join ExporterTool.EXPORT_PATH
                                           (user_id ++ "_portfolio.pdf") in
               match Paragraph ("Portfolio Report for " ++ user_id)%string with
               | Ok _ =>
                   Agent.mkAgentResponse
                     ("Portfolio exported successfully. CSV: " ++ csv_file
                        ++ ", PDF: " ++ pdf_file)
                     None (Some csv_file) (Some pdf_file)
               | Raise e =>
                   match Agent.as_ValueError e with
                   | Some msg =>
                       Agent.reply ("Failed to export portfolio: " ++ msg)
                   | None =>
                       Agent.reply
                         ("An error occurred: " ++ Agent.str describe e)
                   end
               end
           end
       end,
       disk)
    /\ (forall (portfolio : Portfolio) (e : exn),
           ExporterTool.export_portfolio_csv user_id portfolio = Raise e ->
           (e = IndexError \/ e = InvalidOperation)
           /\ Agent.as_ValueError e = None)
    /\ (forall suffix : string,
           ExporterTool.os_path_join ExporterTool.EXPORT_PATH
                                     (user_id ++ suffix)
           = (if String.prefix "/" user_id then user_id ++ suffix
              else "app/data/exports/" ++ user_id ++ suffix)%string).
Proof.
  intros pow Paragraph charts sim_charts describe user_id query disk
         Hu Hascii Hcmd.
  assert (Hcsv : forall (portfolio : Portfolio) (e : exn),
             ExporterTool.export_portfolio_csv user_id portfolio = Raise e ->
             (e = IndexError \/ e = InvalidOperation)
             /\ Agent.as_ValueError e = None).
  { intros portfolio e H.
    unfold ExporterTool.export_portfolio_csv in H.
    rewrite Hu, raise_if_false in H.
    destruct portfolio as [| item rest]; [discriminate |].
    destruct (ExporterTool.csv_loop (item :: rest) []) as [rows | e'] eqn:Hloop;
      [discriminate |].
    cbn [bind] in H. injection H as <-.
    pose proof (csv_loop_raises _ _ _ Hloop) as He.
    split; [exact He |]. destruct He as [-> | ->]; reflexivity. }
  split; [| split; [exact Hcsv |]].
  - rewrite process_query_dispatch by exact Hu.
    rewrite dispatch_command, Hcmd.
    unfold Agent.export_portfolio_query, Agent.and_then, Agent.reading.
    unfold Agent.call at 1.
    destruct (DiskLedger.get_portfolio user_id disk)
      as [[| item portfolio] | e]; [reflexivity | | reflexivity].
    unfold Agent.except_ValueError, Agent.and_then, Agent.call, Agent.ret.
    destruct (ExporterTool.export_portfolio_csv user_id (item :: portfolio))
      as [csv | e] eqn:Hexp.
    + unfold ExporterTool.export_portfolio_csv in Hexp.
      rewrite Hu, raise_if_false in Hexp.
      unfold ExporterTool.export_portfolio_pdf.
      rewrite Hu, raise_if_false. cbv zeta.
      destruct (Paragraph ("Portfolio Report for " ++ user_id)%string)
        as [[] | e].
      * cbn [bind]. rewrite pdf_loop_from_csv_loop.
        destruct (ExporterTool.csv_loop (item :: portfolio) []) as [rows | e];
          [| discriminate].
        cbn [bind] in Hexp. injection Hexp as <-.
        cbn [bind option_map fst]. unfold Agent.or_NA.
        rewrite !export_file_name by exact Hu.
        destruct user_id as [| c user_id]; [discriminate |].
        destruct (String.prefix "/" (String c user_id)); reflexivity.
      * cbn [bind]. destruct (Agent.as_ValueError e); reflexivity.
    + destruct (Hcsv _ _ Hexp) as [_ ->]. reflexivity.
  - intros suffix. apply export_file_name. exact Hu.
Qed.

(** The theorem on ["export portfolio"] sent by user "u" of
    [example_file]. *)
Lemma export_query_answers_witness :
  Agent.process_query Libm.pow text_without_tags None None
                      (fun _ => "?"%string) "u"
                      "export portfolio" (Disk.Stored example_file)
  = (Agent.mkAgentResponse
       "Portfolio exported successfully. CSV: app/data/exports/u_portfolio.csv, PDF: app/data/exports/u_portfolio.pdf"
       None
       (Some "app/data/exports/u_portfolio.csv"%string)
       (Some "app/data/exports/u_portfolio.pdf"%string),
     Disk.Stored example_file).
Proof.
  refine (proj1 (export_query_answers Libm.pow text_without_tags None None
                   (fun _ => "?"%string) "u"
                   "export portfolio" (Disk.Stored example_file) _ _ _));
    vm_compute; reflexivity.
Defined.
(** ** The orchestrator: simulating an investment *)

(** A well-formed ASCII [simulate investment] command runs the calculator's
    simulation with yearly compounding ([n = 1]) and prints one line per
    year, the year and its value with two decimals; when a word is no number
    (the years must be an integer literal) or the calculator refuses an
    argument, the answer is one and the same text.  The file is neither read
    nor written. *)
Theorem simulate_investment_query_answers :
  forall (pow : Float64.float -> Z -> result Float64.float)
         (Paragraph : string -> result unit)
         (charts : Agent.portfolio_hook) (sim_charts : Agent.simulation_hook)
         (describe : exn -> string) (user_id query : string) (disk : Disk.disk)
         (w1 w2 principal rate years : string),
    falsy user_id = false ->
    Str.is_ascii query = true ->
    command_of query = SimulateInvestment ->
    Str.split query = [w1; w2; principal; rate; years] ->
    (Str.to_float principal = None \/ Str.to_float rate = None
     \/ Str.to_int years = None ->
     Agent.process_query pow Paragraph charts sim_charts describe
                         user_id query disk
     = (Agent.reply
          "Invalid principal, rate, or years. Use: simulate investment [principal] [rate] [years]",
        disk))
    /\ (forall (p r : Float64.float) (y : Z),
           Str.to_float principal = Some p ->
           Str.to_float rate = Some r ->
           Str.to_int years = Some y ->
           (forall msg : string,
               CalculatorTool.investment_simulation pow p r y 1
               = Raise (ValueError msg) ->
               Agent.process_query pow Paragraph charts sim_charts describe
                                   user_id query disk
               = (Agent.reply
                    "Invalid principal, rate, or years. Use: simulate investment [principal] [rate] [years]",
                  disk))
           /\ (forall (sim_result : list (Z * Float64.float))
                      (chart : option string),
                  CalculatorTool.investment_simulation pow p r y 1
                  = Ok sim_result ->
                  Agent.simulation_chart sim_charts user_id sim_result
                  = Ok chart ->
                  Agent.process_query pow Paragraph charts sim_charts describe
                                      user_id query disk
                  = (Agent.mkAgentResponse
                       ("Investment Simulation:" ++ Str.newline
                          ++ Str.join Str.newline
                               (map Agent.simulation_line sim_result))
                       chart None None,
                     disk))).
Proof.
  intros pow Paragraph charts sim_charts describe user_id query disk
         w1 w2 principal rate years Hu Hascii Hcmd Hsplit.
  rewrite process_query_dispatch by exact Hu.
  rewrite dispatch_command, Hcmd.
  unfold Agent.simulate_investment_query. rewrite Hsplit.
  unfold Agent.except_ValueError, Agent.and_then, Agent.float, Agent.int,
    Agent.call, Agent.ret, Agent.throw.
  split.
  - intros Hnone.
    destruct (Str.to_float principal) as [p |]; [| reflexivity].
    destruct (Str.to_float rate) as [r |]; [| reflexivity].
    destruct (Str.to_int years) as [y |]; [| reflexivity].
    destruct Hnone as [H | [H | H]]; discriminate H.
  - intros p r y -> -> ->. split.
    + intros msg ->. reflexivity.
    + intros sim_result chart -> ->. reflexivity.
Qed.

(** The theorem on ["simulate investment 1000 0.05 3"], run with the
    correctly rounded power and no chart function. *)
Lemma simulate_investment_query_answers_witness :
  Agent.text
    (fst (Agent.process_query Libm.pow text_without_tags None None
            (fun _ => "?"%string) "u"
            "simulate investment 1000 0.05 3" Disk.Absent))
  = ("Investment Simulation:" ++ Str.newline
       ++ "Year 0: $1000.00" ++ Str.newline
       ++ "Year 1: $1050.00" ++ Str.newline
       ++ "Year 2: $1102.50" ++ Str.newline
       ++ "Year 3: $1157.63")%string.
Proof.
  rewrite (proj2 (proj2 (simulate_investment_query_answers
                           Libm.pow text_without_tags None None
                           (fun _ => "?"%string) "u"
                           "simulate investment 1000 0.05 3" Disk.Absent
                           "simulate" "investment" "1000" "0.05" "3"
                           eq_refl eq_refl eq_refl eq_refl)
                   (lit 1000 0) (lit 5 (-2)) 3 eq_refl eq_refl eq_refl)
            [(0, lit 1000 0); (1, lit 1050 0); (2, lit 11025 (-1));
             (3, lit 115763 (-2))]
            None eq_refl eq_refl).
  vm_compute. reflexivity.
Defined.
(** ** The orchestrator: what [show portfolio] prints *)

Lemma disk_load_after_save :
  forall (user_id : string) (data : Memory) (d d' : Disk.disk),
    Disk.save_memory user_id data d = Ok d' ->
    Disk.load_memory user_id d' = Ok data.
Proof.
  intros user_id data [| why | why | kind | all_data] d' H; simpl in H;
    try discriminate; injection H as <-; simpl.
  - rewrite String.eqb_refl. reflexivity.
  - rewrite get_set_same. reflexivity.
Qed.

Lemma stored_after_save :
  forall (user_id : string) (memory : Memory) (portfolio : Portfolio)
         (d d' : Disk.disk),
    Disk.save_memory user_id (memory_set_portfolio memory portfolio) d = Ok d' ->
    stored_portfolio user_id d' = portfolio.
Proof.
  intros user_id memory portfolio d d' H.
  unfold stored_portfolio. rewrite (disk_load_after_save _ _ _ _ H).
  reflexivity.
Qed.

Lemma mapM_replace_same :
  forall (A : Type) (f : string * Holding.t -> result A)
         (k : string) (old new : Holding.t) (d : Portfolio),
    Dict.get k d = Some old ->
    f (k, new) = f (k, old) ->
    mapM f (Dict.replace k new d) = mapM f d.
Proof.
  intros A f k old new d. induction d as [| [k' v'] d IH]; intros Hget Hf.
  - discriminate.
  - simpl in *. destruct (String.eqb k k') eqn:E.
    + apply String.eqb_eq in E. subst k'. injection Hget as ->.
      simpl. rewrite Hf. reflexivity.
    + simpl. rewrite IH by assumption. reflexivity.
Qed.

(** What a successful [update_current_price] leaves on the disk. *)
Lemma disk_update_current_price_Ok_inv :
  forall (user_id asset_name : string) (y : Float64.float)
         (disk disk' : Disk.disk) (portfolio' : Portfolio),
    DiskLedger.update_current_price user_id asset_name y disk
    = Ok (portfolio', disk') ->
    falsy user_id = false
    /\ DiskLedger.get_portfolio user_id disk
       = Ok (stored_portfolio user_id disk)
    /\ DiskLedger.get_portfolio user_id disk'
       = Ok (stored_portfolio user_id disk')
    /\ (stored_portfolio user_id disk' = stored_portfolio user_id disk
        \/ exists (h : Holding.t) (p : Float64.float),
             Dict.get asset_name (stored_portfolio user_id disk) = Some h
             /\ stored_portfolio user_id disk'
                = Dict.set asset_name
                    (Holding.mk (Holding.quantity h)
                                (Holding.purchase_prices h) (Some p))
                    (stored_portfolio user_id disk)).
Proof.
  intros user_id asset_name y disk disk' portfolio' Hupd.
  unfold DiskLedger.update_current_price, Ledger.update_current_price in Hupd.
  destruct (falsy user_id) eqn:Hu; [discriminate |].
  destruct (falsy asset_name); [discriminate |].
  destruct (Float64.ltb y Float64.zero); [discriminate |].
  rewrite !raise_if_false in Hupd.
  split; [reflexivity |].
  rewrite !disk_get_portfolio_load by exact Hu.
  unfold stored_portfolio.
  destruct (Disk.load_memory user_id disk) as [memory | e] eqn:Hload;
    [| discriminate].
  cbn [bind] in Hupd. cbv zeta in Hupd.
  split; [reflexivity |].
  destruct (Dict.get asset_name (memory_portfolio memory)) as [h |].
  - destruct (round_half_up y) as [p | e]; [| discriminate].
    cbn [bind] in Hupd.
    match type of Hupd with
    | (store' <- ?save ;; _) = _ => destruct save as [d1 | e] eqn:Hsave
    end; [| discriminate].
    cbn [bind] in Hupd. injection Hupd as _ <-.
    rewrite (disk_load_after_save _ _ _ _ Hsave). cbn [bind].
    split; [reflexivity |].
    right. exists h, p. split; reflexivity.
  - injection Hupd as _ <-. rewrite Hload. cbn [bind].
    split; [reflexivity |]. left. reflexivity.
Qed.

(** [show portfolio] prints each asset with its quantity and the price of
    its latest lot; the current price is not shown.  So a successful
    [update_current_price] changes nothing in what [show portfolio] prints,
    while it changes the price the exporters value the asset at. *)
Theorem show_portfolio_ignores_current_price :
  forall (user_id asset_name : string) (y : Float64.float)
         (disk disk' : Disk.disk) (portfolio' : Portfolio),
    DiskLedger.update_current_price user_id asset_name y disk
    = Ok (portfolio', disk') ->
    mapM Agent.portfolio_line (stored_portfolio user_id disk')
    = mapM Agent.portfolio_line (stored_portfolio user_id disk)
    /\ (forall (pow : Float64.float -> Z -> result Float64.float)
               (Paragraph : string -> result unit)
               (sim_charts : Agent.simulation_hook) (describe : exn -> string)
               (query : string),
           command_of query = ShowPortfolio ->
           fst (Agent.process_query pow Paragraph None sim_charts describe
                                    user_id query disk')
           = fst (Agent.process_query pow Paragraph None sim_charts describe
                                      user_id query disk)).
Proof.
  intros user_id asset_name y disk disk' portfolio' Hupd.
  apply disk_update_current_price_Ok_inv in Hupd.
  destruct Hupd as (Hu & Hget & Hget' & Hstored).
  assert (Hlines : mapM Agent.portfolio_line (stored_portfolio user_id disk')
                   = mapM Agent.portfolio_line (stored_portfolio user_id disk)).
  { destruct Hstored as [-> | (h & p & Hh & ->)]; [reflexivity |].
    unfold Dict.set, Dict.mem. rewrite Hh.
    apply (mapM_replace_same _ _ _ h); [exact Hh | reflexivity]. }
  split; [exact Hlines |].
  intros pow Paragraph sim_charts describe query Hcmd.
  rewrite !process_query_dispatch by exact Hu.
  rewrite dispatch_command, Hcmd.
  unfold Agent.show_portfolio_query, Agent.and_then, Agent.reading.
  rewrite Hget, Hget'.
  unfold Agent.call at 1 3.
  assert (Hempty : stored_portfolio user_id disk' = []
                   <-> stored_portfolio user_id disk = []).
  { destruct Hstored as [-> | (h & p & Hh & ->)]; [tauto |].
    unfold Dict.set, Dict.mem. rewrite Hh.
    destruct (stored_portfolio user_id disk) as [| [k v] rest];
      [discriminate |].
    simpl. destruct (String.eqb asset_name k); split; discriminate. }
  destruct (stored_portfolio user_id disk') as [| item' rest'];
    destruct (stored_portfolio user_id disk) as [| item rest].
  - reflexivity.
  - destruct Hempty as [H _]. discriminate (H eq_refl).
  - destruct Hempty as [_ H]. discriminate (H eq_refl).
  - unfold Agent.call, Agent.ret, Agent.portfolio_chart. rewrite Hlines.
    destruct (mapM Agent.portfolio_line (item :: rest)); reflexivity.
Qed.

(** The theorem on user "u" of [example_file], whose BTC is repriced to
    35000. *)
Lemma show_portfolio_ignores_current_price_witness :
  exists (portfolio' : Portfolio) (disk' : Disk.disk),
    DiskLedger.update_current_price "u" "BTC" (lit 35000 0)
                                    (Disk.Stored example_file)
    = Ok (portfolio', disk')
    /\ mapM Agent.portfolio_line (stored_portfolio "u" disk')
       = mapM Agent.portfolio_line
              (stored_portfolio "u" (Disk.Stored example_file)).
Proof.
  eexists. eexists.
  assert (Hupd : DiskLedger.update_current_price "u" "BTC" (lit 35000 0)
                   (Disk.Stored example_file)
                 = Ok (Dict.set "BTC"
                         (Holding.mk (lit 2 0) [Lot.mk (lit 2 0) (lit 30000 0)]
                                     (Some (lit 35000 0)))
                         (persisted "u" example_file),
                       Disk.Stored
                         (save_memory "u"
                            (memory_set_portfolio (load_memory "u" example_file)
                               (Dict.set "BTC"
                                  (Holding.mk (lit 2 0)
                                     [Lot.mk (lit 2 0) (lit 30000 0)]
                                     (Some (lit 35000 0)))
                                  (persisted "u" example_file)))
                            example_file)))
    by (vm_compute; reflexivity).
  split; [exact Hupd |].
  exact (proj1 (show_portfolio_ignores_current_price
                  "u" "BTC" (lit 35000 0) (Disk.Stored example_file) _ _ Hupd)).
Defined.

(** ** The orchestrator: an asset that was added is shown *)

Lemma disk_add_asset_Ok_inv :
  forall (user_id asset_name : string) (x y : Float64.float)
         (disk disk' : Disk.disk) (portfolio' : Portfolio),
    DiskLedger.add_asset user_id asset_name x y disk = Ok (portfolio', disk') ->
    exists q p : Float64.float,
      round_half_up x = Ok q
      /\ round_half_up y = Ok p
      /\ portfolio'
         = Dict.set asset_name
             (added_holding (Dict.get asset_name (stored_portfolio user_id disk))
                            x q p)
             (stored_portfolio user_id disk)
      /\ stored_portfolio user_id disk' = portfolio'.
Proof.
  intros user_id asset_name x y disk disk' portfolio' H.
  unfold DiskLedger.add_asset, Ledger.add_asset, raise_if in H.
  destruct (falsy user_id); [discriminate |].
  destruct (falsy asset_name); [discriminate |].
  destruct (Float64.leb x Float64.zero); [discriminate |].
  destruct (Float64.ltb y Float64.zero); [discriminate |].
  unfold stored_portfolio at 1 2.
  destruct (Disk.load_memory user_id disk) as [memory | e]; [| discriminate].
  cbn [bind] in H. cbv zeta in H.
  assert (Hsame :
            forall portfolio1 : Portfolio,
              (store' <- Disk.save_memory user_id
                           (memory_set_portfolio memory portfolio1) disk ;;
               Ok (portfolio1, store')) = Ok (portfolio', disk') ->
              portfolio1 = portfolio'
              /\ stored_portfolio user_id disk' = portfolio').
  { intros portfolio1 Hsave.
    destruct (Disk.save_memory user_id
                (memory_set_portfolio memory portfolio1) disk)
      as [d1 | e] eqn:E; [| discriminate].
    cbn [bind] in Hsave. injection Hsave as <- <-.
    split; [reflexivity |]. apply (stored_after_save _ _ _ _ _ E). }
  destruct (Dict.get asset_name (memory_portfolio memory)) as [h |];
    destruct (round_half_up x) as [q | e]; try discriminate;
    destruct (round_half_up y) as [p | e]; try discriminate;
    cbn [bind] in H; apply Hsame in H; destruct H as [<- Hstored];
    exists q, p; repeat split; try reflexivity; exact Hstored.
Qed.

(** After a successful [add_asset], the line [show portfolio] prints for the
    asset gives the holding's stored quantity and the price just paid, rounded
    half-up to two decimals, both printed with two decimals: the latest
    purchase is what the user is shown. *)
Theorem added_asset_is_shown :
  forall (user_id asset_name : string) (x y : Float64.float)
         (disk disk' : Disk.disk) (portfolio' : Portfolio),
    DiskLedger.add_asset user_id asset_name x y disk = Ok (portfolio', disk') ->
    exists (h' : Holding.t) (p : Float64.float),
      Dict.get asset_name (stored_portfolio user_id disk') = Some h'
      /\ round_half_up y = Ok p
      /\ Agent.portfolio_line (asset_name, h')
         = Ok (asset_name ++ ": " ++ Str.fixed2 (Holding.quantity h')
                 ++ " units at $" ++ Str.fixed2 p)%string.
Proof.
  intros user_id asset_name x y disk disk' portfolio' H.
  apply disk_add_asset_Ok_inv in H.
  destruct H as (q & p & _ & Hp & Hpf & Hstored).
  eexists. exists p. rewrite Hstored, Hpf, get_set_same.
  split; [reflexivity |]. split; [exact Hp |].
  unfold Agent.portfolio_line, added_holding.
  destruct (Dict.get asset_name (stored_portfolio user_id disk)) as [h |];
    cbn [Holding.purchase_prices Holding.quantity].
  - rewrite last_item_app. reflexivity.
  - reflexivity.
Qed.


(** The theorem on a first purchase with no memory file: 0.5 BTC at
    31000.129 is shown as 0.50 units at 31000.13. *)
Lemma added_asset_is_shown_witness :
  exists (portfolio' : Portfolio) (disk' : Disk.disk) (h' : Holding.t),
    DiskLedger.add_asset "user1" "BTC" (lit 5 (-1)) (lit 31000129 (-3))
                         Disk.Absent
    = Ok (portfolio', disk')
    /\ Dict.get "BTC" (stored_portfolio "user1" disk') = Some h'
    /\ Agent.portfolio_line ("BTC"%string, h')
       = Ok "BTC: 0.50 units at $31000.13"%string.
Proof.
  eexists. eexists.
  assert (Hadd : DiskLedger.add_asset "user1" "BTC" (lit 5 (-1))
                   (lit 31000129 (-3)) Disk.Absent
                 = Ok ([("BTC"%string,
                         Holding.mk (lit 5 (-1))
                           [Lot.mk (lit 5 (-1)) (lit 3100013 (-2))] None)],
                       Disk.Stored
                         [("user1"%string,
                           mkMemory
                             (Some [("BTC"%string,
                                     Holding.mk (lit 5 (-1))
                                       [Lot.mk (lit 5 (-1)) (lit 3100013 (-2))]
                                       None)])
                             [])]))
    by (vm_compute; reflexivity).
  destruct (added_asset_is_shown "user1" "BTC" (lit 5 (-1)) (lit 31000129 (-3))
              Disk.Absent _ _ Hadd) as (h' & p & Hget & Hp & Hline).
  exists h'. split; [exact Hadd |]. split; [exact Hget |].
  rewrite Hline.
  assert (Hp' : round_half_up (lit 31000129 (-3)) = Ok (lit 3100013 (-2)))
    by (vm_compute; reflexivity).
  rewrite Hp' in Hp. injection Hp as <-.
  vm_compute in Hget. injection Hget as <-.
  vm_compute. reflexivity.
Defined.
